(** * promgather: a shallow embedding of must-gather/promgather/main.go

    The program collects Prometheus metrics of the storage subsystem: it
    asks [oc] for a token and a host, lists the metric names, and stores
    one range query per metric under [./prom-metrics].

    Go strings are byte sequences and are modelled as [string] (a list of
    8-bit [ascii]).  The functions of the Go standard library the program
    calls ([strings], [net/url], [net/textproto], [net/http],
    [encoding/json], [os], [time], [fmt]) are modelled after the Go 1.22
    sources, one module per package; the program itself is the module
    [Promgather]. *)

From Stdlib Require Import ZArith NArith Ascii String DecimalString DecimalZ Bool Lia.
From stdpp Require Import gmap strings list fin_maps.

Set Warnings "-register-all,-abstract-large-number".
Local Open Scope Z_scope.

(** ** Bytes *)

Module GoByte.

Definition code (c : ascii) : N := N_of_ascii c.

(** [lo <= c && c <= hi] on bytes. *)
Definition between (lo hi c : ascii) : bool :=
  ((code lo <=? code c) && (code c <=? code hi))%N.

Definition eqb (a b : ascii) : bool := Ascii.eqb a b.

Definition isLower (c : ascii) : bool := between "a" "z" c.
Definition isUpper (c : ascii) : bool := between "A" "Z" c.
Definition isDigit (c : ascii) : bool := between "0" "9" c.
Definition isAlnum (c : ascii) : bool := isLower c || isUpper c || isDigit c.

(** [c < utf8.RuneSelf] *)
Definition isASCII (c : ascii) : bool := (code c <? 128)%N.

Definition toLower (c : ascii) : ascii :=
  if isUpper c then ascii_of_N (code c + 32) else c.
Definition toUpper (c : ascii) : ascii :=
  if isLower c then ascii_of_N (code c - 32) else c.

(** Membership of a byte in a set written as a string, as in Go's
    [switch c { case '-', '_', ...}]. *)
Fixpoint oneOf (set : string) (c : ascii) : bool :=
  match set with
  | EmptyString => false
  | String x set' => eqb c x || oneOf set' c
  end.

Definition LF : ascii := "010".
Definition DQUOTE : ascii := "034".

End GoByte.

(** ** Package strings *)

Module GoStrings.

Definition len (s : string) : nat := String.length s.

Definition isEmpty (s : string) : bool :=
  match s with EmptyString => true | String _ _ => false end.

(** [s[:n]] and [s[n:]] *)
Fixpoint take (n : nat) (s : string) : string :=
  match n, s with
  | S n', String c s' => String c (take n' s')
  | _, _ => EmptyString
  end.
Fixpoint drop (n : nat) (s : string) : string :=
  match n, s with
  | S n', String _ s' => drop n' s'
  | _, _ => s
  end.

Fixpoint all (p : ascii -> bool) (s : string) : bool :=
  match s with
  | EmptyString => true
  | String c s' => p c && all p s'
  end.

Fixpoint any (p : ascii -> bool) (s : string) : bool :=
  match s with
  | EmptyString => false
  | String c s' => p c || any p s'
  end.

Fixpoint map (f : ascii -> ascii) (s : string) : string :=
  match s with
  | EmptyString => EmptyString
  | String c s' => String (f c) (map f s')
  end.

Definition HasPrefix (s pre : string) : bool := String.prefix pre s.

Fixpoint HasSuffix (s suf : string) : bool :=
  String.eqb s suf ||
  match s with
  | EmptyString => false
  | String _ s' => HasSuffix s' suf
  end.

(** [strings.Index]: [None] stands for Go's [-1]. *)
Fixpoint Index (s sep : string) : option nat :=
  if String.prefix sep s then Some 0%nat
  else match s with
       | EmptyString => None
       | String _ s' => S <$> Index s' sep
       end.

Fixpoint LastIndex (s sep : string) : option nat :=
  match s with
  | EmptyString => if isEmpty sep then Some 0%nat else None
  | String _ s' =>
      match LastIndex s' sep with
      | Some i => Some (S i)
      | None => if String.prefix sep s then Some 0%nat else None
      end
  end.

Definition Contains (s sub : string) : bool :=
  match Index s sub with Some _ => true | None => false end.

(** [strings.Count] for a one-byte separator, the only use in [net/url]. *)
Fixpoint CountByte (s : string) (c : ascii) : nat :=
  match s with
  | EmptyString => 0%nat
  | String x s' => ((if GoByte.eqb x c then 1 else 0) + CountByte s' c)%nat
  end.

(** [strings.Cut] *)
Definition Cut (s sep : string) : string * string * bool :=
  match Index s sep with
  | Some i => (take i s, drop (i + len sep) s, true)
  | None => (s, EmptyString, false)
  end.

(** [strings.ToLower] on ASCII letters; other bytes are kept.  The only
    caller passes a URL scheme, which [getScheme] restricts to ASCII. *)
Definition ToLower (s : string) : string := map GoByte.toLower s.

Fixpoint trimLeftByte (s : string) (c : ascii) : string :=
  match s with
  | String x s' => if GoByte.eqb x c then trimLeftByte s' c else s
  | EmptyString => EmptyString
  end.

(** The loop [for len(s) > 0 && s[len(s)-1] == c { s = s[:len(s)-1] }],
    by recursion from the left: a byte is kept unless it equals [c] and
    everything after it was trimmed away. *)
Fixpoint trimRightByte (s : string) (c : ascii) : string :=
  match s with
  | String x s' =>
      match trimRightByte s' c with
      | EmptyString => if GoByte.eqb x c then EmptyString else String x EmptyString
      | r => String x r
      end
  | EmptyString => EmptyString
  end.

Fixpoint trimLeftSet (s cutset : string) : string :=
  match s with
  | String x s' => if GoByte.oneOf cutset x then trimLeftSet s' cutset else s
  | EmptyString => EmptyString
  end.

Fixpoint trimRightSet (s cutset : string) : string :=
  match s with
  | String x s' =>
      match trimRightSet s' cutset with
      | EmptyString =>
          if GoByte.oneOf cutset x then EmptyString else String x EmptyString
      | r => String x r
      end
  | EmptyString => EmptyString
  end.

(** [strings.Trim].  The one-byte ASCII cut set takes Go's fast path
    [trimLeftByte(trimRightByte(s, c), c)]; a longer cut set of ASCII
    bytes goes through the ASCII-set path.  Cut sets with bytes above
    0x7f (Go decodes them as UTF-8 runes) are outside this model; the
    program's only cut set is the newline. *)
Definition Trim (s cutset : string) : string :=
  if isEmpty s || isEmpty cutset then s
  else match cutset with
       | String c EmptyString =>
           if GoByte.isASCII c then trimLeftByte (trimRightByte s c) c
           else trimLeftSet (trimRightSet s cutset) cutset
       | _ => trimLeftSet (trimRightSet s cutset) cutset
       end.

Fixpoint repeat (c : ascii) (n : nat) : string :=
  match n with
  | O => EmptyString
  | S n' => String c (repeat c n')
  end.

Fixpoint concat (l : list string) : string :=
  match l with
  | [] => EmptyString
  | s :: l' => s +:+ concat l'
  end.

End GoStrings.

(** ** Packages fmt and time *)

Module Fmt.
(** [fmt.Sprintf("%d", n)] for an integer [n]. *)
Definition Sprintf_d (n : Z) : string := NilEmpty.string_of_int (Z.to_int n).
End Fmt.

Module Time.
(** A [time.Time] as [time.Now] returns it: the reading of the wall
    clock, in nanoseconds since the Unix epoch, and the reading of the
    monotonic clock, in nanoseconds.  A [time.Duration] is a number of
    nanoseconds in the range of [int64]. *)
Record Time : Type := mkTime { wall : Z; mono : Z }.
Definition Duration := Z.
Definition Second : Duration := 1000000000.
Definition Hour : Duration := 3600 * Second.
Definition minDuration : Duration := - 2 ^ 63.
Definition maxDuration : Duration := 2 ^ 63 - 1.
(** [t.Add(d)] moves both readings. *)
Definition Add (t : Time) (d : Duration) : Time := mkTime (wall t + d) (mono t + d).
(** [t.Sub(u)] for two values that carry a monotonic reading, as all
    values of [time.Now] do: the difference of the monotonic readings,
    whatever became of the wall clock in between, kept within the range
    of a [Duration].  [time.Since(u)] is [time.Now().Sub(u)]. *)
Definition Sub (t u : Time) : Duration :=
  Z.max minDuration (Z.min maxDuration (mono t - mono u)).
(** [t.Unix()]: whole seconds of the wall clock since the epoch, rounded
    down. *)
Definition Unix (t : Time) : Z := wall t / Second.
End Time.

(** ** Errors

    A Go [error] value.  The constructors follow the error types the
    program can meet; their payload is what [%v] would print from. *)

Inductive url_cause : Type :=
  | InvalidControlCharacter          (* "net/url: invalid control character in URL" *)
  | EmptyURL                         (* "empty url" *)
  | MissingProtocolScheme            (* "missing protocol scheme" *)
  | InvalidURIForRequest             (* "invalid URI for request" *)
  | FirstPathSegmentColon            (* "first path segment in URL cannot contain colon" *)
  | EscapeError (s : string)         (* url.EscapeError *)
  | InvalidHostError (s : string)    (* url.InvalidHostError *)
  | MissingBracket                   (* "missing ']' in host" *)
  | InvalidPort (colonPort : string) (* "invalid port ... after host" *)
  | InvalidUserinfo                  (* "net/url: invalid userinfo" *)
  | InvalidSemicolon.                (* "invalid semicolon separator in query" *)

Inductive json_cause : Type :=
  | JsonEOF                          (* io.EOF: no value in the stream *)
  | JsonUnexpectedEOF                (* io.ErrUnexpectedEOF *)
  | JsonSyntax                       (* *json.SyntaxError *)
  | JsonTypeMismatch (field : string) (* *json.UnmarshalTypeError *)
  | JsonRead (msg : string).         (* the reader's own error *)

Inductive error : Type :=
  | UrlError (op url : string) (cause : url_cause)  (* *url.Error *)
  | ExecError (msg : string)                        (* os/exec: start failure or *exec.ExitError *)
  | HttpError (msg : string)                        (* net/http: NewRequest, Client.Do *)
  | BodyReadError (msg : string)                    (* reading a response body *)
  | JsonError (cause : json_cause)
  | PathError (op path msg : string).               (* *fs.PathError *)

Inductive result (A E : Type) : Type :=
  | Ok (a : A)
  | Err (e : E).
Arguments Ok {A E} a.
Arguments Err {A E} e.

(** ** Package net/url *)

Module Url.
Import GoStrings.

Inductive encoding : Type :=
  | encodePath
  | encodePathSegment
  | encodeHost
  | encodeZone
  | encodeUserPassword
  | encodeQueryComponent
  | encodeFragment.

Definition encoding_eqb (a b : encoding) : bool :=
  match a, b with
  | encodePath, encodePath
  | encodePathSegment, encodePathSegment
  | encodeHost, encodeHost
  | encodeZone, encodeZone
  | encodeUserPassword, encodeUserPassword
  | encodeQueryComponent, encodeQueryComponent
  | encodeFragment, encodeFragment => true
  | _, _ => false
  end.

Definition ishex (c : ascii) : bool :=
  GoByte.isDigit c || GoByte.between "a" "f" c || GoByte.between "A" "F" c.

Definition unhex (c : ascii) : N :=
  if GoByte.isDigit c then GoByte.code c - GoByte.code "0"
  else if GoByte.between "a" "f" c then GoByte.code c - GoByte.code "a" + 10
  else if GoByte.between "A" "F" c then GoByte.code c - GoByte.code "A" + 10
  else 0.

(** ["0123456789ABCDEF"[n]] *)
Definition upperhex (n : N) : ascii :=
  if (n <? 10)%N then ascii_of_N (GoByte.code "0" + n)
  else ascii_of_N (GoByte.code "A" + (n - 10)).

Definition shouldEscape (c : ascii) (mode : encoding) : bool :=
  if GoByte.isAlnum c then false
  else if (encoding_eqb mode encodeHost || encoding_eqb mode encodeZone)
          && (GoByte.oneOf "!$&'()*+,;=:[]<>" c || GoByte.eqb c GoByte.DQUOTE)
  then false
  else if GoByte.oneOf "-_.~" c then false
  else if GoByte.oneOf "$&+,/:;=?@" c then
    match mode with
    | encodePath => GoByte.eqb c "?"
    | encodePathSegment => GoByte.oneOf "/;,?" c
    | encodeUserPassword => GoByte.oneOf "@/?:" c
    | encodeQueryComponent => true
    | encodeFragment => false
    | encodeHost | encodeZone => true
    end
  else if encoding_eqb mode encodeFragment && GoByte.oneOf "!()*" c then false
  else true.

(** First loop of [unescape]: [None] when every escape is well formed
    and every byte is allowed in [mode]. *)
Fixpoint unescapeCheck (s : string) (mode : encoding) : option url_cause :=
  match s with
  | EmptyString => None
  | String c s1 =>
      if GoByte.eqb c "%" then
        match s1 with
        | String a (String b s3) =>
            if negb (ishex a && ishex b) then Some (EscapeError (take 3 s))
            else if encoding_eqb mode encodeHost && (unhex a <? 8)%N
                    && negb (String.eqb (take 3 s) "%25")
                 then Some (EscapeError (take 3 s))
            else if encoding_eqb mode encodeZone
                    && negb (String.eqb (take 3 s) "%25")
                    && negb (GoByte.eqb (ascii_of_N (unhex a * 16 + unhex b)) " ")
                    && shouldEscape (ascii_of_N (unhex a * 16 + unhex b)) encodeHost
                 then Some (EscapeError (take 3 s))
            else unescapeCheck s3 mode
        | _ => Some (EscapeError (take 3 s))
        end
      else if GoByte.eqb c "+" then unescapeCheck s1 mode
      else if (encoding_eqb mode encodeHost || encoding_eqb mode encodeZone)
              && GoByte.isASCII c && shouldEscape c encodeHost
           then Some (InvalidHostError (String c EmptyString))
      else unescapeCheck s1 mode
  end.

(** Second loop of [unescape], run on a string that passed the first. *)
Fixpoint unescapeDecode (s : string) (mode : encoding) : string :=
  match s with
  | EmptyString => EmptyString
  | String c s1 =>
      if GoByte.eqb c "%" then
        match s1 with
        | String a (String b s3) =>
            String (ascii_of_N (unhex a * 16 + unhex b)) (unescapeDecode s3 mode)
        | _ => EmptyString
        end
      else if GoByte.eqb c "+" then
        String (if encoding_eqb mode encodeQueryComponent then " " else "+")
               (unescapeDecode s1 mode)
      else String c (unescapeDecode s1 mode)
  end.

Definition unescape (s : string) (mode : encoding) : result string url_cause :=
  match unescapeCheck s mode with
  | Some e => Err e
  | None =>
      let n := CountByte s "%" in
      let hasPlus := any (fun c => GoByte.eqb c "+") s
                     && encoding_eqb mode encodeQueryComponent in
      if Nat.eqb n 0 && negb hasPlus then Ok s
      else Ok (unescapeDecode s mode)
  end.

(** [escape]: a space becomes [+] in a query component, a byte that
    [shouldEscape] becomes [%XX], every other byte is copied. *)
Fixpoint escape (s : string) (mode : encoding) : string :=
  match s with
  | EmptyString => EmptyString
  | String c s' =>
      if GoByte.eqb c " " && encoding_eqb mode encodeQueryComponent
      then String "+" (escape s' mode)
      else if shouldEscape c mode
      then String "%" (String (upperhex (GoByte.code c / 16))
                      (String (upperhex (GoByte.code c mod 16)) (escape s' mode)))
      else String c (escape s' mode)
  end.

Definition QueryEscape (s : string) : string := escape s encodeQueryComponent.
Definition QueryUnescape (s : string) : result string url_cause :=
  unescape s encodeQueryComponent.

Record Userinfo : Type := mkUserinfo {
  username : string;
  password : string;
  passwordSet : bool
}.

Record URL : Type := mkURL {
  Scheme : string;
  Opaque : string;
  User : option Userinfo;
  Host : string;
  Path : string;
  RawPath : string;
  OmitHost : bool;
  ForceQuery : bool;
  RawQuery : string;
  Fragment : string;
  RawFragment : string
}.

(** [new(URL)] *)
Definition zeroURL : URL :=
  mkURL "" "" None "" "" "" false false "" "" "".

Definition withPath (u : URL) (path rawPath : string) : URL :=
  mkURL (Scheme u) (Opaque u) (User u) (Host u) path rawPath
        (OmitHost u) (ForceQuery u) (RawQuery u) (Fragment u) (RawFragment u).
Definition withFragment (u : URL) (frag rawFrag : string) : URL :=
  mkURL (Scheme u) (Opaque u) (User u) (Host u) (Path u) (RawPath u)
        (OmitHost u) (ForceQuery u) (RawQuery u) frag rawFrag.
Definition withRawQuery (u : URL) (q : string) : URL :=
  mkURL (Scheme u) (Opaque u) (User u) (Host u) (Path u) (RawPath u)
        (OmitHost u) (ForceQuery u) q (Fragment u) (RawFragment u).
Definition withHost (u : URL) (h : string) : URL :=
  mkURL (Scheme u) (Opaque u) (User u) h (Path u) (RawPath u)
        (OmitHost u) (ForceQuery u) (RawQuery u) (Fragment u) (RawFragment u).

Definition stringContainsCTLByte (s : string) : bool :=
  any (fun b => (GoByte.code b <? 32)%N || GoByte.eqb b "127") s.

(** [getScheme], with the loop index [i == 0] passed as [first]. *)
Fixpoint getSchemeFrom (first : bool) (rawURL s : string) (i : nat)
  : result (string * string) url_cause :=
  match s with
  | EmptyString => Ok (EmptyString, rawURL)
  | String c s' =>
      if GoByte.isLower c || GoByte.isUpper c then getSchemeFrom false rawURL s' (S i)
      else if GoByte.isDigit c || GoByte.oneOf "+-." c then
        if first then Ok (EmptyString, rawURL)
        else getSchemeFrom false rawURL s' (S i)
      else if GoByte.eqb c ":" then
        if first then Err MissingProtocolScheme
        else Ok (take i rawURL, s')
      else Ok (EmptyString, rawURL)
  end.

Definition getScheme (rawURL : string) : result (string * string) url_cause :=
  getSchemeFrom true rawURL rawURL 0.

Definition validOptionalPort (port : string) : bool :=
  match port with
  | EmptyString => true
  | String c digits => GoByte.eqb c ":" && all GoByte.isDigit digits
  end.

Definition validUserinfo (s : string) : bool :=
  all (fun r => GoByte.isAlnum r || GoByte.oneOf "-._:~!$&'()*+,;=%@" r) s.

Definition parseHost (host : string) : result string url_cause :=
  let plain := unescape host encodeHost in
  if HasPrefix host "[" then
    match LastIndex host "]" with
    | None => Err MissingBracket
    | Some i =>
        let colonPort := drop (i + 1) host in
        if negb (validOptionalPort colonPort) then Err (InvalidPort colonPort)
        else match Index (take i host) "%25" with
             | Some zone =>
                 match unescape (take zone host) encodeHost with
                 | Err e => Err e
                 | Ok host1 =>
                     match unescape (take (i - zone) (drop zone host)) encodeZone with
                     | Err e => Err e
                     | Ok host2 =>
                         match unescape (drop i host) encodeHost with
                         | Err e => Err e
                         | Ok host3 => Ok (host1 +:+ host2 +:+ host3)
                         end
                     end
                 end
             | None => plain
             end
    end
  else match LastIndex host ":" with
       | Some i =>
           let colonPort := drop i host in
           if negb (validOptionalPort colonPort) then Err (InvalidPort colonPort)
           else plain
       | None => plain
       end.

Definition parseAuthority (authority : string)
  : result (option Userinfo * string) url_cause :=
  match LastIndex authority "@" with
  | None =>
      match parseHost authority with
      | Err e => Err e
      | Ok host => Ok (None, host)
      end
  | Some i =>
      match parseHost (drop (i + 1) authority) with
      | Err e => Err e
      | Ok host =>
          let userinfo := take i authority in
          if negb (validUserinfo userinfo) then Err InvalidUserinfo
          else if negb (Contains userinfo ":") then
            match unescape userinfo encodeUserPassword with
            | Err e => Err e
            | Ok name => Ok (Some (mkUserinfo name "" false), host)
            end
          else
            let '(name, pass, _) := Cut userinfo ":" in
            match unescape name encodeUserPassword with
            | Err e => Err e
            | Ok name' =>
                match unescape pass encodeUserPassword with
                | Err e => Err e
                | Ok pass' => Ok (Some (mkUserinfo name' pass' true), host)
                end
            end
      end
  end.

Definition setPath (u : URL) (p : string) : result URL url_cause :=
  match unescape p encodePath with
  | Err e => Err e
  | Ok path =>
      if String.eqb p (escape path encodePath) then Ok (withPath u path "")
      else Ok (withPath u path p)
  end.

Definition setFragment (u : URL) (f : string) : result URL url_cause :=
  match unescape f encodeFragment with
  | Err e => Err e
  | Ok frag =>
      if String.eqb f (escape frag encodeFragment) then Ok (withFragment u frag "")
      else Ok (withFragment u frag f)
  end.

(** The split of [parse] at the query: a lone trailing [?] forces an
    empty query, otherwise the text after the first [?] is the query. *)
Definition splitQuery (rest : string) : bool * string * string :=
  if HasSuffix rest "?" && Nat.eqb (CountByte rest "?") 1
  then (true, take (len rest - 1) rest, EmptyString)
  else let '(r, q, _) := Cut rest "?" in (false, r, q).

(** The split of [rest[2:]] at the first [/] into authority and path. *)
Definition splitAuthority (rest : string) : string * string :=
  let authority := drop 2 rest in
  match Index authority "/" with
  | Some i => (take i authority, drop i authority)
  | None => (authority, EmptyString)
  end.

(** [parse] after the scheme and the query are split off. *)
Definition parseHier (scheme : string) (forceQuery : bool) (rest rawQuery : string)
                     (viaRequest : bool) : result URL url_cause :=
  let url := mkURL scheme "" None "" "" "" false forceQuery rawQuery "" "" in
  if negb (HasPrefix rest "/") && negb (isEmpty scheme) then
    (* a rootless path after a scheme is opaque *)
    Ok (mkURL scheme rest None "" "" "" false forceQuery rawQuery "" "")
  else if negb (HasPrefix rest "/") && viaRequest then Err InvalidURIForRequest
  else if negb (HasPrefix rest "/")
          && Contains (fst (fst (Cut rest "/"))) ":" then Err FirstPathSegmentColon
  else if (negb (isEmpty scheme)
           || negb viaRequest && negb (HasPrefix rest "///"))
          && HasPrefix rest "//" then
    let '(authority, rest') := splitAuthority rest in
    match parseAuthority authority with
    | Err e => Err e
    | Ok (user, host) =>
        setPath (mkURL scheme "" user host "" "" false forceQuery rawQuery "" "") rest'
    end
  else if negb (isEmpty scheme) && HasPrefix rest "/" then
    setPath (mkURL scheme "" None "" "" "" true forceQuery rawQuery "" "") rest
  else setPath url rest.

Definition parse (rawURL : string) (viaRequest : bool) : result URL url_cause :=
  if stringContainsCTLByte rawURL then Err InvalidControlCharacter
  else if isEmpty rawURL && viaRequest then Err EmptyURL
  else if String.eqb rawURL "*" then Ok (withPath zeroURL "*" "")
  else
    match getScheme rawURL with
    | Err e => Err e
    | Ok (scheme, rest) =>
        let '(forceQuery, rest', rawQuery) := splitQuery rest in
        parseHier (ToLower scheme) forceQuery rest' rawQuery viaRequest
    end.

(** [url.Parse]; an error is wrapped as [&url.Error{"parse", ...}]. *)
Definition Parse (rawURL : string) : result URL error :=
  let '(u, frag, _) := Cut rawURL "#" in
  match parse u false with
  | Err e => Err (UrlError "parse" u e)
  | Ok url =>
      if isEmpty frag then Ok url
      else match setFragment url frag with
           | Err e => Err (UrlError "parse" rawURL e)
           | Ok url' => Ok url'
           end
  end.

Definition validEncoded (s : string) (mode : encoding) : bool :=
  all (fun c => GoByte.oneOf "!$&'()*+,;=:@[]%" c || negb (shouldEscape c mode)) s.

Definition EscapedPath (u : URL) : string :=
  let fallback :=
    if String.eqb (Path u) "*" then "*" else escape (Path u) encodePath in
  if negb (isEmpty (RawPath u)) && validEncoded (RawPath u) encodePath then
    match unescape (RawPath u) encodePath with
    | Ok p => if String.eqb p (Path u) then RawPath u else fallback
    | Err _ => fallback
    end
  else fallback.

Definition EscapedFragment (u : URL) : string :=
  let fallback := escape (Fragment u) encodeFragment in
  if negb (isEmpty (RawFragment u)) && validEncoded (RawFragment u) encodeFragment then
    match unescape (RawFragment u) encodeFragment with
    | Ok f => if String.eqb f (Fragment u) then RawFragment u else fallback
    | Err _ => fallback
    end
  else fallback.

(** The segments that repeated [strings.Cut(remaining, "/")] yields. *)
Fixpoint segments (s : string) : list string :=
  match s with
  | EmptyString => [EmptyString]
  | String c s' =>
      if GoByte.eqb c "/" then EmptyString :: segments s'
      else match segments s' with
           | h :: t => String c h :: t
           | [] => [String c EmptyString]
           end
  end.

(** One turn of the loop of [resolvePath] on the pair [(dst, first)]. *)
Definition resolveStep (acc : string * bool) (elem : string) : string * bool :=
  let '(dst, first) := acc in
  if String.eqb elem "." then (dst, false)
  else if String.eqb elem ".." then
    let str := drop 1 dst in
    match LastIndex str "/" with
    | None => ("/", true)
    | Some index => ("/" +:+ take index str, first)
    end
  else ((if first then dst else dst +:+ "/") +:+ elem, false).

Definition resolvePath (base ref : string) : string :=
  let full :=
    match ref with
    | EmptyString => base
    | String c _ =>
        if GoByte.eqb c "/" then ref
        else match LastIndex base "/" with
             | Some i => take (i + 1) base +:+ ref
             | None => ref
             end
    end in
  if isEmpty full then EmptyString
  else
    let elems := segments full in
    let '(dst, _) := fold_left resolveStep elems ("/", true) in
    let elem := List.last elems EmptyString in
    let dst' := if String.eqb elem "." || String.eqb elem ".."
                then dst +:+ "/" else dst in
    match dst' with
    | String _ (String c r) => if GoByte.eqb c "/" then String c r else dst'
    | _ => dst'
    end.

(** [setPath] ignoring its error, as [ResolveReference] does. *)
Definition setPath' (u : URL) (p : string) : URL :=
  match setPath u p with Ok u' => u' | Err _ => u end.

Definition ResolveReference (u ref : URL) : URL :=
  let url := if isEmpty (Scheme ref)
             then mkURL (Scheme u) (Opaque ref) (User ref) (Host ref) (Path ref)
                        (RawPath ref) (OmitHost ref) (ForceQuery ref) (RawQuery ref)
                        (Fragment ref) (RawFragment ref)
             else ref in
  if negb (isEmpty (Scheme ref)) || negb (isEmpty (Host ref))
     || match User ref with Some _ => true | None => false end then
    setPath' url (resolvePath (EscapedPath ref) "")
  else if negb (isEmpty (Opaque ref)) then
    mkURL (Scheme url) (Opaque url) None "" "" (RawPath url) (OmitHost url)
          (ForceQuery url) (RawQuery url) (Fragment url) (RawFragment url)
  else
    let url1 :=
      if isEmpty (Path ref) && negb (ForceQuery ref) && isEmpty (RawQuery ref) then
        if isEmpty (Fragment ref)
        then withFragment (withRawQuery url (RawQuery u)) (Fragment u) (RawFragment u)
        else withRawQuery url (RawQuery u)
      else url in
    if isEmpty (Path ref) && negb (isEmpty (Opaque u)) then
      mkURL (Scheme url1) (Opaque u) None "" "" (RawPath url1) (OmitHost url1)
            (ForceQuery url1) (RawQuery url1) (Fragment url1) (RawFragment url1)
    else
      setPath' (mkURL (Scheme url1) (Opaque url1) (User u) (Host u) (Path url1)
                      (RawPath url1) (OmitHost url1) (ForceQuery url1)
                      (RawQuery url1) (Fragment url1) (RawFragment url1))
               (resolvePath (EscapedPath u) (EscapedPath ref)).

Definition UserinfoString (ui : Userinfo) : string :=
  escape (username ui) encodeUserPassword +:+
  (if passwordSet ui then ":" +:+ escape (password ui) encodeUserPassword
   else EmptyString).

(** [URL.String] *)
Definition String_ (u : URL) : string :=
  let head := if isEmpty (Scheme u) then EmptyString else Scheme u +:+ ":" in
  let body :=
    if negb (isEmpty (Opaque u)) then head +:+ Opaque u
    else
      let hasUser := match User u with Some _ => true | None => false end in
      let auth :=
        if negb (isEmpty (Scheme u)) || negb (isEmpty (Host u)) || hasUser then
          if OmitHost u && isEmpty (Host u) && negb hasUser then EmptyString
          else
            (if negb (isEmpty (Host u)) || negb (isEmpty (Path u)) || hasUser
             then "//" else EmptyString) +:+
            match User u with
            | Some ui => UserinfoString ui +:+ "@"
            | None => EmptyString
            end +:+
            (if isEmpty (Host u) then EmptyString else escape (Host u) encodeHost)
        else EmptyString in
      let path := EscapedPath u in
      let slash :=
        if negb (isEmpty path) && negb (HasPrefix path "/") && negb (isEmpty (Host u))
        then "/" else EmptyString in
      let buf := head +:+ auth +:+ slash in
      let dot :=
        if isEmpty buf && Contains (fst (fst (Cut path "/"))) ":"
        then "./" else EmptyString in
      buf +:+ dot +:+ path in
  body +:+
  (if ForceQuery u || negb (isEmpty (RawQuery u)) then "?" +:+ RawQuery u
   else EmptyString) +:+
  (if isEmpty (Fragment u) then EmptyString else "#" +:+ EscapedFragment u).

(** [url.Values]: a Go [map[string][]string]. *)
Abbreviation Values := (gmap string (list string)).

Definition Set_ (v : Values) (key value : string) : Values := <[key := [value]]> v.
Definition Get (v : Values) (key : string) : string :=
  match v !! key with
  | Some (x :: _) => x
  | _ => EmptyString
  end.

(** One pass of the loop of [parseQuery] over the [&]-separated pieces. *)
Definition parseQueryStep (acc : Values * option url_cause) (piece : string)
  : Values * option url_cause :=
  let '(m, err) := acc in
  if Contains piece ";" then (m, Some InvalidSemicolon)
  else if isEmpty piece then (m, err)
  else
    let '(key, value, _) := Cut piece "=" in
    match QueryUnescape key with
    | Err e => (m, match err with None => Some e | Some _ => err end)
    | Ok key' =>
        match QueryUnescape value with
        | Err e => (m, match err with None => Some e | Some _ => err end)
        | Ok value' => (<[key' := default [] (m !! key') ++ [value']]> m, err)
        end
    end.

(** The pieces that repeated [strings.Cut(query, "&")] yields while
    [query != ""]. *)
Fixpoint pieces (s : string) : list string :=
  match s with
  | EmptyString => []
  | String c s' =>
      if GoByte.eqb c "&" then EmptyString :: pieces s'
      else match pieces s' with
           | h :: t => String c h :: t
           | [] => [String c EmptyString]
           end
  end.

Definition ParseQuery (query : string) : Values * option url_cause :=
  fold_left parseQueryStep (pieces query) (∅, None).

(** [URL.Query] drops the error. *)
Definition Query (u : URL) : Values := fst (ParseQuery (RawQuery u)).

Fixpoint insertSorted (k : string) (l : list string) : list string :=
  match l with
  | [] => [k]
  | x :: l' => if String.leb k x then k :: l else x :: insertSorted k l'
  end.

(** [slices.Sort(keys)] *)
Definition sortKeys (l : list string) : list string := foldr insertSorted [] l.

(** [(Values).Encode]: keys in sorted order, each value as
    [QueryEscape(k) = QueryEscape(v)], joined by [&]. *)
Definition encodePairs (v : Values) : list string :=
  flat_map (fun k => List.map (fun x => QueryEscape k +:+ "=" +:+ QueryEscape x)
                              (default [] (v !! k)))
           (sortKeys (List.map fst (map_to_list v))).

Fixpoint join (l : list string) (sep : string) : string :=
  match l with
  | [] => EmptyString
  | [x] => x
  | x :: l' => x +:+ sep +:+ join l' sep
  end.

Definition Encode (v : Values) : string := join (encodePairs v) "&".

End Url.

(** ** Package net/textproto *)

Module Textproto.
Import GoStrings.

(** Token bytes of RFC 7230: letters, digits and [!#$%&'*+-.^_`|~]. *)
Definition validHeaderFieldByte (c : ascii) : bool :=
  GoByte.isAlnum c || GoByte.oneOf "!#$%&'*+-.^_`|~" c.

(** Second loop of [canonicalMIMEHeaderKey]: upper case for the first
    letter and after each dash, lower case elsewhere. *)
Fixpoint canonicalize (upper : bool) (a : string) : string :=
  match a with
  | EmptyString => EmptyString
  | String c a' =>
      let c' := if upper && GoByte.isLower c then GoByte.toUpper c
                else if negb upper && GoByte.isUpper c then GoByte.toLower c
                else c in
      String c' (canonicalize (GoByte.eqb c' "-") a')
  end.

(** First loop of [canonicalMIMEHeaderKey]: [None] on a byte that is
    neither a token byte nor a space, otherwise [Some noCanon]. *)
Fixpoint looksLikeKey (a : string) (noCanon : bool) : option bool :=
  match a with
  | EmptyString => Some noCanon
  | String c a' =>
      if validHeaderFieldByte c then looksLikeKey a' noCanon
      else if GoByte.eqb c " " then looksLikeKey a' true
      else None
  end.

Definition canonicalMIMEHeaderKey (a : string) : string * bool :=
  match looksLikeKey a false with
  | None => (a, false)
  | Some true => (a, true)
  | Some false => (canonicalize true a, true)
  end.

(** The loop of [CanonicalMIMEHeaderKey] over the bytes [rest] of [s]. *)
Fixpoint canonicalFrom (upper : bool) (rest s : string) : string :=
  match rest with
  | EmptyString => s
  | String c rest' =>
      if negb (validHeaderFieldByte c) then s
      else if upper && GoByte.isLower c then fst (canonicalMIMEHeaderKey s)
      else if negb upper && GoByte.isUpper c then fst (canonicalMIMEHeaderKey s)
      else canonicalFrom (GoByte.eqb c "-") rest' s
  end.

Definition CanonicalMIMEHeaderKey (s : string) : string := canonicalFrom true s s.

End Textproto.

(** ** Package net/http *)

Module Http.
Import GoStrings.

(** [http.Header], a [map[string][]string]. *)
Abbreviation Header := (gmap string (list string)).

(** [Header.Set] *)
Definition Set_ (h : Header) (key value : string) : Header :=
  <[Textproto.CanonicalMIMEHeaderKey key := [value]]> h.

(** [Header.Get] *)
Definition Get (h : Header) (key : string) : string :=
  match h !! Textproto.CanonicalMIMEHeaderKey key with
  | Some (v :: _) => v
  | _ => EmptyString
  end.

(** The fields of [http.Request] that [NewRequest] fills in from its
    arguments; the body is [nil] for the program's requests. *)
Record Request : Type := mkRequest {
  Method : string;
  URL : Url.URL;
  ReqHeader : Header;
  ReqHost : string
}.

(** The body of a response as the caller can read it: [bodyBytes] arrive,
    then the stream ends, with the error [bodyErr] if there is one. *)
Record Body : Type := mkBody {
  bodyBytes : string;
  bodyErr : option string
}.

Record Response : Type := mkResponse {
  StatusCode : Z;
  Status : string;
  RespBody : Body
}.

(** [validMethod]: a non-empty token. *)
Definition validMethod (method : string) : bool :=
  negb (isEmpty method) && all Textproto.validHeaderFieldByte method.

Definition lastIndexZ (s sep : string) : Z :=
  match LastIndex s sep with Some i => Z.of_nat i | None => -1 end.

Definition hasPort (s : string) : bool := lastIndexZ s "]" <? lastIndexZ s ":".

Definition removeEmptyPort (host : string) : string :=
  if hasPort host && HasSuffix host ":" then take (len host - 1) host else host.

(** [http.NewRequest(method, url, nil)] *)
Definition NewRequest (method url : string) : result Request error :=
  let method := if isEmpty method then "GET" else method in
  if negb (validMethod method) then Err (HttpError "net/http: invalid method")
  else match Url.Parse url with
       | Err e => Err e
       | Ok u =>
           let u' := Url.withHost u (removeEmptyPort (Url.Host u)) in
           Ok (mkRequest method u' ∅ (Url.Host u'))
       end.

(** [io.ReadAll(response.Body)] *)
Definition ReadAll (b : Body) : string * option error :=
  (bodyBytes b, BodyReadError <$> bodyErr b).

End Http.

(** ** Package encoding/json

    [json.NewDecoder(r).Decode(&result)] for the program's
    [struct { Data []string `json:"data"` }]: the decoder reads the first
    JSON value of the stream, checks its syntax, and stores it. *)

Module Json.
Import GoStrings.

Inductive value : Type :=
  | Null
  | Bool (b : bool)
  | Number (literal : string)
  | Str (s : string)
  | Array (elems : list value)
  | Object (members : list (string * value)).

Inductive parsed (A : Type) : Type :=
  | Parsed (a : A) (rest : string)
  | NeedMore            (* the input ended inside the value *)
  | Bad.                (* a byte the grammar does not allow *)
Arguments Parsed {A} a rest.
Arguments NeedMore {A}.
Arguments Bad {A}.

Definition isSpace (c : ascii) : bool :=
  GoByte.eqb c " " || GoByte.eqb c "009" || GoByte.eqb c "013" || GoByte.eqb c "010".

Fixpoint skipSpace (s : string) : string :=
  match s with
  | String c s' => if isSpace c then skipSpace s' else s
  | EmptyString => EmptyString
  end.

Definition mapParsed {A B : Type} (f : A -> B) (p : parsed A) : parsed B :=
  match p with
  | Parsed a rest => Parsed (f a) rest
  | NeedMore => NeedMore
  | Bad => Bad
  end.

(** The bytes of a string literal after its opening quote, up to the
    closing quote, with the escapes still in place (the scanner's states
    [stateInString], [stateInStringEsc], [stateInStringEscU...]). *)
Fixpoint scanString (s : string) : parsed string :=
  match s with
  | EmptyString => NeedMore
  | String c s1 =>
      if GoByte.eqb c GoByte.DQUOTE then Parsed EmptyString s1
      else if GoByte.eqb c "\" then
        match s1 with
        | EmptyString => NeedMore
        | String e s2 =>
            if GoByte.oneOf "bfnrt\/" e || GoByte.eqb e GoByte.DQUOTE then
              mapParsed (fun r => String c (String e r)) (scanString s2)
            else if GoByte.eqb e "u" then
              match s2 with
              | String h1 (String h2 (String h3 (String h4 s6))) =>
                  if Url.ishex h1 && Url.ishex h2 && Url.ishex h3 && Url.ishex h4 then
                    mapParsed
                      (fun r => String c (String e (String h1 (String h2
                                  (String h3 (String h4 r))))))
                      (scanString s6)
                  else Bad
              | _ => if all Url.ishex s2 then NeedMore else Bad
              end
            else Bad
        end
      else if (GoByte.code c <? 32)%N then Bad
      else mapParsed (String c) (scanString s1)
  end.

(** [utf8.EncodeRune] for a code point that is not a surrogate. *)
Definition encodeRune (r : N) : string :=
  let b (n : N) := ascii_of_N n in
  if (r <? 128)%N then String (b r) EmptyString
  else if (r <? 2048)%N then
    String (b (192 + r / 64)%N) (String (b (128 + r mod 64)%N) EmptyString)
  else if (r <? 65536)%N then
    String (b (224 + r / 4096)%N)
      (String (b (128 + (r / 64) mod 64)%N) (String (b (128 + r mod 64)%N) EmptyString))
  else
    String (b (240 + r / 262144)%N)
      (String (b (128 + (r / 4096) mod 64)%N)
         (String (b (128 + (r / 64) mod 64)%N)
            (String (b (128 + r mod 64)%N) EmptyString))).

(** U+FFFD, [unicode.ReplacementChar] *)
Definition replacementChar : N := 65533.

Definition hex4 (h1 h2 h3 h4 : ascii) : N :=
  ((Url.unhex h1 * 16 + Url.unhex h2) * 16 + Url.unhex h3) * 16 + Url.unhex h4.

Definition isCont (c : ascii) : bool := GoByte.between "128" "191" c.

(** The length of the well-formed UTF-8 sequence at the head of [s]
    ([utf8.DecodeRune]); [0] when the head byte starts none. *)
Definition runeLen (s : string) : nat :=
  match s with
  | EmptyString => 0%nat
  | String c0 s1 =>
      if GoByte.isASCII c0 then 1%nat
      else match s1 with
           | EmptyString => 0%nat
           | String c1 s2 =>
               if GoByte.between "194" "223" c0 then if isCont c1 then 2%nat else 0%nat
               else
                 let second3 :=
                   if GoByte.eqb c0 "224" then GoByte.between "160" "191" c1
                   else if GoByte.eqb c0 "237" then GoByte.between "128" "159" c1
                   else GoByte.between "225" "239" c0 && isCont c1 in
                 let second4 :=
                   if GoByte.eqb c0 "240" then GoByte.between "144" "191" c1
                   else if GoByte.eqb c0 "244" then GoByte.between "128" "143" c1
                   else GoByte.between "241" "243" c0 && isCont c1 in
                 match s2 with
                 | EmptyString => 0%nat
                 | String c2 s3 =>
                     if second3 then if isCont c2 then 3%nat else 0%nat
                     else if second4 then
                       match s3 with
                       | String c3 _ => if isCont c2 && isCont c3 then 4%nat else 0%nat
                       | EmptyString => 0%nat
                       end
                     else 0%nat
                 end
           end
  end.

(** [unquote] on the bytes between the quotes.  [pending] is a high
    surrogate read from a [\u] escape whose partner has not been seen:
    with a low surrogate escape next, the pair is one code point; with
    anything else it becomes U+FFFD.  [skip] counts the continuation
    bytes of a well-formed UTF-8 sequence still to be copied. *)
Fixpoint unquoteFrom (pending : option N) (skip : nat) (s : string) : string :=
  let flush := match pending with
               | Some _ => encodeRune replacementChar
               | None => EmptyString
               end in
  match s with
  | EmptyString => flush
  | String c s1 =>
      match skip with
      | S k => String c (unquoteFrom None k s1)
      | O =>
          if GoByte.eqb c "\" then
            match s1 with
            | String "u" (String h1 (String h2 (String h3 (String h4 s6)))) =>
                let rr := hex4 h1 h2 h3 h4 in
                match pending with
                | Some hi =>
                    if (56320 <=? rr)%N && (rr <? 57344)%N then
                      encodeRune (65536 + (hi - 55296) * 1024 + (rr - 56320))%N
                      +:+ unquoteFrom None 0 s6
                    else if (55296 <=? rr)%N && (rr <? 56320)%N then
                      flush +:+ unquoteFrom (Some rr) 0 s6
                    else flush +:+ encodeRune rr +:+ unquoteFrom None 0 s6
                | None =>
                    if (55296 <=? rr)%N && (rr <? 56320)%N then
                      unquoteFrom (Some rr) 0 s6
                    else if (56320 <=? rr)%N && (rr <? 57344)%N then
                      encodeRune replacementChar +:+ unquoteFrom None 0 s6
                    else encodeRune rr +:+ unquoteFrom None 0 s6
                end
            | String e s2 =>
                let out :=
                  if GoByte.eqb e "b" then "008"%char
                  else if GoByte.eqb e "f" then "012"%char
                  else if GoByte.eqb e "n" then "010"%char
                  else if GoByte.eqb e "r" then "013"%char
                  else if GoByte.eqb e "t" then "009"%char
                  else e in
                flush +:+ String out (unquoteFrom None 0 s2)
            | EmptyString => flush
            end
          else
            match runeLen s with
            | O => flush +:+ encodeRune replacementChar +:+ unquoteFrom None 0 s1
            | S k => flush +:+ String c (unquoteFrom None k s1)
            end
      end
  end.

Definition unquote (raw : string) : string := unquoteFrom None 0 raw.

Fixpoint skipDigits (s : string) : string :=
  match s with
  | String c s' => if GoByte.isDigit c then skipDigits s' else s
  | EmptyString => EmptyString
  end.

(** At least one digit, then as many as follow. *)
Definition digits1 (s : string) : parsed unit :=
  match s with
  | EmptyString => NeedMore
  | String c s' => if GoByte.isDigit c then Parsed tt (skipDigits s') else Bad
  end.

(** The number grammar of the scanner: an optional minus; [0], or a
    digit from 1 to 9 and any digits; an optional [.] with one digit or
    more; an optional [e] or [E] with an optional sign and one digit or
    more. *)
Definition scanNumber (s : string) : parsed string :=
  let unsigned := match s with
                  | String "-" s' => s'
                  | _ => s
                  end in
  let afterInt :=
    match unsigned with
    | EmptyString => NeedMore
    | String c s' =>
        if GoByte.eqb c "0" then Parsed tt s'
        else if GoByte.between "1" "9" c then Parsed tt (skipDigits s')
        else Bad
    end in
  let afterFrac :=
    match afterInt with
    | Parsed _ (String "." s') => digits1 s'
    | p => p
    end in
  let afterExp :=
    match afterFrac with
    | Parsed _ (String c s') =>
        if GoByte.oneOf "eE" c then
          match s' with
          | String sign s'' =>
              if GoByte.oneOf "+-" sign then digits1 s'' else digits1 s'
          | EmptyString => NeedMore
          end
        else afterFrac
    | p => p
    end in
  match afterExp with
  | Parsed _ rest => Parsed (take (len s - len rest) s) rest
  | NeedMore => NeedMore
  | Bad => Bad
  end.

(** The rest [lit] of a literal name ([true], [false], [null]). *)
Fixpoint scanLiteral (lit s : string) : parsed unit :=
  match lit with
  | EmptyString => Parsed tt s
  | String l lit' =>
      match s with
      | EmptyString => NeedMore
      | String c s' => if GoByte.eqb c l then scanLiteral lit' s' else Bad
      end
  end.

Definition isEmptyList {A : Type} (l : list A) : bool :=
  match l with [] => true | _ => false end.

Definition maxNestingDepth : nat := 10000.

(** One JSON value at the head of [s], after optional white space.
    [fuel] bounds the recursion: a value spends one unit and hands the
    rest to its elements or members, whose loop spends one unit for each
    value it reads and each round it makes; every value is a byte at
    least, so twice the length of the input plus one is enough.  [afterComma] tells the
    loops over elements and members that a value or key must follow. *)
Fixpoint scanValue (fuel depth : nat) (s : string) : parsed value :=
  match fuel with
  | O => Bad
  | S fuel' =>
      match skipSpace s with
      | EmptyString => NeedMore
      | String c r =>
          if GoByte.eqb c "{" then
            if (maxNestingDepth <? S depth)%nat then Bad
            else mapParsed Object (scanMembers fuel' (S depth) r false [])
          else if GoByte.eqb c "[" then
            if (maxNestingDepth <? S depth)%nat then Bad
            else mapParsed Array (scanElems fuel' (S depth) r false [])
          else if GoByte.eqb c GoByte.DQUOTE then
            mapParsed (fun raw => Str (unquote raw)) (scanString r)
          else if GoByte.eqb c "-" || GoByte.isDigit c then
            mapParsed Number (scanNumber (String c r))
          else if GoByte.eqb c "t" then mapParsed (fun _ => Bool true) (scanLiteral "rue" r)
          else if GoByte.eqb c "f" then mapParsed (fun _ => Bool false) (scanLiteral "alse" r)
          else if GoByte.eqb c "n" then mapParsed (fun _ => Null) (scanLiteral "ull" r)
          else Bad
      end
  end
with scanElems (fuel depth : nat) (s : string) (afterComma : bool) (acc : list value)
  : parsed (list value) :=
  match fuel with
  | O => Bad
  | S fuel' =>
      match skipSpace s with
      | EmptyString => NeedMore
      | String c r =>
          if GoByte.eqb c "]" && negb afterComma && isEmptyList acc then Parsed [] r
          else
            match scanValue fuel' depth s with
            | Parsed v rest =>
                match skipSpace rest with
                | EmptyString => NeedMore
                | String d r' =>
                    if GoByte.eqb d "," then scanElems fuel' depth r' true (acc ++ [v])
                    else if GoByte.eqb d "]" then Parsed (acc ++ [v]) r'
                    else Bad
                end
            | NeedMore => NeedMore
            | Bad => Bad
            end
      end
  end
with scanMembers (fuel depth : nat) (s : string) (afterComma : bool)
                 (acc : list (string * value)) : parsed (list (string * value)) :=
  match fuel with
  | O => Bad
  | S fuel' =>
      match skipSpace s with
      | EmptyString => NeedMore
      | String c r =>
          if GoByte.eqb c "}" && negb afterComma && isEmptyList acc then Parsed [] r
          else if GoByte.eqb c GoByte.DQUOTE then
            match scanString r with
            | Parsed raw rest =>
                match skipSpace rest with
                | EmptyString => NeedMore
                | String colon r1 =>
                    if GoByte.eqb colon ":" then
                      match scanValue fuel' depth r1 with
                      | Parsed v rest' =>
                          match skipSpace rest' with
                          | EmptyString => NeedMore
                          | String d r' =>
                              if GoByte.eqb d "," then
                                scanMembers fuel' depth r' true (acc ++ [(unquote raw, v)])
                              else if GoByte.eqb d "}" then
                                Parsed (acc ++ [(unquote raw, v)]) r'
                              else Bad
                          end
                      | NeedMore => NeedMore
                      | Bad => Bad
                      end
                    else Bad
                end
            | NeedMore => NeedMore
            | Bad => Bad
            end
          else Bad
      end
  end.

(** A Go slice of strings: the backing array and the length.  Decoding a
    second array into the same slice writes over the backing array, and
    a JSON [null] element leaves the slot as it is. *)
Record slice : Type := mkSlice {
  backing : list string;
  length_ : nat
}.

Definition nilSlice : slice := mkSlice [] 0.
Definition elements (s : slice) : list string := List.firstn (length_ s) (backing s).

Definition firstError (a b : option json_cause) : option json_cause :=
  match a with Some _ => a | None => b end.

(** [d.value] into a slot of kind string. *)
Definition storeString (old : string) (v : value) : string * option json_cause :=
  match v with
  | Str s => (s, None)
  | Null => (old, None)
  | _ => (old, Some (JsonTypeMismatch "Data"))
  end.

(** The loop of [d.array] over the elements, slot by slot. *)
Fixpoint storeElems (slots : list string) (elems : list value)
  : list string * option json_cause :=
  match elems with
  | [] => (slots, None)
  | v :: elems' =>
      let '(x, e) := storeString (List.hd EmptyString slots) v in
      let '(rest, e') := storeElems (List.tl slots) elems' in
      (x :: rest, firstError e e')
  end.

(** [d.value] into the field [Data []string]. *)
Definition storeData (data : slice) (v : value) : slice * option json_cause :=
  match v with
  | Null => (nilSlice, None)
  | Array [] => (nilSlice, None)
  | Array elems =>
      let '(slots, e) := storeElems (backing data) elems in
      (mkSlice slots (List.length elems), e)
  | _ => (data, Some (JsonTypeMismatch "Data"))
  end.

(** A key selects the field when it is ["data"] up to the case of its
    ASCII letters; other members are skipped. *)
Definition isDataKey (key : string) : bool := String.eqb (ToLower key) "data".

Definition storeMember (acc : slice * option json_cause) (m : string * value)
  : slice * option json_cause :=
  let '(data, err) := acc in
  if isDataKey (fst m) then
    let '(data', e) := storeData data (snd m) in (data', firstError err e)
  else acc.

(** [d.value] into the struct itself. *)
Definition unmarshal (v : value) : slice * option json_cause :=
  match v with
  | Object members => fold_left storeMember members (nilSlice, None)
  | Null => (nilSlice, None)
  | _ => (nilSlice, Some (JsonTypeMismatch ""))
  end.

(** Objects and arrays end at their closing bracket; the end of any
    other value shows only at the byte after it, or at the end of the
    stream. *)
Definition endsAtBracket (v : value) : bool :=
  match v with
  | Object _ | Array _ => true
  | _ => false
  end.

(** [json.NewDecoder(body).Decode(&result)], returning [result.Data]. *)
Definition Decode (body : Http.Body) : list string * option error :=
  let bytes := Http.bodyBytes body in
  let atEnd (eof : json_cause) : json_cause :=
    match Http.bodyErr body with
    | Some msg => JsonRead msg
    | None => eof
    end in
  match skipSpace bytes with
  | EmptyString => ([], Some (JsonError (atEnd JsonEOF)))
  | _ =>
      match scanValue (S (2 * len bytes)) 0 bytes with
      | Bad => ([], Some (JsonError JsonSyntax))
      | NeedMore => ([], Some (JsonError (atEnd JsonUnexpectedEOF)))
      | Parsed v rest =>
          match Http.bodyErr body with
          | Some msg =>
              if negb (endsAtBracket v) && isEmpty rest
              then ([], Some (JsonError (JsonRead msg)))
              else let '(data, e) := unmarshal v in (elements data, JsonError <$> e)
          | None => let '(data, e) := unmarshal v in (elements data, JsonError <$> e)
          end
      end
  end.

End Json.

(** ** Package os: the directory tree

    The tree below the working directory, keyed by the path strings the
    program passes to [os].  The parent of a path is the text before its
    last [/]; the working directory itself ([.]) always exists.  A path
    is taken as the key it is written as: symbolic links and the
    components [.], [..] and the empty one inside a path are not
    followed.  The tree so tells what the operations do with the paths
    whose components are plain names: the log file, the folder, and the
    file of a metric whose name is one path component.  A metric name
    with a slash in it makes a path that the system resolves through
    other directories; what is proved about the files of metrics is
    stated for names without one.  What the tree does not explain
    (access rights of the user, quotas, failing devices) comes from the
    world as an error of the operation. *)

Module Os.
Import GoStrings.

Inductive node : Type :=
  | Dir (perm : Z)
  | File (perm : Z) (data : string).

Abbreviation tree := (gmap string node).

(** The permission bits a new entry gets: [perm &^ umask]. *)
Definition applyUmask (perm umask : Z) : Z := Z.ldiff perm umask.

Definition parentOf (path : string) : string :=
  match LastIndex path "/" with
  | Some i => take i path
  | None => "."
  end.

Definition isDir (t : tree) (path : string) : bool :=
  String.eqb path "." ||
  match t !! path with
  | Some (Dir _) => true
  | _ => false
  end.

(** [path] itself or an entry below it. *)
Definition within (path name : string) : bool :=
  String.eqb name path || HasPrefix name (path +:+ "/").

Definition endsWithDot (path : string) : bool :=
  String.eqb path "." || HasSuffix path "/.".

(** [os.RemoveAll]: the tree without [path] and everything below it. *)
Definition RemoveAll (path : string) (t : tree) : tree * option error :=
  if isEmpty path then (t, None)
  else if endsWithDot path then (t, Some (PathError "RemoveAll" path "invalid argument"))
  else (filter (fun kv => within path (fst kv) = false) t, None).

(** What an [os.RemoveAll path] that met an error leaves of the tree:
    all that is not below [path]; [path] itself, since its removal is the
    last step and is not reached, or fails, once an error was met; the
    entries [left] that could not be removed; and the directories
    between [path] and those, which are not empty. *)
Definition removeSome (path : string) (left : string -> bool) (t : tree) : tree :=
  filter (fun kv =>
            (negb (within path (fst kv))
             || String.eqb (fst kv) path
             || existsb (fun k => left k && within (fst kv) k)
                        (List.map fst (map_to_list t))) = true) t.

(** [os.Mkdir] *)
Definition Mkdir (umask : Z) (name : string) (perm : Z) (t : tree)
  : tree * option error :=
  match t !! name with
  | Some _ => (t, Some (PathError "mkdir" name "file exists"))
  | None =>
      if String.eqb name "." then (t, Some (PathError "mkdir" name "file exists"))
      else if negb (isDir t (parentOf name))
      then (t, Some (PathError "mkdir" name "no such file or directory"))
      else (<[name := Dir (applyUmask perm umask)]> t, None)
  end.

(** [os.OpenFile(name, O_CREATE|O_TRUNC|..., perm)] followed by writing
    [data]: a new file gets [perm &^ umask], an existing file keeps its
    permission bits and loses its old content. *)
Definition createTrunc (umask : Z) (name : string) (data : string) (perm : Z) (t : tree)
  : tree * option error :=
  match t !! name with
  | Some (Dir _) => (t, Some (PathError "open" name "is a directory"))
  | Some (File perm' _) => (<[name := File perm' data]> t, None)
  | None =>
      if String.eqb name "." then (t, Some (PathError "open" name "is a directory"))
      else if negb (isDir t (parentOf name))
      then (t, Some (PathError "open" name "no such file or directory"))
      else (<[name := File (applyUmask perm umask) data]> t, None)
  end.

(** [os.WriteFile] *)
Definition WriteFile (umask : Z) (name : string) (data : string) (perm : Z) (t : tree)
  : tree * option error :=
  createTrunc umask name data perm t.

End Os.

(** ** The world of a run and its state *)

(** What [exec.Command(...).Run()] finds: the process ran and exited with
    [status] after writing [stdout], or it could not be run. *)
Inductive cmd_outcome : Type :=
  | Exited (stdout : string) (status : Z)
  | NotRun (msg : string).

(** A line handed to the [log] package: the format string of the call
    and its argument.  The time stamp [log] puts in front is left out. *)
Inductive log_line : Type :=
  | Println (s : string)
  | PrintlnErr (e : error)
  | PrintfErr (format : string) (e : error)
  | PrintfStr (format : string) (s : string)
  | PrintfDuration (format : string) (d : Z).

(** How an [os.RemoveAll] that fails went.  [os.RemoveAll] removes what
    it can and returns the first error it met: [rm_op] and [rm_path] are
    the operation and the path that error names (often [unlinkat] and an
    entry below the argument), and [rm_left] tells the entries that could
    not be removed. *)
Record removal : Type := mkRemoval {
  rm_op : string;
  rm_path : string;
  rm_left : string -> bool
}.

(** Everything outside the program.  [w_do n req] is the outcome of the
    [n]-th call of [Client.Do]; [w_now n] is the [n]-th reading of the
    clocks; [w_range m] is the order in which a [range] loop visits the
    map [m]; [w_oserr op path] is an error the operating system raises
    for reasons outside the tree; [w_removal path] tells how a failing
    [os.RemoveAll path] went. *)
Record World : Type := mkWorld {
  w_exec : string -> list string -> cmd_outcome;
  w_do : nat -> Http.Request -> result Http.Response error;
  w_now : nat -> Time.Time;
  w_range : gmap string string -> list (string * string);
  w_umask : Z;
  w_oserr : string -> string -> option string;
  w_removal : string -> removal
}.

(** [st_console] holds the lines written to the terminal, [st_logfile]
    those written to the open log file; [st_logset] is true once
    [log.SetOutput] has directed the logger to both.  [st_sent] lists the
    requests handed to [Client.Do]. *)
Record State : Type := mkState {
  st_fs : gmap string Os.node;
  st_console : list log_line;
  st_logfile : list log_line;
  st_logset : bool;
  st_clock : nat;
  st_sent : list Http.Request
}.

Definition M (A : Type) : Type := State -> A * State.

#[global] Instance M_ret : MRet M := fun A a s => (a, s).
#[global] Instance M_bind : MBind M :=
  fun A B f m s => let '(a, s') := m s in f a s'.

Definition run {A : Type} (m : M A) (s : State) : A * State := m s.
Definition exec {A : Type} (m : M A) (s : State) : State := snd (m s).

Section Effects.
Variable w : World.

(** [log.Println] and [log.Printf]: to the terminal, and to the log file
    once the logger writes to both. *)
Definition logLine (l : log_line) : M unit :=
  fun s => (tt, mkState (st_fs s) (st_console s ++ [l])
                        (if st_logset s then st_logfile s ++ [l] else st_logfile s)
                        (st_logset s) (st_clock s) (st_sent s)).

(** [log.SetOutput(io.MultiWriter(os.Stdout, logFile))] *)
Definition setLogOutput : M unit :=
  fun s => (tt, mkState (st_fs s) (st_console s) (st_logfile s) true
                        (st_clock s) (st_sent s)).

(** [time.Now()] *)
Definition now : M Time.Time :=
  fun s => (w_now w (st_clock s),
            mkState (st_fs s) (st_console s) (st_logfile s) (st_logset s)
                    (S (st_clock s)) (st_sent s)).

(** [http.Client.Do] *)
Definition clientDo (req : Http.Request) : M (result Http.Response error) :=
  fun s => (w_do w (List.length (st_sent s)) req,
            mkState (st_fs s) (st_console s) (st_logfile s) (st_logset s)
                    (st_clock s) (st_sent s ++ [req])).

(** An operation on the tree, unless the world makes it fail. *)
Definition onTree (op path : string) (f : Os.tree -> Os.tree * option error)
  : M (option error) :=
  fun s =>
    match w_oserr w op path with
    | Some msg => (Some (PathError op path msg), s)
    | None =>
        let '(t, err) := f (st_fs s) in
        (err, mkState t (st_console s) (st_logfile s) (st_logset s)
                      (st_clock s) (st_sent s))
    end.

(** [os.RemoveAll]: it runs to its end on the tree, or the system makes
    it fail on the way; it has then removed what it could and returns
    the first error it met. *)
Definition osRemoveAll (path : string) : M (option error) :=
  fun s =>
    match w_oserr w "RemoveAll" path with
    | Some msg =>
        let r := w_removal w path in
        (Some (PathError (rm_op r) (rm_path r) msg),
         mkState (Os.removeSome path (rm_left r) (st_fs s)) (st_console s) (st_logfile s)
                 (st_logset s) (st_clock s) (st_sent s))
    | None =>
        let '(t, err) := Os.RemoveAll path (st_fs s) in
        (err, mkState t (st_console s) (st_logfile s) (st_logset s)
                      (st_clock s) (st_sent s))
    end.
Definition osMkdir (name : string) (perm : Z) : M (option error) :=
  onTree "mkdir" name (Os.Mkdir (w_umask w) name perm).
Definition osWriteFile (name data : string) (perm : Z) : M (option error) :=
  onTree "open" name (Os.WriteFile (w_umask w) name data perm).
(** [os.OpenFile(name, O_CREATE|O_TRUNC|O_APPEND|O_RDWR, perm)] *)
Definition osOpenFile (name : string) (perm : Z) : M (option error) :=
  onTree "open" name (Os.createTrunc (w_umask w) name EmptyString perm).

End Effects.

(** ** The program: package main *)

Module Promgather.
Import GoStrings.

(** Permission bits written in octal: [octal 7 5 0] is Go's [0750]. *)
Definition octal (owner group other : Z) : Z := owner * 64 + group * 8 + other.

Definition nl : string := String GoByte.LF EmptyString.
Definition quote : string := String GoByte.DQUOTE EmptyString.

(** [type HttpClient struct { *http.Client; headers map[string]string;
    host string }].  The embedded client (its transport and timeouts) is
    what answers [clientDo]. *)
Record HttpClient : Type := mkHttpClient {
  headers : gmap string string;
  host : string
}.

(** The selector of the catalog query, ["{__name__=~\"(ceph|...).+\"}"]. *)
Definition selector : string :=
  "{__name__=~" +:+ quote +:+ "(ceph|Ceph|noobaa|NooBaa|ocs|odf).+" +:+ quote +:+ "}".

Definition metricsFolder : string := "./prom-metrics".

Section Program.
Variable w : World.

(** The loop [for headerKey, headerValue := range httpClient.headers]
    over a request under construction. *)
Definition setHeader (req : Http.Request) (kv : string * string) : Http.Request :=
  Http.mkRequest (Http.Method req) (Http.URL req)
                 (Http.Set_ (Http.ReqHeader req) (fst kv) (snd kv)) (Http.ReqHost req).

(** The request [Get] hands to [Do]. *)
Definition buildRequest (httpClient : HttpClient) (url : string)
  : result Http.Request error :=
  match Http.NewRequest "GET" url with
  | Err e => Err e
  | Ok req => Ok (fold_left setHeader (w_range w (headers httpClient)) req)
  end.

Definition Get (httpClient : HttpClient) (url : string)
  : M (result Http.Response error) :=
  match buildRequest httpClient url with
  | Err e => mret (Err e)
  | Ok req => clientDo w req
  end.

Definition getCmdResult (command : string) (arg : list string)
  : string * option error :=
  match w_exec w command arg with
  | NotRun msg => (EmptyString, Some (ExecError msg))
  | Exited out status =>
      if status =? 0 then (Trim out nl, None)
      else (EmptyString, Some (ExecError "exit status"))
  end.

(** The two clock readings of a query window:
    [time.Now().Add(-time.Hour).Unix()] and then [time.Now().Unix()]. *)
Definition window : M (Z * Z) :=
  t1 ← now w;
  t2 ← now w;
  mret (Time.Unix (Time.Add t1 (- Time.Hour)), Time.Unix t2).

(** Lines 140 to 157 of [getMetricList]: what it makes of the outcome of
    [httpClient.Get]. *)
Definition decodeMetricList (r : result Http.Response error)
  : M (list string * option error) :=
  match r with
  | Err e =>
      logLine (PrintfErr ("Error fetching the metric list: %v" +:+ nl) e);;
      mret ([], Some e)
  | Ok response =>
      if negb (Http.StatusCode response =? 200) then
        logLine (PrintfStr ("Metric list fetch not OK: HTTP status code %v" +:+ nl)
                           (Http.Status response));;
        (* [return list, err]: [err] is the nil that [Get] returned *)
        mret ([], None)
      else
        let '(data, err) := Json.Decode (Http.RespBody response) in
        match err with
        | Some e =>
            logLine (PrintfErr ("Error parsing the metric list result: %v" +:+ nl) e);;
            mret ([], Some e)
        | None => mret (data, None)
        end
  end.

Definition getMetricList (httpClient : HttpClient) : M (list string * option error) :=
  let hostBaseUrl := "https://" +:+ host httpClient in
  match Url.Parse hostBaseUrl with
  | Err e =>
      logLine (PrintfErr ("Error parsing the host base url: %v" +:+ nl) e);;
      mret ([], Some e)
  | Ok apiUrl =>
      match Url.Parse "api/v1/label/__name__/values" with
      | Err e =>
          logLine (PrintfErr ("Error parsing the api endpoint: %v" +:+ nl) e);;
          mret ([], Some e)
      | Ok apiPath =>
          let apiUrl := Url.ResolveReference apiUrl apiPath in
          let query := Url.Query apiUrl in
          '(start, end_) ← window;
          let query := Url.Set_ query "start" (Fmt.Sprintf_d start) in
          let query := Url.Set_ query "end" (Fmt.Sprintf_d end_) in
          let query := Url.Set_ query "match[]" selector in
          let apiUrl := Url.withRawQuery apiUrl (Url.Encode query) in
          r ← Get httpClient (Url.String_ apiUrl);
          decodeMetricList r
      end
  end.

Definition getRangeQueryUrl (host metric : string) : M (string * option error) :=
  let hostBaseUrl := "https://" +:+ host in
  match Url.Parse hostBaseUrl with
  | Err e => mret (EmptyString, Some e)
  | Ok apiUrl =>
      match Url.Parse "api/v1/query_range" with
      | Err e => mret (EmptyString, Some e)
      | Ok apiPath =>
          let apiUrl := Url.ResolveReference apiUrl apiPath in
          let query := Url.Query apiUrl in
          let query := Url.Set_ query "query" metric in
          '(start, end_) ← window;
          let query := Url.Set_ query "start" (Fmt.Sprintf_d start) in
          let query := Url.Set_ query "end" (Fmt.Sprintf_d end_) in
          let query := Url.Set_ query "step" "60s" in
          let apiUrl := Url.withRawQuery apiUrl (Url.Encode query) in
          mret (Url.String_ apiUrl, None)
      end
  end.

(** Lines 169 to 187 of [getMetric]: what it makes of the outcome of
    [httpClient.Get]. *)
Definition storeMetric (r : result Http.Response error) (metric metricsFolder : string)
  : M unit :=
  match r with
  | Err e => logLine (PrintfErr ("Error fetching the metric: %v" +:+ nl) e)
  | Ok response =>
      if negb (Http.StatusCode response =? 200) then
        logLine (PrintfStr ("Metric fetch not OK: HTTP status code %v" +:+ nl)
                           (Http.Status response))
      else
        let '(bodyData, err) := Http.ReadAll (Http.RespBody response) in
        match err with
        | Some e =>
            logLine (PrintfErr ("Error reading the metric query response: %v" +:+ nl) e)
        | None =>
            err ← osWriteFile w (metricsFolder +:+ "/" +:+ metric +:+ ".json")
                              bodyData (octal 6 0 0);
            match err with
            | Some e => logLine (PrintfErr ("Error writing the metric file: %v" +:+ nl) e)
            | None => mret tt
            end
        end
  end.

(** The body of one goroutine; [wg.Done] is its end. *)
Definition getMetric (httpClient : HttpClient) (metric metricsFolder : string) : M unit :=
  '(queryUrl, err) ← getRangeQueryUrl (host httpClient) metric;
  match err with
  | Some e => logLine (PrintfErr ("Error fetching the metric query: %v" +:+ nl) e)
  | None =>
      r ← Get httpClient queryUrl;
      storeMetric r metric metricsFolder
  end.

(** The goroutines of the fan-out, each run to its end in the order of
    launch: one of the schedules [wg.Wait] admits.  A goroutine touches
    the tree in one step only, its [os.WriteFile]. *)
Fixpoint fanOut (httpClient : HttpClient) (storageMetrics : list string)
                (metricsFolder : string) : M unit :=
  match storageMetrics with
  | [] => mret tt
  | metric :: rest =>
      getMetric httpClient metric metricsFolder;;
      fanOut httpClient rest metricsFolder
  end.

(** Lines 98 to 106 of [main]: the fan-out and the closing line. *)
Definition fetchMetrics (httpClient : HttpClient) (storageMetrics : list string)
                        (start : Time.Time) : M unit :=
  fanOut httpClient storageMetrics metricsFolder;;
  t ← now w;
  logLine (PrintfDuration ("Finished: prometheus metrics gathering. Time elapsed: %s" +:+ nl)
                          (Time.Sub t start)).

(** Lines 76 to 106 of [main], from the client on. *)
Definition gather (httpClient : HttpClient) (start : Time.Time) : M unit :=
  '(storageMetrics, err) ← getMetricList httpClient;
  match err with
  | Some e => logLine (PrintfErr ("Error on fetching the metric list: %v" +:+ nl) e)
  | None =>
      if Nat.eqb (List.length storageMetrics) 0 then
        logLine (Println "Error: prometheus storage metrics not found.")
      else
        err ← osRemoveAll w metricsFolder;
        match err with
        | Some e =>
            logLine (PrintfErr ("Error removing the previous metrics folder: %v" +:+ nl) e)
        | None =>
            err ← osMkdir w metricsFolder (octal 7 5 0);
            match err with
            | Some e =>
                logLine (PrintfErr ("Error creating the metrics folder: %v" +:+ nl) e)
            | None => fetchMetrics httpClient storageMetrics start
            end
        end
  end.

Definition main : M unit :=
  err ← osOpenFile w "promgather.log" (octal 6 0 0);
  match err with
  | Some e => logLine (PrintlnErr e)
  | None =>
      setLogOutput;;
      logLine (Println "Starting: prometheus metrics gathering.");;
      start ← now w;
      let '(token, err) := getCmdResult "oc" ["whoami"; "-t"] in
      match err with
      | Some e => logLine (PrintfErr ("Error fetching the auth token: %v" +:+ nl) e)
      | None =>
          let headers : gmap string string := {["Authorization" := "Bearer " +:+ token]} in
          let '(host, err) :=
            getCmdResult "oc" ["-n"; "openshift-monitoring"; "get"; "route";
                               "thanos-querier"; "-ojsonpath={.spec.host}"] in
          match err with
          | Some e =>
              logLine (PrintfErr ("Error fetching the api server host: %v" +:+ nl) e)
          | None => gather (mkHttpClient headers host) start
          end
      end
  end.

End Program.
End Promgather.

(** ** Definitions for the statements

    Classes of bytes, the requests the program is expected to build, and
    sample worlds to run it in. *)

Import GoStrings Promgather.

Definition noByte (x : ascii) (s : string) : bool :=
  all (fun c => negb (GoByte.eqb c x)) s.

Definition plainByte (c : ascii) : bool := GoByte.isAlnum c || GoByte.oneOf "-._~" c.
Definition plainHost (h : string) : bool := all plainByte h.

Definition pathByte (c : ascii) : bool := plainByte c || GoByte.eqb c "/".
Definition queryByte (c : ascii) : bool := plainByte c || GoByte.oneOf "%=&+" c.

(** Reading a decimal numeral back, for the statements about [start]
    and [end]. *)
Definition parseDecimal (s : string) : option Z :=
  Z.of_int <$> NilEmpty.int_of_string s.

Definition compByte (c : ascii) : bool := plainByte c || GoByte.oneOf "%+" c.

(** The text [Encode] writes for one key and one value. *)
Definition pair (kv : string * string) : string :=
  Url.QueryEscape (fst kv) +:+ "=" +:+ Url.QueryEscape (snd kv).

(** What [parseQuery] does with a well-formed piece: append the value. *)
Definition addValue (m : Url.Values) (kv : string * string) : Url.Values :=
  <[fst kv := default [] (m !! fst kv) ++ [snd kv]]> m.

(** The keys and values of [v] in the order [Encode] writes them. *)
Definition sortedPairs (v : Url.Values) : list (string * string) :=
  flat_map (fun k => List.map (fun x => (k, x)) (default [] (v !! k)))
           (Url.sortKeys (List.map fst (map_to_list v))).

Definition apiValues : string := "/api/v1/label/__name__/values".
Definition apiQueryRange : string := "/api/v1/query_range".

(** The window of a query whose first clock reading is number [n]. *)
Definition windowStart (w : World) (n : nat) : Z := Time.Unix (w_now w n) - 3600.
Definition windowEnd (w : World) (n : nat) : Z := Time.Unix (w_now w (S n)).

Definition catalogQuery (w : World) (n : nat) : Url.Values :=
  Url.Set_ (Url.Set_ (Url.Set_ ∅ "start" (Fmt.Sprintf_d (windowStart w n)))
                     "end" (Fmt.Sprintf_d (windowEnd w n)))
           "match[]" selector.

Definition rangeQuery (w : World) (n : nat) (metric : string) : Url.Values :=
  Url.Set_ (Url.Set_ (Url.Set_ (Url.Set_ ∅ "query" metric)
                               "start" (Fmt.Sprintf_d (windowStart w n)))
                     "end" (Fmt.Sprintf_d (windowEnd w n)))
           "step" "60s".

(** [https://host path ? query] as a parsed URL. *)
Definition httpsURL (host path : string) (query : Url.Values) : Url.URL :=
  Url.mkURL "https" "" None host path "" false false (Url.Encode query) "" "".

(** The request [Get] builds for [u]: a bare GET with the client's
    headers set in the order of the [range] loop. *)
Definition requestFor (w : World) (c : HttpClient) (u : Url.URL) : Http.Request :=
  fold_left setHeader (w_range w (headers c)) (Http.mkRequest "GET" u ∅ (Url.Host u)).

Definition tick (s : State) (reads : nat) : State :=
  mkState (st_fs s) (st_console s) (st_logfile s) (st_logset s)
          (reads + st_clock s) (st_sent s).

Definition sent (s : State) (req : Http.Request) : State :=
  mkState (st_fs s) (st_console s) (st_logfile s) (st_logset s)
          (st_clock s) (st_sent s ++ [req]).

Definition tokenArgs : list string := ["whoami"; "-t"].
Definition hostArgs : list string :=
  ["-n"; "openshift-monitoring"; "get"; "route"; "thanos-querier";
   "-ojsonpath={.spec.host}"].

(** [oc] prints [token] for [whoami -t] and [host] for anything else. *)
Definition ocPrints (token host : string) (command : string) (arg : list string)
  : cmd_outcome :=
  if bool_decide (arg = tokenArgs) then Exited token 0 else Exited host 0.

(** Every round trip is answered with the same status and body. *)
Definition answers (status : Z) (text body : string)
  : nat -> Http.Request -> result Http.Response error :=
  fun _ _ => Ok (Http.mkResponse status text (Http.mkBody body None)).

Definition noOsError : string -> string -> option string := fun _ _ => None.

(** A clock that shows [t] at the first reading and advances by [step]
    nanoseconds from one reading to the next. *)
Definition clockFrom (t step : Z) : nat -> Time.Time :=
  fun n => Time.mkTime (t + step * Z.of_nat n) (step * Z.of_nat n).

(** The first reading of [clockFrom 0 step]. *)
Definition epoch : Time.Time := Time.mkTime 0 0.

(** No [os.RemoveAll] is left half done. *)
Definition noRemoval : string -> removal :=
  fun path => mkRemoval "unlinkat" path (fun _ => false).

Definition sampleWorld (token host : string) (status : Z) (text body : string)
                       (t step : Z) : World :=
  mkWorld (ocPrints token host) (answers status text body) (clockFrom t step)
          map_to_list (octal 0 2 2) noOsError noRemoval.

Definition freshState : State := mkState ∅ [] [] false 0 [].

Definition sampleClient : HttpClient :=
  mkHttpClient {["Authorization" := "Bearer abc123"]} "example.com".

(** The catalog [{"data":[...]}] with the names written as they are. *)
Definition emptyCatalog : string := "{" +:+ quote +:+ "data" +:+ quote +:+ ":[]}".
Definition oneCatalog (name : string) : string :=
  "{" +:+ quote +:+ "data" +:+ quote +:+ ":[" +:+ quote +:+ name +:+ quote +:+ "]}".

(** The trimming the specification words describe: one newline taken off
    the end, nothing else. *)
Definition stripOneTrailingNewline (s : string) : string :=
  if HasSuffix s nl then take (len s - 1) s else s.

(** A world in which every command exits with status zero after writing
    [out]. *)
Definition worldPrinting (out : string) : World :=
  sampleWorld out out 200 "200 OK" emptyCatalog 0 1.

(** The state in which [main] calls [gather]: the log file is open, the
    banner is written, the clock has been read once. *)
Definition started (w : World) (s : State) : State :=
  exec (logLine (Println "Starting: prometheus metrics gathering.");; now w)
       (exec setLogOutput (exec (osOpenFile w "promgather.log" (octal 6 0 0)) s)).

(** Two readings of the clock, one nanosecond apart, on either side of
    a full second. *)
Definition tickingWorld (host : string) : World :=
  sampleWorld "abc123" host 200 "200 OK" emptyCatalog 1700000000999999999 1.

(** The value of a query parameter of a request. *)
Definition queryParam (req : Http.Request) (key : string) : string :=
  Url.Get (Url.Query (Http.URL req)) key.

Definition logPath : string := "promgather.log".

Definition notFound : log_line := Println "Error: prometheus storage metrics not found.".

Definition metricPath (folder metric : string) : string :=
  folder +:+ "/" +:+ metric +:+ ".json".

Abbreviation canon := Textproto.CanonicalMIMEHeaderKey.

(** The world of [sampleWorld] with the [range] loop running backwards. *)
Definition backwardsWorld : World :=
  mkWorld (ocPrints "abc123" "example.com") (answers 200 "200 OK" "{}") (clockFrom 0 1)
          (fun m => List.rev (map_to_list m)) (octal 0 2 2) noOsError noRemoval.

Definition twoSpellings : HttpClient :=
  mkHttpClient {["X-A" := "1"; "x-a" := "2"]} "example.com".

Definition banner : log_line := Println "Starting: prometheus metrics gathering.".

(** A world in which the log file cannot be opened. *)
Definition readOnlyWorld : World :=
  mkWorld (ocPrints "abc123" "example.com") (answers 200 "200 OK" "{}") (clockFrom 0 1)
          map_to_list (octal 0 2 2)
          (fun op path => if String.eqb op "open" then Some "read-only file system" else None)
          noRemoval.

Definition tokenError (e : error) : log_line :=
  PrintfErr ("Error fetching the auth token: %v" +:+ nl) e.
Definition hostError (e : error) : log_line :=
  PrintfErr ("Error fetching the api server host: %v" +:+ nl) e.

(** A world in which [oc] is not installed. *)
Definition noOcWorld : World :=
  mkWorld (fun _ _ => NotRun "executable file not found in $PATH")
          (answers 200 "200 OK" "{}") (clockFrom 0 1) map_to_list (octal 0 2 2) noOsError noRemoval.

Definition twoCatalog : string :=
  "{" +:+ quote +:+ "data" +:+ quote +:+ ":[" +:+ quote +:+ "ceph_health_status" +:+ quote
  +:+ "," +:+ quote +:+ "odf_system_health_status" +:+ quote +:+ "]}".

Definition catalogError (e : error) : log_line :=
  PrintfErr ("Error on fetching the metric list: %v" +:+ nl) e.

Definition removeError (e : error) : log_line :=
  PrintfErr ("Error removing the previous metrics folder: %v" +:+ nl) e.
Definition mkdirError (e : error) : log_line :=
  PrintfErr ("Error creating the metrics folder: %v" +:+ nl) e.

(** A world whose operating system refuses one operation; when it is
    [os.RemoveAll], the file [old.json] of the folder is what could not
    be removed. *)
Definition refusing (op : string) : World :=
  mkWorld (ocPrints "abc123" "example.com")
          (answers 200 "200 OK" (oneCatalog "ceph_health_status")) (clockFrom 0 1)
          map_to_list (octal 0 2 2)
          (fun o path => if String.eqb o op then Some "permission denied" else None)
          (fun path => mkRemoval "unlinkat" "./prom-metrics/old.json"
                                 (fun k => String.eqb k "./prom-metrics/old.json")).

(** A folder left by an earlier run. *)
Definition oldTree : gmap string Os.node :=
  {[ "./prom-metrics" := Os.Dir (octal 7 5 5);
     "./prom-metrics/old.json" := Os.File (octal 6 4 4) "old";
     "./prom-metrics/older.json" := Os.File (octal 6 4 4) "older" ]}.

Definition finished (d : Z) : log_line :=
  PrintfDuration ("Finished: prometheus metrics gathering. Time elapsed: %s" +:+ nl) d.

(** The first round trip gets the catalog with one name, every later
    one a 503. *)
Definition catalogThen503 : World :=
  mkWorld (ocPrints "abc123" "example.com")
          (fun n _ =>
             match n with
             | O => Ok (Http.mkResponse 200 "200 OK"
                          (Http.mkBody (oneCatalog "ceph_health_status") None))
             | S _ => Ok (Http.mkResponse 503 "503 Service Unavailable"
                            (Http.mkBody "" None))
             end)
          (clockFrom 0 1) map_to_list (octal 0 2 2) noOsError noRemoval.

(** A name that is one component of a path: it holds no slash, and no
    NUL byte, which no path may hold.  The names of Prometheus metrics
    are such names. *)
Definition fileName (m : string) : bool := noByte "/" m && noByte "000" m.

(** A server that answers the range request for [m] with [body] and
    every other request with a 503. *)
Definition onlyAnswers (m body : string) : World :=
  mkWorld (ocPrints "abc123" "example.com")
          (fun _ req =>
             if String.eqb (queryParam req "query") m
             then Ok (Http.mkResponse 200 "200 OK" (Http.mkBody body None))
             else Ok (Http.mkResponse 503 "503 Service Unavailable" (Http.mkBody "" None)))
          (clockFrom 0 1) map_to_list (octal 0 2 2) noOsError noRemoval.

(** The bytes a JSON string literal holds as they are: printable ASCII
    but the quote and the backslash.  The names of Prometheus metrics
    are made of such bytes. *)
Definition nameByte (c : ascii) : bool :=
  GoByte.between " " "~" c && negb (GoByte.eqb c GoByte.DQUOTE) && negb (GoByte.eqb c "\").

Definition quoted (s : string) : string := quote +:+ s +:+ quote.

Fixpoint namesText (names : list string) : string :=
  match names with
  | [] => ""
  | n :: rest =>
      quoted n +:+ match rest with [] => "" | _ => "," +:+ namesText rest end
  end.

(** The body of a successful answer of the API:
    [{"status":"success","data":[ ... ]}]. *)
Definition successBody (names : list string) : string :=
  "{" +:+ quoted "status" +:+ ":" +:+ quoted "success" +:+ "," +:+ quoted "data"
  +:+ ":[" +:+ namesText names +:+ "]}".

Definition hostBaseError (e : error) : log_line :=
  PrintfErr ("Error parsing the host base url: %v" +:+ nl) e.

(** The error of [url.Parse] for [https://h] when [h] holds a control
    byte. *)
Definition controlByteError (h : string) : error :=
  UrlError "parse" ("https://" +:+ h) InvalidControlCharacter.

(** [oc] prints two routes, one on each line. *)
Definition twoRoutesWorld : World :=
  mkWorld (ocPrints "abc123" ("a.example.com" +:+ nl +:+ "b.example.com" +:+ nl))
          (answers 200 "200 OK" "{}") (clockFrom 0 1) map_to_list (octal 0 2 2) noOsError noRemoval.

(** Below [folder] the tree [t] holds nothing but files of the metrics
    [done], each with the mode of a file this run made. *)
Definition onlyFresh (w : World) (folder : string) (done : list string) (t : Os.tree)
  : Prop :=
  forall p, HasPrefix p (folder +:+ "/") = true ->
    t !! p = None
    \/ exists m data,
         m ∈ done /\ p = metricPath folder m
         /\ t !! p = Some (Os.File (Z.ldiff (octal 6 0 0) (w_umask w)) data).

(** * Facts *)

Lemma app_cons c (s t : string) : String c s +:+ t = String c (s +:+ t).
Proof. reflexivity. Qed.

Lemma app_nil_l (t : string) : "" +:+ t = t.
Proof. reflexivity. Qed.

Ltac app_simpl := rewrite ?app_cons, ?app_nil_l in *.

Lemma append_nil_r (s : string) : s +:+ "" = s.
Proof. induction s as [|c s IH]; app_simpl; [reflexivity | by f_equal]. Qed.

Lemma append_assoc (a b c : string) : (a +:+ b) +:+ c = a +:+ b +:+ c.
Proof. induction a as [|x a IH]; app_simpl; [reflexivity | by f_equal]. Qed.

Lemma byte_eqb_eq a b : GoByte.eqb a b = true <-> a = b.
Proof. unfold GoByte.eqb. apply Ascii.eqb_eq. Qed.

Lemma byte_eqb_refl a : GoByte.eqb a a = true.
Proof. by apply byte_eqb_eq. Qed.

Lemma repeat_snoc c n : repeat c n +:+ String c "" = String c (repeat c n).
Proof. induction n as [|n IH]; simpl; app_simpl; [reflexivity | by f_equal]. Qed.

Lemma trimLeftByte_split s c :
  exists a, s = repeat c a +:+ trimLeftByte s c.
Proof.
  induction s as [|x s [a IH]]; simpl.
  - by exists 0%nat.
  - destruct (GoByte.eqb x c) eqn:E.
    + apply byte_eqb_eq in E as ->. exists (S a). simpl. rewrite app_cons. by rewrite <- IH.
    + by exists 0%nat.
Qed.

Lemma trimLeftByte_head s c : HasPrefix (trimLeftByte s c) (String c "") = false.
Proof.
  unfold HasPrefix. induction s as [|x s IH]; simpl; [reflexivity|].
  destruct (GoByte.eqb x c) eqn:E; [exact IH|].
  simpl. destruct (ascii_dec c x) as [->|]; [|reflexivity].
  by rewrite byte_eqb_refl in E.
Qed.

Lemma trimRightByte_split s c :
  exists b, s = trimRightByte s c +:+ repeat c b.
Proof.
  induction s as [|x s [b IH]]; simpl.
  - by exists 0%nat.
  - destruct (trimRightByte s c) as [|y r] eqn:T.
    + destruct (GoByte.eqb x c) eqn:E.
      * apply byte_eqb_eq in E as ->. exists (S b). simpl.
        app_simpl. by rewrite <- IH.
      * exists b. app_simpl. by rewrite <- IH.
    + exists b. app_simpl. by rewrite <- IH.
Qed.

Lemma HasSuffix_one_cons x s c :
  HasSuffix (String x s) (String c "") =
  match s with EmptyString => GoByte.eqb x c | _ => HasSuffix s (String c "") end.
Proof.
  simpl. destruct s as [|y s]; simpl.
  - unfold GoByte.eqb. by destruct (x =? c)%char.
  - by destruct (x =? c)%char.
Qed.

Lemma trimRightByte_last s c : HasSuffix (trimRightByte s c) (String c "") = false.
Proof.
  induction s as [|x s IH]; [reflexivity|].
  cbn [trimRightByte]. destruct (trimRightByte s c) as [|y r] eqn:T.
  - destruct (GoByte.eqb x c) eqn:E; [reflexivity|].
    rewrite HasSuffix_one_cons. exact E.
  - rewrite HasSuffix_one_cons. exact IH.
Qed.

Lemma trimLeftByte_last s c :
  HasSuffix s (String c "") = false -> HasSuffix (trimLeftByte s c) (String c "") = false.
Proof.
  induction s as [|x s IH]; [done|].
  intros H. cbn [trimLeftByte]. destruct (GoByte.eqb x c) eqn:E; [|exact H].
  apply IH. rewrite HasSuffix_one_cons in H. destruct s; [reflexivity | exact H].
Qed.

Lemma Trim_newline_split out :
  exists a b,
    out = repeat GoByte.LF a +:+ Trim out Promgather.nl +:+ repeat GoByte.LF b
    /\ HasPrefix (Trim out Promgather.nl) Promgather.nl = false
    /\ HasSuffix (Trim out Promgather.nl) Promgather.nl = false.
Proof.
  assert (Trim out Promgather.nl
          = trimLeftByte (trimRightByte out GoByte.LF) GoByte.LF) as ->.
  { destruct out; reflexivity. }
  destruct (trimRightByte_split out GoByte.LF) as [b Hb].
  destruct (trimLeftByte_split (trimRightByte out GoByte.LF) GoByte.LF) as [a Ha].
  exists a, b. split; [|split].
  - rewrite <- append_assoc, <- Ha. exact Hb.
  - apply trimLeftByte_head.
  - apply trimLeftByte_last, trimRightByte_last.
Qed.

(** ** Bytes that a string does not contain *)

Lemma all_app p (a b : string) : all p (a +:+ b) = all p a && all p b.
Proof.
  induction a as [|c a IH]; app_simpl; [reflexivity|].
  simpl. rewrite IH. by rewrite andb_assoc.
Qed.

Lemma noByte_app x (a b : string) : noByte x (a +:+ b) = noByte x a && noByte x b.
Proof. apply all_app. Qed.

Lemma all_impl (p q : ascii -> bool) s :
  (forall c, p c = true -> q c = true) -> all p s = true -> all q s = true.
Proof.
  intros Hpq. induction s as [|c s IH]; [done|]. simpl.
  intros [Hc Hs]%andb_true_iff. by rewrite (Hpq c Hc), IH.
Qed.

Lemma any_all_false p s : all (fun c => negb (p c)) s = true -> any p s = false.
Proof.
  induction s as [|c s IH]; [done|]. simpl.
  intros [Hc Hs]%andb_true_iff. rewrite IH by done.
  by destruct (p c).
Qed.

Lemma prefix_one x c s : String.prefix (String x "") (String c s) = GoByte.eqb c x.
Proof.
  simpl. unfold GoByte.eqb. destruct (ascii_dec x c) as [->|Hne].
  - rewrite Ascii.eqb_refl. by destruct s.
  - symmetry. apply Ascii.eqb_neq. congruence.
Qed.

Lemma Index_noByte x s : noByte x s = true -> Index s (String x "") = None.
Proof.
  induction s as [|c s IH]; [done|]. unfold noByte. simpl all.
  intros [Hc Hs]%andb_true_iff. cbn [Index]. rewrite prefix_one.
  apply negb_true_iff in Hc. rewrite Hc. by rewrite IH.
Qed.

Lemma LastIndex_noByte x s : noByte x s = true -> LastIndex s (String x "") = None.
Proof.
  induction s as [|c s IH]; [done|]. unfold noByte. simpl all.
  intros [Hc Hs]%andb_true_iff. cbn [LastIndex]. rewrite IH by done.
  rewrite prefix_one. apply negb_true_iff in Hc. by rewrite Hc.
Qed.

Lemma Contains_noByte x s : noByte x s = true -> Contains s (String x "") = false.
Proof. intros H. unfold Contains. by rewrite Index_noByte. Qed.

Lemma Cut_noByte x s :
  noByte x s = true -> Cut s (String x "") = (s, "", false).
Proof. intros H. unfold Cut. by rewrite Index_noByte. Qed.

Lemma CountByte_noByte x s : noByte x s = true -> CountByte s x = 0%nat.
Proof.
  induction s as [|c s IH]; [done|]. unfold noByte. simpl all.
  intros [Hc Hs]%andb_true_iff. simpl. rewrite IH by done.
  apply negb_true_iff in Hc. by rewrite Hc.
Qed.

Lemma take_app (a b : string) : take (len a) (a +:+ b) = a.
Proof. induction a as [|c a IH]; app_simpl; simpl; [by destruct b | by rewrite IH]. Qed.

Lemma drop_app (a b : string) : drop (len a) (a +:+ b) = b.
Proof. induction a as [|c a IH]; app_simpl; simpl; [by destruct b | done]. Qed.

Lemma Index_app_byte x (a b : string) :
  noByte x a = true -> Index (a +:+ String x b) (String x "") = Some (len a).
Proof.
  induction a as [|c a IH]; app_simpl.
  - intros _. cbn [Index]. rewrite prefix_one. by rewrite byte_eqb_refl.
  - unfold noByte. simpl all. intros [Hc Hs]%andb_true_iff.
    cbn [Index]. rewrite prefix_one. apply negb_true_iff in Hc. rewrite Hc.
    by rewrite IH.
Qed.

Lemma Cut_app_byte x (a b : string) :
  noByte x a = true -> Cut (a +:+ String x b) (String x "") = (a, b, true).
Proof.
  intros H. unfold Cut. rewrite Index_app_byte by done.
  rewrite take_app. simpl len.
  replace (len a + 1)%nat with (len (a +:+ String x "")).
  - replace (a +:+ String x b) with ((a +:+ String x "") +:+ b).
    + by rewrite drop_app.
    + by rewrite append_assoc.
  - clear. induction a as [|c a IH]; app_simpl; simpl; [done | by rewrite IH].
Qed.

Lemma HasSuffix_app_one x (a b : string) :
  b <> "" -> HasSuffix (a +:+ b) (String x "") = HasSuffix b (String x "").
Proof.
  intros Hb. induction a as [|c a IH]; app_simpl; [done|].
  rewrite HasSuffix_one_cons. destruct (a +:+ b) eqn:E; [|done].
  destruct a; [|done]. by rewrite app_nil_l in E.
Qed.

Lemma HasSuffix_noByte x s : noByte x s = true -> HasSuffix s (String x "") = false.
Proof.
  induction s as [|c s IH]; [done|]. unfold noByte. simpl all.
  intros [Hc Hs]%andb_true_iff. rewrite HasSuffix_one_cons.
  destruct s; [by apply negb_true_iff in Hc | by apply IH].
Qed.

(** ** Unreserved bytes and net/url *)

Ltac each_byte c := destruct c as [[] [] [] [] [] [] [] []].

Lemma plainByte_shouldEscape c m : plainByte c = true -> Url.shouldEscape c m = false.
Proof. each_byte c; destruct m; vm_compute; congruence. Qed.

Lemma plainByte_not_special c x :
  plainByte c = true ->
  GoByte.oneOf "%+#?/@:[]&;= " x = true \/ (GoByte.code x <? 32)%N = true
  \/ x = "127"%char ->
  GoByte.eqb c x = false.
Proof.
  intros Hc Hx. destruct (GoByte.eqb c x) eqn:E; [|done].
  apply byte_eqb_eq in E as <-. revert Hc Hx.
  each_byte c; vm_compute; intuition congruence.
Qed.

Lemma plain_noByte x s :
  GoByte.oneOf "%+#?/@:[]&;= " x = true ->
  all plainByte s = true -> noByte x s = true.
Proof.
  intros Hx. apply all_impl. intros c Hc.
  rewrite (plainByte_not_special c x) by auto. done.
Qed.

Lemma plain_noCTL s : all plainByte s = true -> Url.stringContainsCTLByte s = false.
Proof.
  intros H. apply any_all_false. revert H. apply all_impl.
  intros c. each_byte c; vm_compute; congruence.
Qed.

Lemma unescapeCheck_plain s m : all plainByte s = true -> Url.unescapeCheck s m = None.
Proof.
  induction s as [|c s IH]; [done|]. simpl all.
  intros [Hc Hs]%andb_true_iff. cbn [Url.unescapeCheck].
  rewrite (plainByte_not_special c "%"), (plainByte_not_special c "+") by (auto; left; done).
  rewrite (plainByte_shouldEscape c) by done.
  rewrite andb_false_r. by apply IH.
Qed.

Lemma unescape_plain s m : all plainByte s = true -> Url.unescape s m = Ok s.
Proof.
  intros H. unfold Url.unescape. rewrite unescapeCheck_plain by done.
  rewrite CountByte_noByte by (by apply plain_noByte).
  rewrite any_all_false; [done|].
  by apply (plain_noByte "+").
Qed.

Lemma escape_plain s m : all plainByte s = true -> Url.escape s m = s.
Proof.
  induction s as [|c s IH]; [done|]. simpl all.
  intros [Hc Hs]%andb_true_iff. cbn [Url.escape].
  rewrite (plainByte_not_special c " ") by (auto; left; done).
  rewrite (plainByte_shouldEscape c) by done. simpl. by rewrite IH.
Qed.

Lemma HasPrefix_noByte x s : noByte x s = true -> HasPrefix s (String x "") = false.
Proof.
  destruct s as [|c s]; [done|]. unfold noByte, HasPrefix. simpl all.
  intros [Hc Hs]%andb_true_iff. rewrite prefix_one. by apply negb_true_iff in Hc.
Qed.

Lemma parseHost_plain h : plainHost h = true -> Url.parseHost h = Ok h.
Proof.
  intros H. unfold Url.parseHost.
  rewrite HasPrefix_noByte by (by apply plain_noByte).
  rewrite LastIndex_noByte by (by apply plain_noByte).
  by apply unescape_plain.
Qed.

Lemma parseAuthority_plain h : plainHost h = true -> Url.parseAuthority h = Ok (None, h).
Proof.
  intros H. unfold Url.parseAuthority.
  rewrite LastIndex_noByte by (by apply plain_noByte).
  by rewrite parseHost_plain.
Qed.

Lemma getScheme_https rest : Url.getScheme ("https:" +:+ rest) = Ok ("https", rest).
Proof. reflexivity. Qed.

Lemma any_app p (a b : string) : any p (a +:+ b) = any p a || any p b.
Proof.
  induction a as [|c a IH]; app_simpl; [reflexivity|].
  simpl. rewrite IH. by rewrite orb_assoc.
Qed.

Lemma pathByte_facts c :
  pathByte c = true ->
  Url.shouldEscape c Url.encodePath = false
  /\ GoByte.oneOf "%+#? " c = false
  /\ ((GoByte.code c <? 32)%N || GoByte.eqb c "127") = false.
Proof. each_byte c; vm_compute; intuition congruence. Qed.

Lemma queryByte_facts c :
  queryByte c = true ->
  GoByte.oneOf "#?; " c = false
  /\ ((GoByte.code c <? 32)%N || GoByte.eqb c "127") = false.
Proof. each_byte c; vm_compute; intuition congruence. Qed.

Lemma path_noByte x s :
  GoByte.oneOf "%+#? " x = true -> all pathByte s = true -> noByte x s = true.
Proof.
  intros Hx. apply all_impl. intros c Hc.
  destruct (pathByte_facts c Hc) as (_ & Hs & _).
  destruct (GoByte.eqb c x) eqn:E; [|done].
  apply byte_eqb_eq in E as ->. congruence.
Qed.

Lemma query_noByte x s :
  GoByte.oneOf "#?; " x = true -> all queryByte s = true -> noByte x s = true.
Proof.
  intros Hx. apply all_impl. intros c Hc.
  destruct (queryByte_facts c Hc) as (Hs & _).
  destruct (GoByte.eqb c x) eqn:E; [|done].
  apply byte_eqb_eq in E as ->. congruence.
Qed.

Lemma path_noCTL s : all pathByte s = true -> Url.stringContainsCTLByte s = false.
Proof.
  intros H. apply any_all_false. revert H. apply all_impl.
  intros c Hc. destruct (pathByte_facts c Hc) as (_ & _ & ->). done.
Qed.

Lemma query_noCTL s : all queryByte s = true -> Url.stringContainsCTLByte s = false.
Proof.
  intros H. apply any_all_false. revert H. apply all_impl.
  intros c Hc. destruct (queryByte_facts c Hc) as (_ & ->). done.
Qed.

Lemma oneOf_false_eqb set c x :
  GoByte.oneOf set c = false -> GoByte.oneOf set x = true -> GoByte.eqb c x = false.
Proof.
  intros Hc Hx. destruct (GoByte.eqb c x) eqn:E; [|done].
  apply byte_eqb_eq in E as ->. congruence.
Qed.

Lemma unescape_path s : all pathByte s = true -> Url.unescape s Url.encodePath = Ok s.
Proof.
  intros H. unfold Url.unescape.
  assert (Url.unescapeCheck s Url.encodePath = None) as ->.
  { induction s as [|c s IH]; [done|]. simpl in H.
    apply andb_true_iff in H as [Hc Hs]. cbn [Url.unescapeCheck].
    destruct (pathByte_facts c Hc) as (_ & Hsp & _).
    rewrite (oneOf_false_eqb _ c "%" Hsp), (oneOf_false_eqb _ c "+" Hsp) by done.
    cbn [Url.encoding_eqb orb andb]. by apply IH. }
  rewrite CountByte_noByte by (by apply path_noByte).
  rewrite any_all_false; [done|]. by apply (path_noByte "+").
Qed.

Lemma escape_path s : all pathByte s = true -> Url.escape s Url.encodePath = s.
Proof.
  induction s as [|c s IH]; [done|]. simpl all.
  intros [Hc Hs]%andb_true_iff. cbn [Url.escape].
  destruct (pathByte_facts c Hc) as (-> & _ & _).
  cbn [Url.encoding_eqb andb]. rewrite andb_false_r. by rewrite IH.
Qed.

Lemma setPath_path u p :
  all pathByte p = true -> Url.setPath u p = Ok (Url.withPath u p "").
Proof.
  intros H. unfold Url.setPath. rewrite unescape_path, escape_path by done.
  by rewrite String.eqb_refl.
Qed.

Lemma splitQuery_none rest :
  noByte "?" rest = true -> Url.splitQuery rest = (false, rest, "").
Proof.
  intros H. unfold Url.splitQuery.
  rewrite HasSuffix_noByte by done. cbn [andb]. by rewrite Cut_noByte.
Qed.

Lemma noByte_nonempty_suffix x q :
  noByte x q = true -> HasSuffix q (String x "") = false.
Proof. apply HasSuffix_noByte. Qed.

Lemma splitQuery_some rest q :
  noByte "?" rest = true -> noByte "?" q = true -> q <> "" ->
  Url.splitQuery (rest +:+ "?" +:+ q) = (false, rest, q).
Proof.
  intros Hr Hq Hne. unfold Url.splitQuery.
  replace (rest +:+ "?" +:+ q) with ((rest +:+ "?") +:+ q) at 1
    by (by rewrite append_assoc).
  rewrite HasSuffix_app_one by done.
  rewrite HasSuffix_noByte by done. cbn [andb].
  change ("?" +:+ q) with (String "?" q). by rewrite Cut_app_byte by done.
Qed.

Lemma splitAuthority_plain h p :
  plainHost h = true -> (isEmpty p || HasPrefix p "/") = true ->
  all pathByte p = true ->
  Url.splitAuthority ("//" +:+ h +:+ p) = (h, p).
Proof.
  intros Hh Hp Hpath. unfold Url.splitAuthority.
  change (drop 2 ("//" +:+ h +:+ p)) with (h +:+ p).
  destruct p as [|c p].
  - rewrite append_nil_r. by rewrite Index_noByte by (by apply plain_noByte).
  - unfold HasPrefix in Hp. rewrite prefix_one in Hp. cbn [isEmpty orb] in Hp.
    apply byte_eqb_eq in Hp as ->.
    rewrite Index_app_byte by (by apply plain_noByte).
    by rewrite take_app, drop_app.
Qed.

Lemma HasPrefix_app (pre s : string) : HasPrefix (pre +:+ s) pre = true.
Proof.
  unfold HasPrefix. induction pre as [|c pre IH]; app_simpl; [by destruct s|].
  simpl. by destruct (ascii_dec c c).
Qed.

Lemma parseHier_https h p fq q :
  plainHost h = true -> (isEmpty p || HasPrefix p "/") = true ->
  all pathByte p = true ->
  Url.parseHier "https" fq ("//" +:+ h +:+ p) q false
  = Ok (Url.mkURL "https" "" None h p "" false fq q "" "").
Proof.
  intros Hh Hp Hpath. unfold Url.parseHier.
  change (HasPrefix ("//" +:+ h +:+ p) "/") with true.
  rewrite (HasPrefix_app "//").
  cbn [negb andb orb isEmpty].
  rewrite splitAuthority_plain by done.
  rewrite parseAuthority_plain by done.
  by rewrite setPath_path.
Qed.

Lemma CTL_app (a b : string) :
  Url.stringContainsCTLByte (a +:+ b)
  = Url.stringContainsCTLByte a || Url.stringContainsCTLByte b.
Proof. apply any_app. Qed.

(** [Parse] of [https://h p] and of [https://h p ? q] for a plain host. *)
Lemma Parse_https h p :
  plainHost h = true -> (isEmpty p || HasPrefix p "/") = true ->
  all pathByte p = true ->
  Url.Parse ("https://" +:+ h +:+ p)
  = Ok (Url.mkURL "https" "" None h p "" false false "" "" "").
Proof.
  intros Hh Hp Hpath. unfold plainHost in Hh. unfold Url.Parse.
  assert (noByte "#" ("https://" +:+ h +:+ p) = true) as Hhash.
  { by rewrite !noByte_app, (plain_noByte "#" h), (path_noByte "#" p). }
  rewrite Cut_noByte by done. cbn [isEmpty].
  unfold Url.parse.
  rewrite !CTL_app, (plain_noCTL h), (path_noCTL p) by done.
  change (Url.stringContainsCTLByte "https://") with false.
  change (isEmpty ("https://" +:+ h +:+ p)) with false.
  change (String.eqb ("https://" +:+ h +:+ p) "*") with false.
  cbn [andb orb].
  change ("https://" +:+ h +:+ p) with ("https:" +:+ "//" +:+ h +:+ p).
  rewrite getScheme_https.
  rewrite splitQuery_none
    by (by rewrite !noByte_app, (plain_noByte "?" h), (path_noByte "?" p)).
  change (ToLower "https") with "https".
  by rewrite parseHier_https.
Qed.

Lemma Parse_base h :
  plainHost h = true ->
  Url.Parse ("https://" +:+ h)
  = Ok (Url.mkURL "https" "" None h "" "" false false "" "" "").
Proof.
  intros Hh. pose proof (Parse_https h "" Hh eq_refl eq_refl) as H.
  by rewrite append_nil_r in H.
Qed.

Lemma Parse_https_query h p q :
  plainHost h = true -> (isEmpty p || HasPrefix p "/") = true ->
  all pathByte p = true -> all queryByte q = true -> q <> "" ->
  Url.Parse ("https://" +:+ h +:+ p +:+ "?" +:+ q)
  = Ok (Url.mkURL "https" "" None h p "" false false q "" "").
Proof.
  intros Hh Hp Hpath Hq Hne. unfold plainHost in Hh. unfold Url.Parse.
  assert (noByte "#" ("https://" +:+ h +:+ p +:+ "?" +:+ q) = true) as Hhash.
  { by rewrite !noByte_app, (plain_noByte "#" h), (path_noByte "#" p),
       (query_noByte "#" q). }
  rewrite Cut_noByte by done. cbn [isEmpty].
  unfold Url.parse.
  rewrite !CTL_app, (plain_noCTL h), (path_noCTL p), (query_noCTL q) by done.
  change (Url.stringContainsCTLByte "https://") with false.
  change (Url.stringContainsCTLByte "?") with false.
  change (isEmpty ("https://" +:+ h +:+ p +:+ "?" +:+ q)) with false.
  change (String.eqb ("https://" +:+ h +:+ p +:+ "?" +:+ q) "*") with false.
  cbn [andb orb].
  change ("https://" +:+ h +:+ p +:+ "?" +:+ q)
    with ("https:" +:+ "//" +:+ h +:+ p +:+ "?" +:+ q).
  rewrite getScheme_https.
  replace ("//" +:+ h +:+ p +:+ "?" +:+ q) with (("//" +:+ h +:+ p) +:+ "?" +:+ q)
    by (by rewrite !append_assoc).
  rewrite splitQuery_some; [| |by apply (query_noByte "?")|done].
  - change (ToLower "https") with "https". by rewrite parseHier_https.
  - by rewrite !noByte_app, (plain_noByte "?" h), (path_noByte "?" p).
Qed.

(** ** Decimal numbers, escaping and queries *)

Lemma string_of_uint_plain d : all plainByte (NilEmpty.string_of_uint d) = true.
Proof. induction d; simpl; auto. Qed.

Lemma Sprintf_d_plain z : all plainByte (Fmt.Sprintf_d z) = true.
Proof.
  unfold Fmt.Sprintf_d. destruct (Z.to_int z); simpl; apply string_of_uint_plain.
Qed.

Lemma parseDecimal_Sprintf_d z : parseDecimal (Fmt.Sprintf_d z) = Some z.
Proof.
  unfold parseDecimal, Fmt.Sprintf_d. rewrite NilEmpty.isi. simpl.
  by rewrite DecimalZ.of_to.
Qed.

Lemma compByte_facts c :
  compByte c = true -> queryByte c = true /\ GoByte.oneOf "&=;#?" c = false.
Proof. each_byte c; vm_compute; intuition congruence. Qed.

Lemma comp_noByte x s :
  GoByte.oneOf "&=;#?" x = true -> all compByte s = true -> noByte x s = true.
Proof.
  intros Hx. apply all_impl. intros c Hc.
  destruct (compByte_facts c Hc) as (_ & Hs).
  by rewrite (oneOf_false_eqb _ c x Hs).
Qed.

Lemma plain_comp s : all plainByte s = true -> all compByte s = true.
Proof. apply all_impl. intros c Hc. unfold compByte. by rewrite Hc. Qed.

Lemma comp_query s : all compByte s = true -> all queryByte s = true.
Proof. apply all_impl. intros c Hc. by destruct (compByte_facts c Hc). Qed.

Lemma escape_byte_cases c :
  (c = " "%char)
  \/ (c <> " "%char /\ Url.shouldEscape c Url.encodeQueryComponent = true
      /\ Url.ishex (Url.upperhex (GoByte.code c / 16)) = true
      /\ Url.ishex (Url.upperhex (GoByte.code c mod 16)) = true
      /\ compByte (Url.upperhex (GoByte.code c / 16)) = true
      /\ compByte (Url.upperhex (GoByte.code c mod 16)) = true
      /\ ascii_of_N (Url.unhex (Url.upperhex (GoByte.code c / 16)) * 16
                     + Url.unhex (Url.upperhex (GoByte.code c mod 16))) = c)
  \/ (Url.shouldEscape c Url.encodeQueryComponent = false /\ plainByte c = true).
Proof.
  each_byte c;
    first [ left; reflexivity
          | right; right; split; vm_compute; reflexivity
          | right; left; repeat split; vm_compute; congruence ].
Qed.

Lemma QueryEscape_comp s : all compByte (Url.QueryEscape s) = true.
Proof.
  unfold Url.QueryEscape. induction s as [|c s IH]; [done|].
  cbn [Url.escape].
  destruct (escape_byte_cases c) as [->|[(Hne & Hs & _ & _ & H1 & H2 & _)|(Hs & Hp)]].
  - simpl. exact IH.
  - assert (GoByte.eqb c " " = false) as ->.
    { destruct (GoByte.eqb c " ") eqn:E; [|done]. by apply byte_eqb_eq in E. }
    rewrite Hs. simpl. by rewrite H1, H2, IH.
  - rewrite Hs. rewrite (plainByte_not_special c " ") by (auto; left; done).
    simpl. unfold compByte at 1. by rewrite Hp, IH.
Qed.

Lemma unescapeCheck_QueryEscape s :
  Url.unescapeCheck (Url.QueryEscape s) Url.encodeQueryComponent = None.
Proof.
  unfold Url.QueryEscape. induction s as [|c s IH]; [done|].
  cbn [Url.escape].
  destruct (escape_byte_cases c) as [->|[(Hne & Hs & Hx1 & Hx2 & _ & _ & _)|(Hs & Hp)]].
  - simpl. exact IH.
  - assert (GoByte.eqb c " " = false) as ->.
    { destruct (GoByte.eqb c " ") eqn:E; [|done]. by apply byte_eqb_eq in E. }
    rewrite Hs. cbn [andb Url.unescapeCheck Url.encoding_eqb].
    change (GoByte.eqb "%" "%") with true. cbn iota.
    rewrite Hx1, Hx2. cbn [andb negb]. exact IH.
  - rewrite Hs. rewrite (plainByte_not_special c " ") by (auto; left; done).
    cbn [andb Url.unescapeCheck Url.encoding_eqb orb].
    rewrite (plainByte_not_special c "%"), (plainByte_not_special c "+")
      by (auto; left; done).
    exact IH.
Qed.

Lemma unescapeDecode_QueryEscape s :
  Url.unescapeDecode (Url.QueryEscape s) Url.encodeQueryComponent = s.
Proof.
  unfold Url.QueryEscape. induction s as [|c s IH]; [done|].
  cbn [Url.escape].
  destruct (escape_byte_cases c) as [->|[(Hne & Hs & _ & _ & _ & _ & Hrt)|(Hs & Hp)]].
  - simpl. by rewrite IH.
  - assert (GoByte.eqb c " " = false) as ->.
    { destruct (GoByte.eqb c " ") eqn:E; [|done]. by apply byte_eqb_eq in E. }
    rewrite Hs. cbn [andb Url.unescapeDecode].
    change (GoByte.eqb "%" "%") with true. cbn iota.
    by rewrite Hrt, IH.
  - rewrite Hs. rewrite (plainByte_not_special c " ") by (auto; left; done).
    cbn [andb Url.unescapeDecode].
    rewrite (plainByte_not_special c "%"), (plainByte_not_special c "+")
      by (auto; left; done).
    by rewrite IH.
Qed.

Lemma unescapeDecode_id s m :
  CountByte s "%" = 0%nat ->
  (any (fun c => GoByte.eqb c "+") s && Url.encoding_eqb m Url.encodeQueryComponent)
  = false ->
  Url.unescapeDecode s m = s.
Proof.
  induction s as [|c s IH]; [done|]. cbn [CountByte any Url.unescapeDecode].
  destruct (GoByte.eqb c "%") eqn:Ep; [done|]. simpl. intros Hn Hplus.
  destruct (GoByte.eqb c "+") eqn:Eq.
  - simpl in Hplus. rewrite Hplus. apply byte_eqb_eq in Eq as ->.
    rewrite IH; [done|done|]. by rewrite Hplus, andb_false_r.
  - simpl in Hplus. by rewrite IH.
Qed.

Lemma unescape_decode s m :
  Url.unescapeCheck s m = None -> Url.unescape s m = Ok (Url.unescapeDecode s m).
Proof.
  intros H. unfold Url.unescape. rewrite H.
  destruct (Nat.eqb (CountByte s "%") 0) eqn:En; [|done].
  destruct (any (fun c => GoByte.eqb c "+") s
            && Url.encoding_eqb m Url.encodeQueryComponent) eqn:Ep; [done|].
  simpl. apply Nat.eqb_eq in En. by rewrite unescapeDecode_id.
Qed.

(** Escaping and unescaping a query component is the identity. *)
Lemma QueryUnescape_QueryEscape s : Url.QueryUnescape (Url.QueryEscape s) = Ok s.
Proof.
  unfold Url.QueryUnescape. rewrite unescape_decode by apply unescapeCheck_QueryEscape.
  by rewrite unescapeDecode_QueryEscape.
Qed.

Lemma QueryEscape_plain s : all plainByte s = true -> Url.QueryEscape s = s.
Proof. apply escape_plain. Qed.

Lemma pieces_one a :
  noByte "&" a = true -> a <> "" -> Url.pieces a = [a].
Proof.
  induction a as [|c a IH]; [done|]. unfold noByte. simpl all.
  intros [Hc Ha]%andb_true_iff _. cbn [Url.pieces].
  apply negb_true_iff in Hc. rewrite Hc.
  destruct a as [|d a]; [done|]. by rewrite IH.
Qed.

Lemma pieces_cons a rest :
  noByte "&" a = true -> a <> "" ->
  Url.pieces (a +:+ "&" +:+ rest) = a :: Url.pieces rest.
Proof.
  induction a as [|c a IH]; [done|]. unfold noByte. simpl all.
  intros [Hc Ha]%andb_true_iff _. app_simpl. cbn [Url.pieces].
  apply negb_true_iff in Hc. rewrite Hc.
  destruct a as [|d a].
  - app_simpl. cbn [Url.pieces]. by rewrite byte_eqb_refl.
  - by rewrite IH.
Qed.

Lemma pair_noByte x kv : GoByte.oneOf "&;#?" x = true -> noByte x (pair kv) = true.
Proof.
  intros Hx. unfold pair. rewrite !noByte_app.
  assert (GoByte.oneOf "&=;#?" x = true) as Hx'
    by (revert Hx; each_byte x; vm_compute; congruence).
  rewrite (comp_noByte x (Url.QueryEscape kv.1)) by (done || apply QueryEscape_comp).
  rewrite (comp_noByte x (Url.QueryEscape kv.2)) by (done || apply QueryEscape_comp).
  assert (noByte x "=" = true) as ->
    by (revert Hx; each_byte x; vm_compute; congruence).
  done.
Qed.

Lemma pair_nonempty kv : pair kv <> "".
Proof. unfold pair. destruct (Url.QueryEscape kv.1); by app_simpl. Qed.

Lemma pieces_join kvs : Url.pieces (Url.join (List.map pair kvs) "&") = List.map pair kvs.
Proof.
  induction kvs as [|kv kvs IH]; [done|].
  destruct kvs as [|kv' kvs].
  - simpl. apply pieces_one; [by apply pair_noByte | apply pair_nonempty].
  - change (Url.join (List.map pair (kv :: kv' :: kvs)) "&")
      with (pair kv +:+ "&" +:+ Url.join (List.map pair (kv' :: kvs)) "&").
    rewrite pieces_cons; [|by apply pair_noByte | apply pair_nonempty].
    by rewrite IH.
Qed.

Lemma parseQueryStep_pair m err kv :
  Url.parseQueryStep (m, err) (pair kv) = (addValue m kv, err).
Proof.
  unfold Url.parseQueryStep.
  rewrite Contains_noByte by (by apply pair_noByte).
  assert (isEmpty (pair kv) = false) as ->.
  { pose proof (pair_nonempty kv). by destruct (pair kv). }
  unfold pair. change ("=" +:+ Url.QueryEscape kv.2) with (String "=" (Url.QueryEscape kv.2)).
  rewrite Cut_app_byte by (apply (comp_noByte "="); [done | apply QueryEscape_comp]).
  by rewrite !QueryUnescape_QueryEscape.
Qed.

(** Parsing an encoded query gives back its keys and values. *)
Lemma ParseQuery_join kvs :
  Url.ParseQuery (Url.join (List.map pair kvs) "&") = (fold_left addValue kvs ∅, None).
Proof.
  unfold Url.ParseQuery. rewrite pieces_join.
  generalize (∅ : Url.Values) (None : option url_cause).
  induction kvs as [|kv kvs IH]; intros m err; [done|].
  cbn [fold_left List.map]. rewrite parseQueryStep_pair. apply IH.
Qed.

Lemma pair_query kv : all queryByte (pair kv) = true.
Proof.
  unfold pair. rewrite !all_app.
  rewrite (comp_query (Url.QueryEscape kv.1)) by apply QueryEscape_comp.
  rewrite (comp_query (Url.QueryEscape kv.2)) by apply QueryEscape_comp.
  reflexivity.
Qed.

Lemma join_pairs_query kvs : all queryByte (Url.join (List.map pair kvs) "&") = true.
Proof.
  induction kvs as [|kv kvs IH]; [done|].
  destruct kvs as [|kv' kvs]; [apply pair_query|].
  change (Url.join (List.map pair (kv :: kv' :: kvs)) "&")
    with (pair kv +:+ "&" +:+ Url.join (List.map pair (kv' :: kvs)) "&").
  rewrite !all_app, pair_query, IH. done.
Qed.

Lemma join_pairs_nonempty kv kvs : Url.join (List.map pair (kv :: kvs)) "&" <> "".
Proof.
  pose proof (pair_nonempty kv) as H.
  destruct kvs; simpl; [done|]. destruct (pair kv); [done|]. by app_simpl.
Qed.

Lemma Encode_sortedPairs v : Url.Encode v = Url.join (List.map pair (sortedPairs v)) "&".
Proof.
  unfold Url.Encode, Url.encodePairs, sortedPairs. f_equal.
  induction (Url.sortKeys (List.map fst (map_to_list v))) as [|k ks IH]; [done|].
  simpl. rewrite List.map_app, <- IH. f_equal.
  by rewrite List.map_map.
Qed.

Lemma catalog_pairs (start end_ sel : string) :
  sortedPairs (Url.Set_ (Url.Set_ (Url.Set_ ∅ "start" start) "end" end_) "match[]" sel)
  = [("end", end_); ("match[]", sel); ("start", start)].
Proof. vm_compute. reflexivity. Qed.

Lemma range_pairs (metric start end_ : string) :
  sortedPairs (Url.Set_ (Url.Set_ (Url.Set_ (Url.Set_ ∅ "query" metric) "start" start)
                                  "end" end_) "step" "60s")
  = [("end", end_); ("query", metric); ("start", start); ("step", "60s")].
Proof. vm_compute. reflexivity. Qed.

Lemma catalog_values (start end_ sel : string) :
  fold_left addValue [("end", end_); ("match[]", sel); ("start", start)] ∅
  = Url.Set_ (Url.Set_ (Url.Set_ ∅ "start" start) "end" end_) "match[]" sel.
Proof. vm_compute. reflexivity. Qed.

Lemma range_values (metric start end_ : string) :
  fold_left addValue [("end", end_); ("query", metric); ("start", start); ("step", "60s")] ∅
  = Url.Set_ (Url.Set_ (Url.Set_ (Url.Set_ ∅ "query" metric) "start" start) "end" end_)
             "step" "60s".
Proof. vm_compute. reflexivity. Qed.

(** ** The requests of the program *)

Lemma Unix_Add_Hour t : Time.Unix (Time.Add t (- Time.Hour)) = Time.Unix t - 3600.
Proof.
  unfold Time.Unix, Time.Add, Time.Hour, Time.Second. cbn [Time.wall].
  replace (Time.wall t + - (3600 * 1000000000))
    with (Time.wall t + (-3600) * 1000000000) by lia.
  rewrite Z.div_add by lia. lia.
Qed.

Lemma window_run w s :
  window w s = ((windowStart w (st_clock s), windowEnd w (st_clock s)), tick s 2).
Proof. unfold window, windowStart. rewrite <- Unix_Add_Hour. reflexivity. Qed.

Lemma String_https h p q :
  plainHost h = true -> all pathByte p = true -> q <> "" ->
  Url.String_ (Url.mkURL "https" "" None h (String "/" p) "" false false q "" "")
  = "https://" +:+ h +:+ String "/" p +:+ "?" +:+ q.
Proof.
  intros Hh Hp Hq. unfold Url.String_, Url.EscapedPath.
  cbn [Url.Scheme Url.Opaque Url.User Url.Host Url.Path Url.RawPath Url.OmitHost
       Url.ForceQuery Url.RawQuery Url.Fragment Url.RawFragment isEmpty negb andb orb].
  assert (Url.escape (String "/" p) Url.encodePath = String "/" p) as ->.
  { apply escape_path. simpl. exact Hp. }
  assert ((if isEmpty h then "" else Url.escape h Url.encodeHost) = h) as ->.
  { destruct h; [done|]. by apply escape_plain. }
  assert (String.eqb (String "/" p) "*" = false) as -> by reflexivity.
  assert (HasPrefix (String "/" p) "/" = true) as ->
    by (unfold HasPrefix; by rewrite prefix_one).
  rewrite orb_true_r. cbn [orb negb andb isEmpty].
  destruct q as [|c q]; [done|]. cbn [isEmpty negb].
  rewrite !append_assoc. app_simpl. cbn [isEmpty andb]. app_simpl.
  by rewrite ?append_nil_r.
Qed.

Lemma removeEmptyPort_plain h : plainHost h = true -> Http.removeEmptyPort h = h.
Proof.
  intros H. unfold Http.removeEmptyPort, Http.hasPort, Http.lastIndexZ.
  by rewrite !LastIndex_noByte by (by apply plain_noByte).
Qed.

Lemma Encode_query v : all queryByte (Url.Encode v) = true.
Proof. rewrite Encode_sortedPairs. apply join_pairs_query. Qed.

Lemma Encode_nonempty v : sortedPairs v <> [] -> Url.Encode v <> "".
Proof.
  rewrite Encode_sortedPairs. destruct (sortedPairs v) as [|kv kvs]; [done|].
  intros _. apply join_pairs_nonempty.
Qed.

(** [NewRequest] reads back the URL that [String] wrote. *)
Lemma NewRequest_https h p v :
  plainHost h = true -> all pathByte p = true -> sortedPairs v <> [] ->
  Http.NewRequest "GET" (Url.String_ (httpsURL h (String "/" p) v))
  = Ok (Http.mkRequest "GET" (httpsURL h (String "/" p) v) ∅ h).
Proof.
  intros Hh Hp Hv. unfold httpsURL.
  rewrite String_https by (done || by apply Encode_nonempty).
  unfold Http.NewRequest. cbn [isEmpty].
  assert (Http.validMethod "GET" = true) as -> by reflexivity. cbn [negb].
  rewrite Parse_https_query;
    [|done|by unfold HasPrefix; rewrite prefix_one|done|apply Encode_query
     |by apply Encode_nonempty].
  unfold Url.withHost. cbn [Url.Scheme Url.Opaque Url.User Url.Host Url.Path
    Url.RawPath Url.OmitHost Url.ForceQuery Url.RawQuery Url.Fragment Url.RawFragment].
  by rewrite removeEmptyPort_plain.
Qed.

Lemma buildRequest_https w c h p v :
  plainHost h = true -> all pathByte p = true -> sortedPairs v <> [] ->
  buildRequest w c (Url.String_ (httpsURL h (String "/" p) v))
  = Ok (requestFor w c (httpsURL h (String "/" p) v)).
Proof.
  intros Hh Hp Hv. unfold buildRequest. by rewrite NewRequest_https.
Qed.

Lemma Get_https w c h p v s :
  plainHost h = true -> all pathByte p = true -> sortedPairs v <> [] ->
  Get w c (Url.String_ (httpsURL h (String "/" p) v)) s
  = (w_do w (List.length (st_sent s)) (requestFor w c (httpsURL h (String "/" p) v)),
     sent s (requestFor w c (httpsURL h (String "/" p) v))).
Proof.
  intros Hh Hp Hv. unfold Get. by rewrite buildRequest_https.
Qed.

Lemma Parse_apiValues :
  Url.Parse "api/v1/label/__name__/values"
  = Ok (Url.mkURL "" "" None "" "api/v1/label/__name__/values" "" false false "" "" "").
Proof. vm_compute. reflexivity. Qed.

Lemma Parse_apiQueryRange :
  Url.Parse "api/v1/query_range"
  = Ok (Url.mkURL "" "" None "" "api/v1/query_range" "" false false "" "" "").
Proof. vm_compute. reflexivity. Qed.

Lemma Resolve_apiValues h :
  Url.ResolveReference
    (Url.mkURL "https" "" None h "" "" false false "" "" "")
    (Url.mkURL "" "" None "" "api/v1/label/__name__/values" "" false false "" "" "")
  = Url.mkURL "https" "" None h apiValues "" false false "" "" "".
Proof. vm_compute. reflexivity. Qed.

Lemma Resolve_apiQueryRange h :
  Url.ResolveReference
    (Url.mkURL "https" "" None h "" "" false false "" "" "")
    (Url.mkURL "" "" None "" "api/v1/query_range" "" false false "" "" "")
  = Url.mkURL "https" "" None h apiQueryRange "" false false "" "" "".
Proof. vm_compute. reflexivity. Qed.

Lemma catalogQuery_pairs w n : sortedPairs (catalogQuery w n) <> [].
Proof. unfold catalogQuery. by rewrite catalog_pairs. Qed.

Lemma rangeQuery_pairs w n metric : sortedPairs (rangeQuery w n metric) <> [].
Proof. unfold rangeQuery. by rewrite range_pairs. Qed.

(** With a plain host, [getMetricList] reads the clock twice, sends the
    catalog request and goes on with the answer. *)
Lemma getMetricList_plain w c s :
  plainHost (host c) = true ->
  getMetricList w c s
  = decodeMetricList
      (w_do w (List.length (st_sent s))
            (requestFor w c (httpsURL (host c) apiValues (catalogQuery w (st_clock s)))))
      (sent (tick s 2)
            (requestFor w c (httpsURL (host c) apiValues (catalogQuery w (st_clock s))))).
Proof.
  intros Hh. unfold getMetricList.
  rewrite Parse_base by done.
  rewrite Parse_apiValues, Resolve_apiValues.
  unfold mbind, M_bind. rewrite window_run.
  change (Url.Query (Url.mkURL "https" "" None (host c) apiValues "" false false "" "" ""))
    with (∅ : Url.Values).
  match goal with
  | |- context [Url.withRawQuery ?u ?q] =>
      change (Url.withRawQuery u q)
        with (httpsURL (host c) apiValues (catalogQuery w (st_clock s)))
  end.
  unfold apiValues.
  rewrite Get_https; [|done|reflexivity|apply catalogQuery_pairs].
  reflexivity.
Qed.

Lemma getRangeQueryUrl_plain w h metric s :
  plainHost h = true ->
  getRangeQueryUrl w h metric s
  = ((Url.String_ (httpsURL h apiQueryRange (rangeQuery w (st_clock s) metric)), None),
     tick s 2).
Proof.
  intros Hh. unfold getRangeQueryUrl.
  rewrite Parse_base by done.
  rewrite Parse_apiQueryRange, Resolve_apiQueryRange.
  unfold mbind, M_bind. rewrite window_run.
  change (Url.Query (Url.mkURL "https" "" None h apiQueryRange "" false false "" "" ""))
    with (∅ : Url.Values).
  reflexivity.
Qed.

Lemma getMetric_plain w c metric folder s :
  plainHost (host c) = true ->
  getMetric w c metric folder s
  = storeMetric w
      (w_do w (List.length (st_sent s))
            (requestFor w c (httpsURL (host c) apiQueryRange
                                      (rangeQuery w (st_clock s) metric))))
      metric folder
      (sent (tick s 2)
            (requestFor w c (httpsURL (host c) apiQueryRange
                                      (rangeQuery w (st_clock s) metric)))).
Proof.
  intros Hh. unfold getMetric, mbind, M_bind.
  rewrite getRangeQueryUrl_plain by done.
  unfold apiQueryRange.
  rewrite Get_https; [|done|reflexivity|apply rangeQuery_pairs].
  reflexivity.
Qed.

(** ** What the steps leave alone *)

Lemma decodeMetricList_keeps r s :
  st_fs (snd (decodeMetricList r s)) = st_fs s
  /\ st_sent (snd (decodeMetricList r s)) = st_sent s
  /\ st_clock (snd (decodeMetricList r s)) = st_clock s.
Proof.
  unfold decodeMetricList. destruct r as [resp|e]; [|done].
  destruct (negb (Http.StatusCode resp =? 200)); [done|].
  destruct (Json.Decode (Http.RespBody resp)) as [data [e|]]; done.
Qed.

Lemma app_one_neq {A} (l : list A) x : l <> l ++ [x].
Proof.
  intros H. apply (f_equal (@List.length A)) in H.
  rewrite List.length_app in H. simpl in H. lia.
Qed.

(** [getMetricList] either sends nothing, or sends one request and goes
    on with the answer to it. *)
Lemma getMetricList_cases w c s :
  (st_sent (snd (getMetricList w c s)) = st_sent s
   /\ exists e, fst (getMetricList w c s) = ([], Some e))
  \/ (exists req s1,
        st_sent s1 = st_sent s ++ [req] /\ st_fs s1 = st_fs s
        /\ getMetricList w c s
           = decodeMetricList (w_do w (List.length (st_sent s)) req) s1).
Proof.
  unfold getMetricList.
  destruct (Url.Parse ("https://" +:+ host c)) as [apiUrl|e]; [|left; eauto].
  destruct (Url.Parse "api/v1/label/__name__/values") as [apiPath|e]; [|left; eauto].
  unfold mbind, M_bind. rewrite window_run. unfold Get.
  match goal with |- context [buildRequest w c ?u] =>
    destruct (buildRequest w c u) as [req|e] end.
  - right. exists req, (sent (tick s 2) req). done.
  - left. cbn. eauto.
Qed.

Lemma getRangeQueryUrl_keeps w h metric s :
  st_sent (snd (getRangeQueryUrl w h metric s)) = st_sent s
  /\ st_fs (snd (getRangeQueryUrl w h metric s)) = st_fs s.
Proof.
  unfold getRangeQueryUrl.
  destruct (Url.Parse ("https://" +:+ h)); [|done].
  destruct (Url.Parse "api/v1/query_range"); [|done].
  unfold mbind, M_bind. by rewrite window_run.
Qed.

(** [getMetric] either sends nothing and leaves the tree alone, or sends
    one request and goes on with the answer to it. *)
Lemma getMetric_cases w c metric folder s :
  (st_sent (snd (getMetric w c metric folder s)) = st_sent s
   /\ st_fs (snd (getMetric w c metric folder s)) = st_fs s)
  \/ (exists req s1,
        st_sent s1 = st_sent s ++ [req] /\ st_fs s1 = st_fs s
        /\ getMetric w c metric folder s
           = storeMetric w (w_do w (List.length (st_sent s)) req) metric folder s1).
Proof.
  unfold getMetric, mbind, M_bind.
  destruct (getRangeQueryUrl_keeps w (host c) metric s) as [Hs Hf].
  destruct (getRangeQueryUrl w (host c) metric s) as [[url [e|]] s0] eqn:E;
    cbn [snd] in Hs, Hf.
  - left. cbn. done.
  - unfold Get. destruct (buildRequest w c url) as [req|e].
    + right. exists req, (sent s0 req). cbn.
      split; [by rewrite Hs | split; [done | unfold sent; by rewrite Hs]].
    + left. cbn. done.
Qed.

Lemma storeMetric_sent w r metric folder s :
  st_sent (snd (storeMetric w r metric folder s)) = st_sent s.
Proof.
  unfold storeMetric. destruct r as [resp|e]; [|done].
  destruct (negb (Http.StatusCode resp =? 200)); [done|].
  destruct (Http.ReadAll (Http.RespBody resp)) as [data [e|]]; [done|].
  unfold mbind, M_bind, osWriteFile, onTree.
  destruct (w_oserr w "open" _); [done|].
  destruct (Os.WriteFile _ _ _ _ _) as [t [e|]]; done.
Qed.

(** The tree after [storeMetric] differs only if the answer was a 200
    whose body could be read to its end. *)
Lemma storeMetric_tree w r metric folder s :
  st_fs (snd (storeMetric w r metric folder s)) = st_fs s
  \/ (exists resp,
        r = Ok resp /\ Http.StatusCode resp = 200
        /\ Http.bodyErr (Http.RespBody resp) = None
        /\ w_oserr w "open" (folder +:+ "/" +:+ metric +:+ ".json") = None
        /\ st_fs (snd (storeMetric w r metric folder s))
           = fst (Os.WriteFile (w_umask w) (folder +:+ "/" +:+ metric +:+ ".json")
                               (Http.bodyBytes (Http.RespBody resp)) (octal 6 0 0)
                               (st_fs s))).
Proof.
  unfold storeMetric. destruct r as [resp|e]; [|by left].
  destruct (Http.StatusCode resp =? 200) eqn:Es; [|by left].
  apply Z.eqb_eq in Es. cbn [negb].
  unfold Http.ReadAll. destruct (Http.bodyErr (Http.RespBody resp)) eqn:Eb; [by left|].
  cbn [fmap option_fmap option_map].
  unfold mbind, M_bind, osWriteFile, onTree.
  destruct (w_oserr w "open" _) eqn:Eo; [by left|].
  right. exists resp. repeat split; try done.
  destruct (Os.WriteFile _ _ _ _ _) as [t [e|]]; done.
Qed.

(** ** Sample worlds *)

(** ** C1: a catalog answer other than 200 *)

(** C1 (as the code behaves).  When [getMetricList] has sent its request
    and the answer carries a status other than 200, it returns the empty
    list together with a nil error: the [err] it returns is the one that
    [Get] returned, which is nil on this path. *)
Theorem getMetricList_not_200_nil_error w c s req resp :
  st_sent (exec (getMetricList w c) s) = st_sent s ++ [req] ->
  w_do w (List.length (st_sent s)) req = Ok resp ->
  Http.StatusCode resp <> 200 ->
  fst (run (getMetricList w c) s) = ([], None).
Proof.
  unfold exec, run. intros Hsent Hdo Hstatus.
  destruct (getMetricList_cases w c s) as [[Hs _]|(req' & s1 & Hs1 & _ & Hrun)].
  - rewrite Hs in Hsent. by apply app_one_neq in Hsent.
  - rewrite Hrun in Hsent |- *.
    destruct (decodeMetricList_keeps (w_do w (List.length (st_sent s)) req') s1)
      as (_ & Hk & _).
    rewrite Hk, Hs1 in Hsent. apply app_inv_head in Hsent as [= ->].
    rewrite Hdo. unfold decodeMetricList.
    destruct (Http.StatusCode resp =? 200) eqn:E; [by apply Z.eqb_eq in E|].
    reflexivity.
Qed.

Lemma getMetricList_not_200_nil_error_witness :
  fst (run (getMetricList (sampleWorld "abc123" "example.com" 503
                                       "503 Service Unavailable" "" 0 1)
                          sampleClient) freshState)
  = ([], None).
Proof.
  eapply (getMetricList_not_200_nil_error _ _ _ _
            (Http.mkResponse 503 "503 Service Unavailable" (Http.mkBody "" None))).
  - vm_compute. reflexivity.
  - reflexivity.
  - discriminate.
Defined.

(** The run at that input: [main] reports an empty catalog, not a failed
    fetch. *)
Example main_not_200_console :
  st_console (exec (main (sampleWorld "abc123" "example.com" 503
                                      "503 Service Unavailable" "" 0 1)) freshState)
  = [Println "Starting: prometheus metrics gathering.";
     PrintfStr ("Metric list fetch not OK: HTTP status code %v" +:+ nl)
               "503 Service Unavailable";
     Println "Error: prometheus storage metrics not found."].
Proof. vm_compute. reflexivity. Qed.

(** ** C2 and C10: the output of the external tool *)

(** C2 (counterexample).  Two trailing newlines are both removed, and so
    is a leading newline: the result is not the output less one trailing
    newline. *)
Lemma getCmdResult_strips_every_newline :
  fst (getCmdResult (worldPrinting ("abc" +:+ nl +:+ nl)) "oc" tokenArgs)
    <> stripOneTrailingNewline ("abc" +:+ nl +:+ nl)
  /\ fst (getCmdResult (worldPrinting (nl +:+ "abc")) "oc" tokenArgs)
    <> stripOneTrailingNewline (nl +:+ "abc").
Proof. split; vm_compute; discriminate. Qed.

(** C2 (amended).  For a command that exits with status zero the result
    is the captured output without its leading and trailing newlines,
    all of them and nothing else: the output is some newlines, the
    result, and some newlines, and the result neither starts nor ends
    with a newline.  The error is nil. *)
Theorem getCmdResult_trims_newlines w command arg out :
  w_exec w command arg = Exited out 0 ->
  exists r a b,
    getCmdResult w command arg = (r, None)
    /\ out = repeat GoByte.LF a +:+ r +:+ repeat GoByte.LF b
    /\ HasPrefix r nl = false
    /\ HasSuffix r nl = false.
Proof.
  intros Hexec. destruct (Trim_newline_split out) as (a & b & Hout & Hp & Hs).
  exists (Trim out nl), a, b. unfold getCmdResult. rewrite Hexec. by cbn.
Qed.

Lemma getCmdResult_trims_newlines_witness :
  exists r a b,
    getCmdResult (worldPrinting ("abc123" +:+ nl)) "oc" tokenArgs = (r, None)
    /\ "abc123" +:+ nl = repeat GoByte.LF a +:+ r +:+ repeat GoByte.LF b
    /\ HasPrefix r nl = false
    /\ HasSuffix r nl = false.
Proof.
  apply (getCmdResult_trims_newlines (worldPrinting ("abc123" +:+ nl)) "oc" tokenArgs).
  reflexivity.
Defined.

(** The example of the specification: ["abc123\n"] gives ["abc123"]. *)
Example getCmdResult_abc123 :
  getCmdResult (worldPrinting ("abc123" +:+ nl)) "oc" tokenArgs = ("abc123", None).
Proof. reflexivity. Qed.

(** With the log file open and both commands exiting with status zero,
    [main] is [gather] with the client made of the two outputs. *)
Lemma main_to_gather w s tokenOut hostOut :
  fst (osOpenFile w "promgather.log" (octal 6 0 0) s) = None ->
  w_exec w "oc" tokenArgs = Exited tokenOut 0 ->
  w_exec w "oc" hostArgs = Exited hostOut 0 ->
  main w s
  = gather w (mkHttpClient {["Authorization" := "Bearer " +:+ Trim tokenOut nl]}
                           (Trim hostOut nl))
           (w_now w (st_clock s)) (started w s).
Proof.
  intros Hopen Htoken Hhost. unfold main, started, exec, mbind, M_bind.
  destruct (osOpenFile w "promgather.log" (octal 6 0 0) s) as [[e|] s1] eqn:E;
    [done|].
  unfold getCmdResult. fold tokenArgs hostArgs. rewrite Htoken, Hhost. cbn.
  assert (st_clock s1 = st_clock s) as ->; [|done].
  revert E. unfold osOpenFile, onTree.
  destruct (w_oserr w "open" "promgather.log"); [by intros [= _ <-]|].
  destruct (Os.createTrunc _ _ _ _ _). by intros [= _ <-].
Qed.





(** ** C3: the catalog request *)

(** C3 (counterexample).  With the two clock readings in different
    seconds the window of the request is 3601 seconds long; and with the
    host text [example.com/v2] the request goes to the host
    [example.com] and the path of the API, not to a URL under that
    text. *)
Lemma catalog_window_3601 :
  (exists req,
     st_sent (exec (getMetricList (tickingWorld "example.com") sampleClient) freshState)
       = [req]
     /\ parseDecimal (queryParam req "start") = Some 1699996400
     /\ parseDecimal (queryParam req "end") = Some 1700000001
     /\ 1700000001 - 1699996400 <> 3600)
  /\ (exists req,
        st_sent (exec (getMetricList (tickingWorld "example.com/v2")
                         (mkHttpClient (headers sampleClient) "example.com/v2"))
                      freshState) = [req]
        /\ Url.Host (Http.URL req) = "example.com"
        /\ Url.Path (Http.URL req) = "/api/v1/label/__name__/values"
        /\ Url.Host (Http.URL req) <> "example.com/v2").
Proof.
  split; eexists; (split; [vm_compute; reflexivity|]); vm_compute;
    repeat split; discriminate.
Qed.

Lemma fold_setHeader_fields l r :
  Http.URL (fold_left setHeader l r) = Http.URL r
  /\ Http.Method (fold_left setHeader l r) = Http.Method r
  /\ Http.ReqHost (fold_left setHeader l r) = Http.ReqHost r.
Proof.
  revert r. induction l as [|kv l IH]; intros r; [done|].
  cbn [fold_left]. destruct (IH (setHeader r kv)) as (-> & -> & ->). done.
Qed.

Lemma requestFor_URL w c u : Http.URL (requestFor w c u) = u.
Proof. unfold requestFor. by destruct (fold_setHeader_fields (w_range w (headers c))
                                          (Http.mkRequest "GET" u ∅ (Url.Host u))) as (-> & _). Qed.

Lemma requestFor_Method w c u : Http.Method (requestFor w c u) = "GET".
Proof. unfold requestFor. by destruct (fold_setHeader_fields (w_range w (headers c))
                                          (Http.mkRequest "GET" u ∅ (Url.Host u))) as (_ & -> & _). Qed.

Lemma Query_catalog h p w n :
  Url.Query (httpsURL h p (catalogQuery w n)) = catalogQuery w n.
Proof.
  unfold Url.Query, httpsURL. cbn [Url.RawQuery].
  rewrite Encode_sortedPairs, ParseQuery_join. unfold catalogQuery.
  rewrite catalog_pairs. cbn [fst]. apply catalog_values.
Qed.

Lemma Query_range h p w n metric :
  Url.Query (httpsURL h p (rangeQuery w n metric)) = rangeQuery w n metric.
Proof.
  unfold Url.Query, httpsURL. cbn [Url.RawQuery].
  rewrite Encode_sortedPairs, ParseQuery_join. unfold rangeQuery.
  rewrite range_pairs. cbn [fst]. apply range_values.
Qed.

Lemma Unix_mono t1 t2 : Time.wall t1 <= Time.wall t2 -> Time.Unix t1 <= Time.Unix t2.
Proof. intros H. unfold Time.Unix, Time.Second. apply Z.div_le_mono; lia. Qed.

(** C3 (amended).  For a host made of letters, digits and [-._~] the
    catalog request is a GET to [https://host/api/v1/label/__name__/values];
    its query holds exactly [match[]] with the selector, [start] and
    [end]; [start] is the second of the first clock reading less 3600
    and [end] is the second of the second reading, so [end - start] is
    3600 plus the seconds that passed between the readings: 3600 when
    both fall in one second, and at least 3600 when the clock does not
    run backwards. *)
Theorem catalog_request w c s :
  plainHost (host c) = true ->
  let t1 := w_now w (st_clock s) in
  let t2 := w_now w (S (st_clock s)) in
  let start := Time.Unix t1 - 3600 in
  let end_ := Time.Unix t2 in
  exists req,
    st_sent (exec (getMetricList w c) s) = st_sent s ++ [req]
    /\ Http.Method req = "GET"
    /\ Url.Scheme (Http.URL req) = "https"
    /\ Url.Host (Http.URL req) = host c
    /\ Url.Path (Http.URL req) = "/api/v1/label/__name__/values"
    /\ Url.String_ (Http.URL req)
       = "https://" +:+ host c +:+ "/api/v1/label/__name__/values" +:+ "?"
         +:+ Url.RawQuery (Http.URL req)
    /\ Url.Query (Http.URL req)
       = <["match[]" := [selector]]>
           (<["end" := [Fmt.Sprintf_d end_]]> (<["start" := [Fmt.Sprintf_d start]]> ∅))
    /\ parseDecimal (queryParam req "start") = Some start
    /\ parseDecimal (queryParam req "end") = Some end_
    /\ end_ - start = 3600 + (Time.Unix t2 - Time.Unix t1)
    /\ (Time.Unix t1 = Time.Unix t2 -> end_ - start = 3600)
    /\ (Time.wall t1 <= Time.wall t2 -> 3600 <= end_ - start).
Proof.
  intros Hh t1 t2 start end_.
  exists (requestFor w c (httpsURL (host c) apiValues (catalogQuery w (st_clock s)))).
  unfold exec. rewrite getMetricList_plain by done.
  destruct (decodeMetricList_keeps
              (w_do w (List.length (st_sent s))
                 (requestFor w c (httpsURL (host c) apiValues (catalogQuery w (st_clock s)))))
              (sent (tick s 2)
                 (requestFor w c (httpsURL (host c) apiValues (catalogQuery w (st_clock s))))))
    as (_ & -> & _).
  unfold queryParam. rewrite requestFor_URL, requestFor_Method, Query_catalog.
  repeat split; try reflexivity.
  - unfold httpsURL, apiValues. rewrite String_https;
      [reflexivity|done|reflexivity|apply Encode_nonempty, catalogQuery_pairs].
  - apply parseDecimal_Sprintf_d.
  - apply parseDecimal_Sprintf_d.
  - subst start end_. lia.
  - subst start end_. lia.
  - intros Hle. apply Unix_mono in Hle. subst start end_. lia.
Qed.

Lemma catalog_request_witness :
  exists req,
    st_sent (exec (getMetricList (tickingWorld "example.com") sampleClient) freshState)
      = [req]
    /\ Url.String_ (Http.URL req)
       = "https://example.com/api/v1/label/__name__/values" +:+ "?"
         +:+ Url.RawQuery (Http.URL req)
    /\ queryParam req "match[]" = selector.
Proof.
  destruct (catalog_request (tickingWorld "example.com") sampleClient freshState)
    as (req & Hsent & _ & _ & _ & _ & Hstr & Hq & _); [reflexivity|].
  exists req. split; [exact Hsent|]. split; [exact Hstr|].
  unfold queryParam. rewrite Hq. reflexivity.
Defined.

(** ** C4: the range query *)

(** C4 (counterexample).  With the two clock readings in different
    seconds the window in the URL is 3601 seconds long; and for the host
    text [exa mple.com] no URL is built at all: the result is the empty
    string and the error of [url.Parse]. *)
Lemma range_window_3601 :
  (fst (run (getRangeQueryUrl (tickingWorld "example.com") "example.com" "ceph_osd_up")
            freshState)
   = ("https://example.com/api/v1/query_range?end=1700000001&query=ceph_osd_up&start=1699996400&step=60s",
      None)
   /\ 1700000001 - 1699996400 <> 3600)
  /\ fst (run (getRangeQueryUrl (tickingWorld "exa mple.com") "exa mple.com" "ceph_osd_up")
              freshState)
     = ("", Some (UrlError "parse" "https://exa mple.com" (InvalidHostError " "))).
Proof. repeat split; try (vm_compute; reflexivity). discriminate. Qed.

(** C4 (amended).  For a host made of letters, digits and [-._~] and any
    metric name, [getRangeQueryUrl] returns, with a nil error, the text
    of [https://host/api/v1/query_range] with a query that holds exactly
    [query] with the metric name, [step] with [60s], [start] and [end];
    [end - start] is 3600 plus the seconds that passed between the two
    clock readings: 3600 when both fall in one second, and at least 3600
    when the clock does not run backwards. *)
Theorem range_query_url w h metric s :
  plainHost h = true ->
  let t1 := w_now w (st_clock s) in
  let t2 := w_now w (S (st_clock s)) in
  let start := Time.Unix t1 - 3600 in
  let end_ := Time.Unix t2 in
  exists u,
    fst (run (getRangeQueryUrl w h metric) s) = (Url.String_ u, None)
    /\ Url.Parse (Url.String_ u) = Ok u
    /\ Url.Scheme u = "https"
    /\ Url.Host u = h
    /\ Url.Path u = "/api/v1/query_range"
    /\ Url.String_ u = "https://" +:+ h +:+ "/api/v1/query_range" +:+ "?" +:+ Url.RawQuery u
    /\ Url.Query u
       = <["step" := ["60s"]]>
           (<["end" := [Fmt.Sprintf_d end_]]>
              (<["start" := [Fmt.Sprintf_d start]]> (<["query" := [metric]]> ∅)))
    /\ Url.Get (Url.Query u) "query" = metric
    /\ Url.Get (Url.Query u) "step" = "60s"
    /\ parseDecimal (Url.Get (Url.Query u) "start") = Some start
    /\ parseDecimal (Url.Get (Url.Query u) "end") = Some end_
    /\ end_ - start = 3600 + (Time.Unix t2 - Time.Unix t1)
    /\ (Time.Unix t1 = Time.Unix t2 -> end_ - start = 3600)
    /\ (Time.wall t1 <= Time.wall t2 -> 3600 <= end_ - start).
Proof.
  intros Hh t1 t2 start end_.
  exists (httpsURL h apiQueryRange (rangeQuery w (st_clock s) metric)).
  unfold run. rewrite getRangeQueryUrl_plain by done.
  rewrite Query_range.
  assert (Url.String_ (httpsURL h apiQueryRange (rangeQuery w (st_clock s) metric))
          = "https://" +:+ h +:+ "/api/v1/query_range" +:+ "?"
            +:+ Url.Encode (rangeQuery w (st_clock s) metric)) as Hstr.
  { unfold httpsURL, apiQueryRange. rewrite String_https;
      [reflexivity|done|reflexivity|apply Encode_nonempty, rangeQuery_pairs]. }
  repeat split; try reflexivity.
  - rewrite Hstr. unfold httpsURL, apiQueryRange.
    apply Parse_https_query;
      [done|reflexivity|reflexivity|apply Encode_query
      |apply Encode_nonempty, rangeQuery_pairs].
  - exact Hstr.
  - apply parseDecimal_Sprintf_d.
  - apply parseDecimal_Sprintf_d.
  - subst start end_. lia.
  - subst start end_. lia.
  - intros Hle. apply Unix_mono in Hle. subst start end_. lia.
Qed.

Lemma range_query_url_witness :
  exists u,
    fst (run (getRangeQueryUrl (tickingWorld "example.com") "example.com" "ceph_osd_up")
             freshState) = (Url.String_ u, None)
    /\ Url.Host u = "example.com"
    /\ Url.Get (Url.Query u) "query" = "ceph_osd_up".
Proof.
  destruct (range_query_url (tickingWorld "example.com") "example.com" "ceph_osd_up"
                            freshState)
    as (u & Hrun & _ & _ & Hhost & _ & _ & _ & Hq & _); [reflexivity|].
  exists u. split; [exact Hrun|]. split; [exact Hhost | exact Hq].
Defined.

(** ** The tree *)

Lemma createTrunc_other umask name data perm t p :
  p <> name -> fst (Os.createTrunc umask name data perm t) !! p = t !! p.
Proof.
  intros Hne. unfold Os.createTrunc.
  destruct (t !! name) as [[perm'|perm' old]|] eqn:E; cbn [fst]; [done| |].
  - by rewrite lookup_insert_ne.
  - destruct (String.eqb name "."); [done|].
    destruct (negb (Os.isDir t (Os.parentOf name))); [done|].
    cbn [fst]. by rewrite lookup_insert_ne.
Qed.

Lemma osOpenFile_keeps w name perm s :
  (forall p, p <> name -> st_fs (snd (osOpenFile w name perm s)) !! p = st_fs s !! p)
  /\ st_sent (snd (osOpenFile w name perm s)) = st_sent s
  /\ st_clock (snd (osOpenFile w name perm s)) = st_clock s.
Proof.
  unfold osOpenFile, onTree. destruct (w_oserr w "open" name); [by auto|].
  pose proof (createTrunc_other (w_umask w) name "" perm (st_fs s)) as H.
  destruct (Os.createTrunc (w_umask w) name "" perm (st_fs s)) as [t e] eqn:E.
  cbn [fst snd st_fs st_sent st_clock] in *. done.
Qed.

Lemma started_keeps w s :
  (forall p, p <> logPath -> st_fs (started w s) !! p = st_fs s !! p)
  /\ st_sent (started w s) = st_sent s.
Proof.
  destruct (osOpenFile_keeps w logPath (octal 6 0 0) s) as (Hfs & Hsent & _).
  unfold started, exec, mbind, M_bind. cbn. split; [exact Hfs | exact Hsent].
Qed.

Lemma getMetricList_fs w c s : st_fs (snd (getMetricList w c s)) = st_fs s.
Proof.
  destruct (getMetricList_cases w c s) as [[Hs [e He]]|(req & s1 & Hs1 & Hf & Hrun)].
  - revert Hs He. unfold getMetricList.
    destruct (Url.Parse ("https://" +:+ host c)); [|done].
    destruct (Url.Parse "api/v1/label/__name__/values"); [|done].
    unfold mbind, M_bind. rewrite window_run. unfold Get.
    match goal with |- context [buildRequest w c ?u] =>
      destruct (buildRequest w c u) end; [|done].
    cbn. match goal with |- context [decodeMetricList ?r ?s0] =>
      destruct (decodeMetricList_keeps r s0) as (Hk & _); rewrite Hk end. done.
  - rewrite Hrun.
    destruct (decodeMetricList_keeps (w_do w (List.length (st_sent s)) req) s1)
      as (-> & _). done.
Qed.

(** [main] ends before [gather], having sent nothing and changed at most
    the entry of the log file, or it is [gather] from the state
    [started]. *)
Lemma main_cases w s :
  (st_sent (snd (main w s)) = st_sent s
   /\ forall p, p <> logPath -> st_fs (snd (main w s)) !! p = st_fs s !! p)
  \/ (exists c, main w s = gather w c (w_now w (st_clock s)) (started w s)).
Proof.
  destruct (osOpenFile_keeps w logPath (octal 6 0 0) s) as (Hfs & Hsent & Hclock).
  unfold logPath in *.
  unfold main, mbind, M_bind.
  destruct (osOpenFile w "promgather.log" (octal 6 0 0) s) as [[e|] s1] eqn:E;
    cbn [snd] in Hfs, Hsent, Hclock.
  - left. cbn. split; [exact Hsent | exact Hfs].
  - destruct (getCmdResult w "oc" ["whoami"; "-t"]) as [token [e|]].
    + left. cbn. split; [exact Hsent | exact Hfs].
    + destruct (getCmdResult w "oc" _) as [h [e|]].
      * left. cbn. split; [exact Hsent | exact Hfs].
      * right. eexists. unfold started, exec, mbind, M_bind. rewrite E. cbn.
        by rewrite Hclock.
Qed.

(** ** C7: the empty catalog *)

(** C7.  When the catalog request is answered with status 200 and a
    body that decodes to the empty list, the run ends with the tree as
    it found it, the entry of its own log file apart: the output
    directory is neither removed nor created, and the last line logged
    says that no metrics were found. *)
Theorem empty_catalog_leaves_tree w s resp :
  (forall req, w_do w (List.length (st_sent s)) req = Ok resp) ->
  Http.StatusCode resp = 200 ->
  Json.Decode (Http.RespBody resp) = ([], None) ->
  (forall p, p <> logPath -> st_fs (exec (main w) s) !! p = st_fs s !! p)
  /\ (st_sent (exec (main w) s) = st_sent s
      \/ exists req,
           st_sent (exec (main w) s) = st_sent s ++ [req]
           /\ List.last (st_console (exec (main w) s)) notFound = notFound
           /\ exists before, st_console (exec (main w) s) = before ++ [notFound]).
Proof.
  intros Hdo Hstatus Hdecode. unfold exec.
  destruct (main_cases w s) as [[Hsent Hfs]|[c Hmain]]; [by auto|].
  rewrite Hmain. destruct (started_keeps w s) as [Hfs Hsent].
  unfold gather, mbind, M_bind.
  pose proof (getMetricList_fs w c (started w s)) as Hkeep.
  destruct (getMetricList_cases w c (started w s))
    as [[Hs [e He]]|(req & s1 & Hs1 & Hf & Hrun)].
  - destruct (getMetricList w c (started w s)) as [[metrics err] s1].
    cbn [fst snd] in *. injection He as -> ->. cbn.
    split; [|left; congruence]. intros p Hp. rewrite Hkeep. by apply Hfs.
  - assert (getMetricList w c (started w s) = (([], None), s1)) as Hdec.
    { rewrite Hrun, Hsent, Hdo. unfold decodeMetricList.
      rewrite Hstatus, Hdecode. reflexivity. }
    rewrite Hdec. cbn.
    split; [intros p Hp; rewrite Hf; by apply Hfs|].
    right. exists req. split; [by rewrite Hs1, Hsent|].
    split; [by rewrite List.last_last | by eexists].
Qed.

Lemma empty_catalog_leaves_tree_witness :
  st_fs (exec (main (sampleWorld "abc123" "example.com" 200 "200 OK" emptyCatalog 0 1))
              (mkState {[ "./prom-metrics" := Os.Dir (octal 7 5 5);
                          "./prom-metrics/old.json" := Os.File (octal 6 4 4) "old" ]}
                       [] [] false 0 [])) !! "./prom-metrics/old.json"
  = Some (Os.File (octal 6 4 4) "old").
Proof.
  rewrite (proj1 (empty_catalog_leaves_tree
           (sampleWorld "abc123" "example.com" 200 "200 OK" emptyCatalog 0 1)
           (mkState {[ "./prom-metrics" := Os.Dir (octal 7 5 5);
                       "./prom-metrics/old.json" := Os.File (octal 6 4 4) "old" ]}
                    [] [] false 0 [])
           (Http.mkResponse 200 "200 OK" (Http.mkBody emptyCatalog None))
           (fun _ => eq_refl) eq_refl eq_refl)).
  - reflexivity.
  - discriminate.
Defined.

(** ** C5: the output directory *)

Lemma RemoveAll_lookup path t p :
  isEmpty path = false -> Os.endsWithDot path = false ->
  snd (Os.RemoveAll path t) = None
  /\ fst (Os.RemoveAll path t) !! p = (if Os.within path p then None else t !! p).
Proof.
  intros Hne Hdot. unfold Os.RemoveAll. rewrite Hne, Hdot. cbn [fst snd].
  split; [done|]. destruct (Os.within path p) eqn:E.
  - apply map_lookup_filter_None. right. intros x _. cbn. congruence.
  - destruct (t !! p) as [x|] eqn:Ep.
    + apply map_lookup_filter_Some. by split.
    + apply map_lookup_filter_None. by left.
Qed.

Lemma land_ldiff_disjoint a b u : Z.land a b = 0 -> Z.land (Z.ldiff a u) b = 0.
Proof.
  intros H. apply Z.bits_inj'. intros n Hn.
  rewrite Z.land_spec, Z.ldiff_spec, Z.bits_0.
  apply (f_equal (fun z => Z.testbit z n)) in H.
  rewrite Z.land_spec, Z.bits_0 in H.
  destruct (Z.testbit a n), (Z.testbit b n); try done. by rewrite andb_false_r.
Qed.

(** C5 (counterexample).  After a run with the usual umask 022 the
    output directory has mode 0750: its group may read and enter it. *)
Lemma folder_mode_0750 :
  st_fs (exec (main (sampleWorld "abc123" "example.com" 200 "200 OK"
                                 (oneCatalog "ceph_health_status") 0 1))
              freshState) !! metricsFolder
  = Some (Os.Dir (octal 7 5 0))
  /\ Z.land (octal 7 5 0) (octal 0 7 0) <> 0.
Proof. split; [vm_compute; reflexivity | discriminate]. Qed.

(** C5 (amended).  On a run that gets a non-empty catalog, and whose
    remove and mkdir the system does not refuse, the fan-out starts from
    a tree in which [./prom-metrics] and everything below it was removed
    and the directory made anew with mode [0750 &^ umask] (owner all,
    group read and search, nothing for others); the rest of the tree is
    as the catalog fetch left it. *)
Theorem folder_reset w s tokenOut hostOut metrics :
  let c := mkHttpClient {["Authorization" := "Bearer " +:+ Trim tokenOut nl]}
                        (Trim hostOut nl) in
  let mode := Z.ldiff (octal 7 5 0) (w_umask w) in
  fst (osOpenFile w "promgather.log" (octal 6 0 0) s) = None ->
  w_exec w "oc" tokenArgs = Exited tokenOut 0 ->
  w_exec w "oc" hostArgs = Exited hostOut 0 ->
  fst (getMetricList w c (started w s)) = (metrics, None) ->
  metrics <> [] ->
  w_oserr w "RemoveAll" metricsFolder = None ->
  w_oserr w "mkdir" metricsFolder = None ->
  exists s2,
    main w s = fetchMetrics w c metrics (w_now w (st_clock s)) s2
    /\ st_fs s2 !! metricsFolder = Some (Os.Dir mode)
    /\ (forall p, HasPrefix p (metricsFolder +:+ "/") = true -> st_fs s2 !! p = None)
    /\ (forall p, Os.within metricsFolder p = false ->
                  st_fs s2 !! p = st_fs (started w s) !! p)
    /\ Z.land mode (octal 0 0 7) = 0.
Proof.
  intros c mode Hopen Htoken Hhost Hlist Hne Hrm Hmk.
  rewrite (main_to_gather w s tokenOut hostOut) by done. fold c.
  unfold gather, mbind, M_bind.
  pose proof (getMetricList_fs w c (started w s)) as Hkeep.
  destruct (getMetricList w c (started w s)) as [[metrics' err] s1].
  cbn [fst snd] in Hlist, Hkeep. injection Hlist as -> ->.
  destruct metrics as [|m ms]; [done|]. cbn [List.length Nat.eqb].
  unfold osRemoveAll, osMkdir, onTree. rewrite Hrm.
  assert (forall p, fst (Os.RemoveAll metricsFolder (st_fs s1)) !! p
                    = if Os.within metricsFolder p then None else st_fs s1 !! p) as Hlook.
  { intros p. by apply RemoveAll_lookup. }
  assert (snd (Os.RemoveAll metricsFolder (st_fs s1)) = None) as Hnone
    by (by apply (RemoveAll_lookup metricsFolder (st_fs s1) "")).
  destruct (Os.RemoveAll metricsFolder (st_fs s1)) as [t1 e1].
  cbn [fst snd] in Hlook, Hnone. subst e1. cbn [st_fs]. rewrite Hmk.
  unfold Os.Mkdir. rewrite (Hlook metricsFolder).
  assert (Os.within metricsFolder metricsFolder = true) as -> by reflexivity.
  assert (String.eqb metricsFolder "." = false) as -> by reflexivity.
  assert (Os.isDir t1 (Os.parentOf metricsFolder) = true) as -> by reflexivity.
  cbn [negb st_fs].
  eexists. split; [reflexivity|]. cbn [st_fs]. fold mode.
  split; [by rewrite lookup_insert_eq|]. split; [|split].
  - intros p Hp. rewrite lookup_insert_ne.
    + rewrite Hlook. unfold Os.within. by rewrite Hp, orb_true_r.
    + intros <-. vm_compute in Hp. discriminate.
  - intros p Hp. rewrite lookup_insert_ne.
    + by rewrite Hlook, Hp, Hkeep.
    + intros <-. vm_compute in Hp. discriminate.
  - by apply land_ldiff_disjoint.
Qed.

Lemma folder_reset_witness :
  exists s2,
    st_fs s2 !! metricsFolder = Some (Os.Dir (octal 7 5 0))
    /\ st_fs s2 !! "./prom-metrics/old.json" = None.
Proof.
  destruct (folder_reset
              (sampleWorld "abc123" "example.com" 200 "200 OK"
                           (oneCatalog "ceph_health_status") 0 1)
              (mkState {[ "./prom-metrics" := Os.Dir (octal 7 5 5);
                          "./prom-metrics/old.json" := Os.File (octal 6 4 4) "old" ]}
                       [] [] false 0 [])
              "abc123" "example.com" ["ceph_health_status"])
    as (s2 & _ & Hdir & Hbelow & _).
  - reflexivity.
  - reflexivity.
  - reflexivity.
  - vm_compute. reflexivity.
  - discriminate.
  - reflexivity.
  - reflexivity.
  - exists s2. split; [exact Hdir|]. apply Hbelow. reflexivity.
Defined.

(** ** C6 and C9: the file of a metric *)

(** C9.  [getMetric] changes the tree only when it built the URL and the
    request, the round trip succeeded, the status was 200 and the body
    was read to its end without an error; the change is then that of
    one [os.WriteFile] of the body to the file of the metric.  On every
    other path the tree stays as it was. *)
Theorem getMetric_writes_only_after_200 w c metric folder s :
  st_fs (exec (getMetric w c metric folder) s) <> st_fs s ->
  exists url req resp,
    fst (run (getRangeQueryUrl w (host c) metric) s) = (url, None)
    /\ buildRequest w c url = Ok req
    /\ st_sent (exec (getMetric w c metric folder) s) = st_sent s ++ [req]
    /\ w_do w (List.length (st_sent s)) req = Ok resp
    /\ Http.StatusCode resp = 200
    /\ Http.bodyErr (Http.RespBody resp) = None
    /\ st_fs (exec (getMetric w c metric folder) s)
       = fst (Os.WriteFile (w_umask w) (metricPath folder metric)
                           (Http.bodyBytes (Http.RespBody resp)) (octal 6 0 0) (st_fs s)).
Proof.
  unfold exec, run, getMetric, mbind, M_bind.
  destruct (getRangeQueryUrl_keeps w (host c) metric s) as [Hs Hf].
  destruct (getRangeQueryUrl w (host c) metric s) as [[url [e|]] s0];
    cbn [fst snd] in *.
  - intros H. exfalso. apply H. cbn. exact Hf.
  - unfold Get. destruct (buildRequest w c url) as [req|e] eqn:Eb.
    + change (clientDo w req s0) with (w_do w (List.length (st_sent s0)) req, sent s0 req).
      cbv iota beta. rewrite Hs.
      destruct (storeMetric_tree w (w_do w (List.length (st_sent s)) req) metric folder
                                 (sent s0 req)) as [Hsame|(resp & Hr & H200 & Hbody & _ & Ht)].
      * intros H. exfalso. apply H. rewrite Hsame. exact Hf.
      * intros _. exists url, req, resp. unfold sent in *.
        rewrite storeMetric_sent. cbn [st_sent st_fs] in *.
        rewrite Ht, Hs, Hf. done.
    + intros H. exfalso. apply H. cbn. exact Hf.
Qed.

Lemma getMetric_writes_only_after_200_witness :
  exists url req resp,
    fst (run (getRangeQueryUrl
                (sampleWorld "abc123" "example.com" 200 "200 OK" "{}" 0 1)
                "example.com" "ceph_osd_up") freshState) = (url, None)
    /\ Http.StatusCode resp = 200
    /\ st_sent (exec (getMetric (sampleWorld "abc123" "example.com" 200 "200 OK" "{}" 0 1)
                                sampleClient "ceph_osd_up" ".") freshState) = [req].
Proof.
  destruct (getMetric_writes_only_after_200
              (sampleWorld "abc123" "example.com" 200 "200 OK" "{}" 0 1)
              sampleClient "ceph_osd_up" "." freshState)
    as (url & req & resp & Hurl & _ & Hsent & _ & H200 & _).
  - vm_compute. discriminate.
  - exists url, req, resp. split; [exact Hurl|]. split; [exact H200 | exact Hsent].
Defined.

(** C6.  When the range request of a metric was answered with status
    200 and a body read to its end, and the write is not refused, the
    file of the metric holds the bytes of that body and nothing else in
    the tree has changed; a file made by this write has mode
    [0600 &^ umask], so neither group nor others have any access and
    nobody may execute it. *)
Theorem metric_file_is_body w c metric folder s req resp t :
  st_sent (exec (getMetric w c metric folder) s) = st_sent s ++ [req] ->
  w_do w (List.length (st_sent s)) req = Ok resp ->
  Http.StatusCode resp = 200 ->
  Http.bodyErr (Http.RespBody resp) = None ->
  w_oserr w "open" (metricPath folder metric) = None ->
  Os.WriteFile (w_umask w) (metricPath folder metric)
               (Http.bodyBytes (Http.RespBody resp)) (octal 6 0 0) (st_fs s) = (t, None) ->
  st_fs (exec (getMetric w c metric folder) s) = t
  /\ (exists perm,
        t !! metricPath folder metric
        = Some (Os.File perm (Http.bodyBytes (Http.RespBody resp)))
        /\ (st_fs s !! metricPath folder metric = None ->
            perm = Z.ldiff (octal 6 0 0) (w_umask w)
            /\ Z.land perm (octal 1 7 7) = 0))
  /\ (forall p, p <> metricPath folder metric -> t !! p = st_fs s !! p).
Proof.
  unfold exec. intros Hsent Hdo H200 Hbody Hos Hwrite.
  destruct (getMetric_cases w c metric folder s)
    as [[Hs _]|(req' & s1 & Hs1 & Hf & Hrun)].
  { rewrite Hs in Hsent. by apply app_one_neq in Hsent. }
  rewrite Hrun in Hsent |- *. rewrite storeMetric_sent, Hs1 in Hsent.
  apply app_inv_head in Hsent as [= ->]. rewrite Hdo.
  split; [|split].
  - unfold storeMetric. rewrite H200. cbn [Z.eqb negb Pos.eqb].
    unfold Http.ReadAll. rewrite Hbody. cbn [fmap option_fmap option_map].
    unfold mbind, M_bind, osWriteFile, onTree. fold (metricPath folder metric).
    rewrite Hos, Hf, Hwrite. done.
  - revert Hwrite. unfold Os.WriteFile, Os.createTrunc.
    destruct (st_fs s !! metricPath folder metric) as [[perm'|perm' old]|] eqn:E.
    + done.
    + intros [= <-]. exists perm'. by rewrite lookup_insert_eq.
    + destruct (String.eqb (metricPath folder metric) "."); [done|].
      destruct (negb (Os.isDir (st_fs s) (Os.parentOf (metricPath folder metric))));
        [done|].
      intros [= <-]. exists (Z.ldiff (octal 6 0 0) (w_umask w)).
      rewrite lookup_insert_eq. split; [reflexivity|].
      intros _. split; [reflexivity|]. by apply land_ldiff_disjoint.
  - intros p Hp.
    pose proof (createTrunc_other (w_umask w) (metricPath folder metric)
                  (Http.bodyBytes (Http.RespBody resp)) (octal 6 0 0) (st_fs s) p Hp) as H.
    unfold Os.WriteFile in Hwrite. by rewrite Hwrite in H.
Qed.

Lemma metric_file_is_body_witness :
  st_fs (exec (getMetric (sampleWorld "abc123" "example.com" 200 "200 OK" "{}" 0 1)
                         sampleClient "ceph_osd_up" ".") freshState)
  = {[ "./ceph_osd_up.json" := Os.File (octal 6 0 0) "{}" ]}.
Proof.
  eapply (metric_file_is_body
            (sampleWorld "abc123" "example.com" 200 "200 OK" "{}" 0 1)
            sampleClient "ceph_osd_up" "." freshState _
            (Http.mkResponse 200 "200 OK" (Http.mkBody "{}" None))).
  - vm_compute. reflexivity.
  - reflexivity.
  - reflexivity.
  - reflexivity.
  - reflexivity.
  - vm_compute. reflexivity.
Defined.

(** ** C8: the headers of a request *)

(** C8 (counterexample).  A mapping with the keys [X-A] and [x-a] has
    two entries; the request carries one header, [X-A], with one of the
    two values, whichever the loop visits last.  In either order one
    configured value is missing. *)
Lemma two_spellings_one_header :
  (exists req,
     buildRequest (sampleWorld "abc123" "example.com" 200 "200 OK" "{}" 0 1)
                  twoSpellings "https://example.com/" = Ok req
     /\ map_to_list (Http.ReqHeader req) = [("X-A", ["1"])]
     /\ Http.Get (Http.ReqHeader req) "x-a" <> "2")
  /\ (exists req,
        buildRequest backwardsWorld twoSpellings "https://example.com/" = Ok req
        /\ map_to_list (Http.ReqHeader req) = [("X-A", ["2"])]
        /\ Http.Get (Http.ReqHeader req) "X-A" <> "1").
Proof.
  split; eexists; (split; [vm_compute; reflexivity|]); vm_compute;
    (split; [reflexivity | discriminate]).
Qed.

Lemma fold_setHeader_lookup l r :
  NoDup (canon <$> l.*1) ->
  (forall k v, (k, v) ∈ l ->
     Http.ReqHeader (fold_left setHeader l r) !! canon k = Some [v])
  /\ (forall k', (forall k v, (k, v) ∈ l -> canon k <> k') ->
        Http.ReqHeader (fold_left setHeader l r) !! k' = Http.ReqHeader r !! k').
Proof.
  revert r. induction l as [|[k0 v0] l IH]; intros r Hnd.
  - split; [intros k v H; by apply elem_of_nil in H | done].
  - cbn [fmap list_fmap fst] in Hnd. apply NoDup_cons in Hnd as [Hnotin Hnd].
    destruct (IH (setHeader r (k0, v0)) Hnd) as [IHa IHb].
    cbn [fold_left]. split.
    + intros k v [[= -> ->]|Hin]%elem_of_cons; [|by apply IHa].
      rewrite IHb.
      * unfold setHeader, Http.Set_. cbn. by rewrite lookup_insert_eq.
      * intros k v Hin Heq. apply Hnotin. rewrite <- Heq.
        apply list_elem_of_fmap. exists k. split; [done|].
        apply list_elem_of_fmap. by exists (k, v).
    + intros k' Hk'. rewrite IHb.
      * unfold setHeader, Http.Set_. cbn. rewrite lookup_insert_ne; [done|].
        apply (Hk' k0 v0). by left.
      * intros k v Hin. apply (Hk' k v). by right.
Qed.

(** C8 (amended).  For a header mapping whose keys stay distinct when
    written in canonical form (first letter and letters after a dash in
    upper case, the rest in lower case), whatever the order in which the
    loop visits it, the request carries for each configured key the
    header of its canonical name with exactly the configured value, and
    no other header.  When the keys are canonical already, as
    [Authorization] is, the headers of the request are the configured
    mapping. *)
Theorem request_headers w c url req :
  w_range w (headers c) ≡ₚ map_to_list (headers c) ->
  NoDup (canon <$> (map_to_list (headers c)).*1) ->
  buildRequest w c url = Ok req ->
  (forall k v, headers c !! k = Some v ->
     Http.ReqHeader req !! canon k = Some [v] /\ Http.Get (Http.ReqHeader req) k = v)
  /\ (forall k' vs, Http.ReqHeader req !! k' = Some vs ->
        exists k v, headers c !! k = Some v /\ k' = canon k /\ vs = [v])
  /\ ((forall k v, headers c !! k = Some v -> canon k = k) ->
      Http.ReqHeader req = (fun v => [v]) <$> headers c).
Proof.
  intros Hperm Hnd. unfold buildRequest.
  destruct (Http.NewRequest "GET" url) as [req0|e] eqn:E; [|done]. intros [= <-].
  assert (Http.ReqHeader req0 = ∅) as Hempty.
  { revert E. unfold Http.NewRequest. cbn. destruct (Url.Parse url); [|done].
    by intros [= <-]. }
  rewrite <- Hperm in Hnd.
  destruct (fold_setHeader_lookup (w_range w (headers c)) req0 Hnd) as [Ha Hb].
  assert (forall k v, headers c !! k = Some v <-> (k, v) ∈ w_range w (headers c)) as Hin.
  { intros k v. rewrite Hperm. symmetry. apply elem_of_map_to_list. }
  assert (forall k v, headers c !! k = Some v ->
            Http.ReqHeader (fold_left setHeader (w_range w (headers c)) req0) !! canon k
            = Some [v]) as H1.
  { intros k v Hk. apply Ha. by apply Hin. }
  assert (forall k' vs,
            Http.ReqHeader (fold_left setHeader (w_range w (headers c)) req0) !! k' = Some vs ->
            exists k v, headers c !! k = Some v /\ k' = canon k /\ vs = [v]) as H2.
  { intros k' vs Hk'.
    destruct (decide (Exists (fun kv => canon kv.1 = k') (w_range w (headers c))))
      as [[[k v] [Hkv Hc]]%Exists_exists|Hno].
    - exists k, v. cbn [fst] in Hc. subst k'. split; [by apply Hin|]. split; [done|].
      rewrite (Ha k v Hkv) in Hk'. by injection Hk'.
    - rewrite Hb, Hempty in Hk'; [done|].
      intros k v Hkv Hc. apply Hno, Exists_exists. by exists (k, v). }
  split; [|split].
  - intros k v Hk. split; [by apply H1|]. unfold Http.Get. by rewrite (H1 k v Hk).
  - exact H2.
  - intros Hcanon. apply map_eq. intros k. rewrite lookup_fmap.
    destruct (headers c !! k) as [v|] eqn:Ek.
    + cbn. rewrite <- (Hcanon k v Ek). by apply H1.
    + cbn. destruct (Http.ReqHeader _ !! k) as [vs|] eqn:Er; [|done].
      destruct (H2 k vs Er) as (k0 & v0 & Hk0 & Hc & _).
      rewrite (Hcanon k0 v0 Hk0) in Hc. subst k0. congruence.
Qed.

Lemma request_headers_witness :
  exists req,
    buildRequest (sampleWorld "abc123" "example.com" 200 "200 OK" "{}" 0 1) sampleClient
                 "https://example.com/api/v1/query_range" = Ok req
    /\ Http.ReqHeader req = {["Authorization" := ["Bearer abc123"]]}.
Proof.
  destruct (buildRequest (sampleWorld "abc123" "example.com" 200 "200 OK" "{}" 0 1)
                         sampleClient "https://example.com/api/v1/query_range")
    as [req|e] eqn:Hreq; [|vm_compute in Hreq; discriminate].
  exists req. split; [reflexivity|].
  destruct (request_headers
              (sampleWorld "abc123" "example.com" 200 "200 OK" "{}" 0 1) sampleClient
              "https://example.com/api/v1/query_range" req) as (_ & _ & H).
  - reflexivity.
  - vm_compute. apply NoDup_singleton.
  - exact Hreq.
  - rewrite H; [reflexivity|].
    intros k v Hk. unfold sampleClient in Hk. cbn [headers] in Hk.
    apply lookup_singleton_Some in Hk as [<- _]. reflexivity.
Defined.

(** * Further properties of the program *)

(** ** What every step keeps

    [grows w c s s']: from [s] to [s'] the logger's output is not
    redirected, the same lines went to the terminal and (once the logger
    writes to both) to the log file, the clock did not go back, and the
    requests sent in between were all built by [Get] of the client [c]. *)
Definition grows (w : World) (c : HttpClient) (s s' : State) : Prop :=
  st_logset s' = st_logset s
  /\ (exists lines,
        st_console s' = st_console s ++ lines
        /\ st_logfile s' = st_logfile s ++ (if st_logset s then lines else []))
  /\ (exists more,
        st_sent s' = st_sent s ++ more
        /\ Forall (fun req => exists url, buildRequest w c url = Ok req) more)
  /\ (st_clock s <= st_clock s')%nat.

Lemma grows_refl w c s : grows w c s s.
Proof.
  unfold grows. split; [done|]. split; [|split; [|lia]].
  - exists []. destruct (st_logset s); by rewrite !app_nil_r.
  - exists []. by rewrite app_nil_r.
Qed.

Lemma grows_trans w c s1 s2 s3 : grows w c s1 s2 -> grows w c s2 s3 -> grows w c s1 s3.
Proof.
  intros (Hl1 & (L1 & Hc1 & Hf1) & (m1 & Hm1 & HF1) & Hk1)
         (Hl2 & (L2 & Hc2 & Hf2) & (m2 & Hm2 & HF2) & Hk2).
  unfold grows. split; [congruence|]. split; [|split; [|lia]].
  - exists (L1 ++ L2). rewrite Hc2, Hc1, Hf2, Hf1, Hl1.
    split; [by rewrite app_assoc|]. destruct (st_logset s1); by rewrite <- ?app_assoc, ?app_nil_r.
  - exists (m1 ++ m2). rewrite Hm2, Hm1. split; [by rewrite app_assoc|].
    by apply Forall_app.
Qed.

Lemma grows_logLine w c l s : grows w c s (snd (logLine l s)).
Proof.
  unfold grows, logLine. cbn. split; [done|]. split; [|split; [|lia]].
  - exists [l]. destruct (st_logset s); by rewrite ?app_nil_r.
  - exists []. by rewrite app_nil_r.
Qed.

Lemma grows_tick w c s n : grows w c s (tick s n).
Proof.
  unfold grows, tick. cbn. split; [done|]. split; [|split; [|lia]].
  - exists []. destruct (st_logset s); by rewrite !app_nil_r.
  - exists []. by rewrite app_nil_r.
Qed.

Lemma grows_sent w c s url req :
  buildRequest w c url = Ok req -> grows w c s (sent s req).
Proof.
  intros Hreq. unfold grows, sent. cbn. split; [done|]. split; [|split; [|lia]].
  - exists []. destruct (st_logset s); by rewrite !app_nil_r.
  - exists [req]. split; [done|]. apply Forall_singleton. eauto.
Qed.

Lemma grows_onTree w c op path f s : grows w c s (snd (onTree w op path f s)).
Proof.
  unfold onTree. destruct (w_oserr w op path); [apply grows_refl|].
  destruct (f (st_fs s)) as [t e]. unfold grows. cbn.
  split; [done|]. split; [|split; [|lia]].
  - exists []. destruct (st_logset s); by rewrite !app_nil_r.
  - exists []. by rewrite app_nil_r.
Qed.

Lemma grows_osRemoveAll w c path s : grows w c s (snd (osRemoveAll w path s)).
Proof.
  unfold osRemoveAll. destruct (w_oserr w "RemoveAll" path).
  - cbn [snd]. unfold grows. cbn. split; [done|]. split; [|split; [|lia]].
    + exists []. destruct (st_logset s); by rewrite !app_nil_r.
    + exists []. by rewrite app_nil_r.
  - destruct (Os.RemoveAll path (st_fs s)) as [t e]. cbn [snd].
    unfold grows. cbn. split; [done|]. split; [|split; [|lia]].
    + exists []. destruct (st_logset s); by rewrite !app_nil_r.
    + exists []. by rewrite app_nil_r.
Qed.

Lemma grows_decodeMetricList w c r s : grows w c s (snd (decodeMetricList r s)).
Proof.
  unfold decodeMetricList. destruct r as [resp|e]; [|apply grows_logLine].
  destruct (negb (Http.StatusCode resp =? 200)); [apply grows_logLine|].
  destruct (Json.Decode (Http.RespBody resp)) as [data [e|]];
    [apply grows_logLine | apply grows_refl].
Qed.

Lemma grows_storeMetric w c r metric folder s :
  grows w c s (snd (storeMetric w r metric folder s)).
Proof.
  unfold storeMetric. destruct r as [resp|e]; [|apply grows_logLine].
  destruct (negb (Http.StatusCode resp =? 200)); [apply grows_logLine|].
  destruct (Http.ReadAll (Http.RespBody resp)) as [data [e|]]; [apply grows_logLine|].
  unfold mbind, M_bind, osWriteFile.
  pose proof (grows_onTree w c "open" (folder +:+ "/" +:+ metric +:+ ".json")
                (Os.WriteFile (w_umask w) (folder +:+ "/" +:+ metric +:+ ".json") data
                              (octal 6 0 0)) s) as H.
  destruct (onTree w "open" _ _ s) as [[e|] s1]; cbn [snd] in H; [|exact H].
  eapply grows_trans; [exact H | apply grows_logLine].
Qed.

Lemma grows_Get w c url s : grows w c s (snd (Get w c url s)).
Proof.
  unfold Get. destruct (buildRequest w c url) as [req|e] eqn:E; [|apply grows_refl].
  by apply (grows_sent w c s url).
Qed.

Lemma grows_getMetricList w c s : grows w c s (snd (getMetricList w c s)).
Proof.
  unfold getMetricList.
  destruct (Url.Parse ("https://" +:+ host c)); [|apply grows_logLine].
  destruct (Url.Parse "api/v1/label/__name__/values"); [|apply grows_logLine].
  unfold mbind, M_bind. rewrite window_run.
  match goal with |- context [Get w c ?u (tick s 2)] =>
    pose proof (grows_Get w c u (tick s 2)) as HG;
    destruct (Get w c u (tick s 2)) as [r s1] end.
  cbn [snd] in HG.
  eapply grows_trans; [apply grows_tick|].
  eapply grows_trans; [exact HG | apply grows_decodeMetricList].
Qed.

Lemma grows_getRangeQueryUrl w c h metric s :
  grows w c s (snd (getRangeQueryUrl w h metric s)).
Proof.
  unfold getRangeQueryUrl.
  destruct (Url.Parse ("https://" +:+ h)); [|apply grows_refl].
  destruct (Url.Parse "api/v1/query_range"); [|apply grows_refl].
  unfold mbind, M_bind. rewrite window_run. apply grows_tick.
Qed.

Lemma grows_getMetric w c metric folder s :
  grows w c s (snd (getMetric w c metric folder s)).
Proof.
  unfold getMetric, mbind, M_bind.
  pose proof (grows_getRangeQueryUrl w c (host c) metric s) as H0.
  destruct (getRangeQueryUrl w (host c) metric s) as [[url [e|]] s0]; cbn [snd] in H0.
  - eapply grows_trans; [exact H0 | apply grows_logLine].
  - pose proof (grows_Get w c url s0) as HG.
    destruct (Get w c url s0) as [r s1]. cbn [snd] in HG.
    eapply grows_trans; [exact H0|].
    eapply grows_trans; [exact HG | apply grows_storeMetric].
Qed.

Lemma grows_fanOut w c metrics folder s :
  grows w c s (snd (fanOut w c metrics folder s)).
Proof.
  revert s. induction metrics as [|m ms IH]; intros s; [apply grows_refl|].
  cbn [fanOut]. unfold mbind, M_bind.
  pose proof (grows_getMetric w c m folder s) as H.
  destruct (getMetric w c m folder s) as [[] s1]. cbn [snd] in H.
  eapply grows_trans; [exact H | apply IH].
Qed.

Lemma grows_fetchMetrics w c metrics start s :
  grows w c s (snd (fetchMetrics w c metrics start s)).
Proof.
  unfold fetchMetrics, mbind, M_bind.
  pose proof (grows_fanOut w c metrics metricsFolder s) as H.
  destruct (fanOut w c metrics metricsFolder s) as [[] s1]. cbn [snd] in H.
  eapply grows_trans; [exact H|].
  eapply grows_trans; [apply (grows_tick w c s1 1) | apply grows_logLine].
Qed.

Lemma grows_gather w c start s : grows w c s (snd (gather w c start s)).
Proof.
  unfold gather, mbind, M_bind.
  pose proof (grows_getMetricList w c s) as H.
  destruct (getMetricList w c s) as [[metrics [e|]] s1]; cbn [snd] in H.
  - eapply grows_trans; [exact H | apply grows_logLine].
  - destruct (Nat.eqb (List.length metrics) 0).
    + eapply grows_trans; [exact H | apply grows_logLine].
    + unfold osMkdir.
      pose proof (grows_osRemoveAll w c metricsFolder s1) as H1.
      destruct (osRemoveAll w metricsFolder s1) as [[e|] s2]; cbn [snd] in H1.
      * eapply grows_trans; [exact H|].
        eapply grows_trans; [exact H1 | apply grows_logLine].
      * pose proof (grows_onTree w c "mkdir" metricsFolder
                      (Os.Mkdir (w_umask w) metricsFolder (octal 7 5 0)) s2) as H2.
        destruct (onTree w "mkdir" _ _ s2) as [[e|] s3]; cbn [snd] in H2.
        -- eapply grows_trans; [exact H|]. eapply grows_trans; [exact H1|].
           eapply grows_trans; [exact H2 | apply grows_logLine].
        -- eapply grows_trans; [exact H|]. eapply grows_trans; [exact H1|].
           eapply grows_trans; [exact H2 | apply grows_fetchMetrics].
Qed.

(** ** Runs that stop early *)

Lemma createTrunc_error umask name data perm t e :
  snd (Os.createTrunc umask name data perm t) = Some e ->
  fst (Os.createTrunc umask name data perm t) = t.
Proof.
  unfold Os.createTrunc. destruct (t !! name) as [[?|? ?]|]; try done.
  destruct (String.eqb name "."); [done|].
  by destruct (negb (Os.isDir t (Os.parentOf name))).
Qed.

Lemma osOpenFile_error w name perm s e :
  fst (osOpenFile w name perm s) = Some e ->
  st_fs (snd (osOpenFile w name perm s)) = st_fs s
  /\ st_console (snd (osOpenFile w name perm s)) = st_console s
  /\ st_logfile (snd (osOpenFile w name perm s)) = st_logfile s
  /\ st_logset (snd (osOpenFile w name perm s)) = st_logset s
  /\ st_clock (snd (osOpenFile w name perm s)) = st_clock s
  /\ st_sent (snd (osOpenFile w name perm s)) = st_sent s.
Proof.
  unfold osOpenFile, onTree. destruct (w_oserr w "open" name); [done|].
  pose proof (createTrunc_error (w_umask w) name "" perm (st_fs s)) as H.
  destruct (Os.createTrunc (w_umask w) name "" perm (st_fs s)) as [t e'].
  cbn. intros ->. pose proof (H e eq_refl) as Ht. cbn in Ht. by subst t.
Qed.

(** X1.  If the log file cannot be opened, [main] reports that error on
    the terminal and does nothing else: the tree, the log file, the
    clock and the network are as they were. *)
Theorem log_file_not_opened w s e :
  st_logset s = false ->
  fst (osOpenFile w logPath (octal 6 0 0) s) = Some e ->
  st_console (exec (main w) s) = st_console s ++ [PrintlnErr e]
  /\ st_logfile (exec (main w) s) = st_logfile s
  /\ st_fs (exec (main w) s) = st_fs s
  /\ st_sent (exec (main w) s) = st_sent s
  /\ st_clock (exec (main w) s) = st_clock s.
Proof.
  intros Hset Hopen.
  destruct (osOpenFile_error w logPath (octal 6 0 0) s e Hopen)
    as (Hfs & Hc & Hlf & Hls & Hck & Hsn).
  unfold exec, main, mbind, M_bind. unfold logPath in *.
  destruct (osOpenFile w "promgather.log" (octal 6 0 0) s) as [[e'|] s1];
    cbn [fst snd] in *; [|done].
  injection Hopen as ->. cbn. rewrite Hls, Hset, Hc, Hlf, Hfs, Hsn, Hck. done.
Qed.

Lemma log_file_not_opened_witness :
  st_console (exec (main readOnlyWorld) freshState)
  = [PrintlnErr (PathError "open" "promgather.log" "read-only file system")]
  /\ st_sent (exec (main readOnlyWorld) freshState) = [].
Proof.
  destruct (log_file_not_opened readOnlyWorld freshState
              (PathError "open" "promgather.log" "read-only file system"))
    as (Hc & _ & _ & Hs & _); [reflexivity | reflexivity |].
  split; [exact Hc | exact Hs].
Defined.

Lemma started_fields w s :
  fst (osOpenFile w logPath (octal 6 0 0) s) = None ->
  st_console (started w s) = st_console s ++ [banner]
  /\ st_logfile (started w s) = st_logfile s ++ [banner]
  /\ st_logset (started w s) = true
  /\ st_clock (started w s) = S (st_clock s).
Proof.
  unfold started, exec, mbind, M_bind, osOpenFile, onTree, logPath.
  destruct (w_oserr w "open" "promgather.log"); [done|].
  destruct (Os.createTrunc _ _ _ _ _) as [t [e|]]; [done|]. intros _. cbn. done.
Qed.

(** X2.  If [oc] fails to print the token, or prints the token and then
    fails to print the host, the run ends there: after the banner the
    one line logged names the command that failed, no request is sent,
    and no entry of the tree but the log file is touched. *)
Theorem credentials_failure_stops_run w s :
  fst (osOpenFile w logPath (octal 6 0 0) s) = None ->
  snd (getCmdResult w "oc" tokenArgs) <> None
  \/ snd (getCmdResult w "oc" hostArgs) <> None ->
  st_sent (exec (main w) s) = st_sent s
  /\ (forall p, p <> logPath -> st_fs (exec (main w) s) !! p = st_fs s !! p)
  /\ exists e,
       (snd (getCmdResult w "oc" tokenArgs) = Some e
        /\ st_console (exec (main w) s) = st_console s ++ [banner; tokenError e])
       \/ (snd (getCmdResult w "oc" tokenArgs) = None
           /\ snd (getCmdResult w "oc" hostArgs) = Some e
           /\ st_console (exec (main w) s) = st_console s ++ [banner; hostError e]).
Proof.
  intros Hopen Hfail.
  destruct (osOpenFile_keeps w logPath (octal 6 0 0) s) as (Hfs & Hsent & _).
  unfold exec, main, mbind, M_bind. unfold logPath in *.
  assert (st_console (snd (osOpenFile w "promgather.log" (octal 6 0 0) s)) = st_console s)
    as Hcon.
  { unfold osOpenFile, onTree. destruct (w_oserr w "open" "promgather.log"); [done|].
    by destruct (Os.createTrunc _ _ _ _ _). }
  destruct (osOpenFile w "promgather.log" (octal 6 0 0) s) as [[e'|] s1];
    cbn [fst snd] in *; [done|].
  fold tokenArgs hostArgs.
  destruct (getCmdResult w "oc" tokenArgs) as [token [e|]]; cbn [snd] in *.
  - cbn. split; [done|]. split; [done|]. exists e. left.
    rewrite Hcon. unfold banner, tokenError. by rewrite <- app_assoc.
  - destruct (getCmdResult w "oc" hostArgs) as [h [e|]]; cbn [snd] in *.
    + cbn. split; [done|]. split; [done|]. exists e. right.
      rewrite Hcon. unfold banner, hostError. by rewrite <- app_assoc.
    + by destruct Hfail.
Qed.

Lemma credentials_failure_stops_run_witness :
  st_sent (exec (main noOcWorld) freshState) = []
  /\ st_fs (exec (main noOcWorld) freshState) !! metricsFolder = None.
Proof.
  destruct (credentials_failure_stops_run noOcWorld freshState) as (Hs & Hfs & _).
  - reflexivity.
  - left. discriminate.
  - split; [exact Hs|]. rewrite Hfs; [reflexivity | discriminate].
Defined.

(** ** The catalog *)

(** X3.  Once the catalog request is sent, a failed round trip makes
    [getMetricList] return that error with no list; an answer with
    status 200 makes it return what the JSON decoder finds in the body:
    the names of the [data] array in their order with a nil error, or
    the decoder's error with no list. *)
Theorem catalog_result w c s req :
  st_sent (exec (getMetricList w c) s) = st_sent s ++ [req] ->
  (forall e, w_do w (List.length (st_sent s)) req = Err e ->
             fst (run (getMetricList w c) s) = ([], Some e))
  /\ (forall resp,
        w_do w (List.length (st_sent s)) req = Ok resp ->
        Http.StatusCode resp = 200 ->
        fst (run (getMetricList w c) s)
        = match Json.Decode (Http.RespBody resp) with
          | (data, None) => (data, None)
          | (_, Some e) => ([], Some e)
          end).
Proof.
  unfold exec, run. intros Hsent.
  destruct (getMetricList_cases w c s) as [[Hs _]|(req' & s1 & Hs1 & _ & Hrun)].
  { rewrite Hs in Hsent. by apply app_one_neq in Hsent. }
  rewrite Hrun in Hsent |- *.
  destruct (decodeMetricList_keeps (w_do w (List.length (st_sent s)) req') s1)
    as (_ & Hk & _).
  rewrite Hk, Hs1 in Hsent. apply app_inv_head in Hsent as [= ->].
  split.
  - intros e ->. reflexivity.
  - intros resp -> H200. unfold decodeMetricList. rewrite H200. cbn [Z.eqb Pos.eqb negb].
    by destruct (Json.Decode (Http.RespBody resp)) as [data [e|]].
Qed.

Lemma catalog_result_witness :
  fst (run (getMetricList (sampleWorld "abc123" "example.com" 200 "200 OK" twoCatalog 0 1)
                          sampleClient) freshState)
  = (["ceph_health_status"; "odf_system_health_status"], None).
Proof.
  edestruct (catalog_result (sampleWorld "abc123" "example.com" 200 "200 OK" twoCatalog 0 1)
                            sampleClient freshState) as [_ H].
  - vm_compute. reflexivity.
  - rewrite (H (Http.mkResponse 200 "200 OK" (Http.mkBody twoCatalog None)));
      [vm_compute; reflexivity | reflexivity | reflexivity].
Defined.

(** X4.  Whenever [getMetricList] returns an error it returns no list,
    and the run ends there: the error is logged as the failure of the
    catalog fetch, nothing more is sent, and the tree is as it was
    before the fetch. *)
Theorem catalog_error_stops_run w c start s l e :
  fst (run (getMetricList w c) s) = (l, Some e) ->
  l = []
  /\ st_fs (exec (gather w c start) s) = st_fs s
  /\ st_sent (exec (gather w c start) s) = st_sent (exec (getMetricList w c) s)
  /\ st_console (exec (gather w c start) s)
     = st_console (exec (getMetricList w c) s) ++ [catalogError e].
Proof.
  unfold run, exec. intros Hres.
  pose proof (getMetricList_fs w c s) as Hfs.
  assert (l = []) as ->.
  { revert Hres. unfold getMetricList.
    destruct (Url.Parse ("https://" +:+ host c)); [|by intros [= <- _]].
    destruct (Url.Parse "api/v1/label/__name__/values"); [|by intros [= <- _]].
    unfold mbind, M_bind. rewrite window_run.
    match goal with |- context [Get w c ?u ?s0] => destruct (Get w c u s0) as [r s1] end.
    unfold decodeMetricList. destruct r as [resp|e0]; [|by intros [= <- _]].
    destruct (negb (Http.StatusCode resp =? 200)); [done|].
    destruct (Json.Decode (Http.RespBody resp)) as [data [e0|]]; [by intros [= <- _]|done]. }
  split; [done|]. unfold gather, mbind, M_bind.
  destruct (getMetricList w c s) as [[metrics err] s1]. cbn [fst snd] in *.
  injection Hres as -> ->. cbn. done.
Qed.

Lemma catalog_error_stops_run_witness :
  st_fs (exec (gather (sampleWorld "abc123" "example.com" 200 "200 OK" "not json" 0 1)
                      sampleClient epoch) freshState) = ∅.
Proof.
  edestruct (catalog_error_stops_run
               (sampleWorld "abc123" "example.com" 200 "200 OK" "not json" 0 1)
               sampleClient epoch freshState) as (_ & H & _).
  - vm_compute. reflexivity.
  - exact H.
Defined.

(** ** Preparing the output directory *)

(** With a catalog that is not empty [gather] goes on to remove the
    folder. *)
Lemma gather_with_catalog w c start s metrics s1 :
  getMetricList w c s = ((metrics, None), s1) -> metrics <> [] ->
  gather w c start s
  = (err ← osRemoveAll w metricsFolder;
     match err with
     | Some e =>
         logLine (PrintfErr ("Error removing the previous metrics folder: %v" +:+ nl) e)
     | None =>
         err ← osMkdir w metricsFolder (octal 7 5 0);
         match err with
         | Some e =>
             logLine (PrintfErr ("Error creating the metrics folder: %v" +:+ nl) e)
         | None => fetchMetrics w c metrics start
         end
     end) s1.
Proof.
  intros Hlist Hne. unfold gather. unfold mbind at 1. unfold M_bind at 1.
  rewrite Hlist. destruct metrics as [|m ms]; [done|]. reflexivity.
Qed.

Lemma osMkdir_after_remove w t s :
  w_oserr w "mkdir" metricsFolder = None ->
  st_fs s = fst (Os.RemoveAll metricsFolder t) ->
  osMkdir w metricsFolder (octal 7 5 0) s
  = (None, mkState (<[metricsFolder := Os.Dir (Z.ldiff (octal 7 5 0) (w_umask w))]> (st_fs s))
                   (st_console s) (st_logfile s) (st_logset s) (st_clock s) (st_sent s)).
Proof.
  intros Hmk Hfs. unfold osMkdir, onTree. rewrite Hmk. unfold Os.Mkdir.
  assert (st_fs s !! metricsFolder = None) as ->.
  { rewrite Hfs. by destruct (RemoveAll_lookup metricsFolder t metricsFolder) as [_ ->]. }
  reflexivity.
Qed.

Lemma removeSome_cases path left (t : Os.tree) p :
  Os.removeSome path left t !! p = t !! p \/ Os.removeSome path left t !! p = None.
Proof.
  unfold Os.removeSome. destruct (t !! p) as [x|] eqn:E.
  - match goal with |- context [filter ?P t] => destruct (decide (P (p, x))) as [Hk|Hk] end.
    + left. apply map_lookup_filter_Some. by split.
    + right. apply map_lookup_filter_None. right. intros y Hy.
      rewrite E in Hy. injection Hy as <-. exact Hk.
  - left. apply map_lookup_filter_None. by left.
Qed.

Lemma removeSome_keeps path left (t : Os.tree) p :
  Os.within path p = false \/ p = path \/ left p = true ->
  Os.removeSome path left t !! p = t !! p.
Proof.
  intros Hk. unfold Os.removeSome. destruct (t !! p) as [x|] eqn:E.
  - apply map_lookup_filter_Some. split; [done|]. cbn [fst].
    destruct Hk as [->|[->|Hl]].
    + reflexivity.
    + rewrite String.eqb_refl. by rewrite orb_true_r.
    + apply orb_true_iff. right. apply existsb_exists. exists p. split.
      * apply in_map_iff. exists (p, x). split; [done|].
        apply list_elem_of_In. by apply elem_of_map_to_list.
      * rewrite Hl. unfold Os.within. by rewrite String.eqb_refl.
  - apply map_lookup_filter_None. by left.
Qed.

(** X5.  With a catalog in hand, a failing removal of the old folder
    ends the run: the error [os.RemoveAll] returns is the last line
    logged and no range request is sent.  The removal may have been
    carried out in part: what is not below the folder is untouched, the
    folder itself and the entries that could not be removed are still
    there, and every other entry below it is as before or gone.  A
    refused mkdir ends the run with the old folder gone and no new
    one. *)
Theorem folder_failure_stops_run w c start s metrics s1 msg :
  getMetricList w c s = ((metrics, None), s1) -> metrics <> [] ->
  (w_oserr w "RemoveAll" metricsFolder = Some msg ->
     (forall p, Os.within metricsFolder p = false -> p <> logPath ->
                st_fs (exec (gather w c start) s) !! p = st_fs s !! p)
     /\ st_fs (exec (gather w c start) s) !! metricsFolder = st_fs s !! metricsFolder
     /\ (forall p, Os.within metricsFolder p = true ->
                   rm_left (w_removal w metricsFolder) p = true ->
                   st_fs (exec (gather w c start) s) !! p = st_fs s !! p)
     /\ (forall p, Os.within metricsFolder p = true ->
                   st_fs (exec (gather w c start) s) !! p = st_fs s !! p
                   \/ st_fs (exec (gather w c start) s) !! p = None)
     /\ st_sent (exec (gather w c start) s) = st_sent s1
     /\ st_console (exec (gather w c start) s)
        = st_console s1
          ++ [removeError (PathError (rm_op (w_removal w metricsFolder))
                                     (rm_path (w_removal w metricsFolder)) msg)])
  /\ (w_oserr w "RemoveAll" metricsFolder = None ->
      w_oserr w "mkdir" metricsFolder = Some msg ->
      (forall p, p <> logPath ->
                 st_fs (exec (gather w c start) s) !! p
                 = if Os.within metricsFolder p then None else st_fs s !! p)
      /\ st_sent (exec (gather w c start) s) = st_sent s1
      /\ st_console (exec (gather w c start) s)
         = st_console s1 ++ [mkdirError (PathError "mkdir" metricsFolder msg)]).
Proof.
  intros Hlist Hne. unfold exec.
  rewrite (gather_with_catalog w c start s metrics s1 Hlist Hne).
  pose proof (getMetricList_fs w c s) as Hfs. rewrite Hlist in Hfs. cbn [snd] in Hfs.
  unfold mbind, M_bind, osRemoveAll, osMkdir, onTree. split.
  - intros ->. cbn. rewrite Hfs. repeat split.
    + intros p Hp _. apply removeSome_keeps. by left.
    + apply removeSome_keeps. right. by left.
    + intros p _ Hp. apply removeSome_keeps. right. by right.
    + intros p _. apply removeSome_cases.
  - intros -> Hmk.
    destruct (RemoveAll_lookup metricsFolder (st_fs s1) "" eq_refl eq_refl) as [Hnone _].
    pose proof (fun p => proj2 (RemoveAll_lookup metricsFolder (st_fs s1) p eq_refl eq_refl))
      as Hlook.
    destruct (Os.RemoveAll metricsFolder (st_fs s1)) as [t e]. cbn [fst snd] in *.
    subst e. cbn [st_fs]. rewrite Hmk. cbn. split; [|done].
    intros p _. by rewrite Hlook, Hfs.
Qed.

Lemma folder_failure_stops_run_witness :
  (st_fs (exec (gather (refusing "RemoveAll") sampleClient epoch)
               (mkState oldTree [] [] true 0 [])) !! "./prom-metrics/old.json"
   = Some (Os.File (octal 6 4 4) "old")
   /\ st_sent (exec (gather (refusing "RemoveAll") sampleClient epoch)
                    (mkState oldTree [] [] true 0 []))
      = st_sent (exec (getMetricList (refusing "RemoveAll") sampleClient)
                      (mkState oldTree [] [] true 0 [])))
  /\ st_fs (exec (gather (refusing "mkdir") sampleClient epoch)
                 (mkState oldTree [] [] true 0 [])) !! "./prom-metrics/old.json" = None.
Proof.
  split.
  - edestruct (folder_failure_stops_run (refusing "RemoveAll") sampleClient epoch
                 (mkState oldTree [] [] true 0 [])) as [H _].
    + vm_compute. reflexivity.
    + discriminate.
    + destruct (H eq_refl) as (_ & _ & Hleft & _ & Hsent & _).
      split; [|exact Hsent]. rewrite Hleft; reflexivity.
  - edestruct (folder_failure_stops_run (refusing "mkdir") sampleClient epoch
                 (mkState oldTree [] [] true 0 [])) as [_ H].
    + vm_compute. reflexivity.
    + discriminate.
    + destruct (H eq_refl eq_refl) as [Hfs _]. rewrite Hfs; [reflexivity|discriminate].
Defined.

(** X6.  Once the folder is prepared the run always comes to its last
    line, whatever becomes of the single metrics: that line is logged
    after every line of the fan-out and reports the time between the
    clock reading taken at the start and one taken after the fan-out. *)
Theorem run_reaches_finished w c start s metrics s1 :
  getMetricList w c s = ((metrics, None), s1) -> metrics <> [] ->
  w_oserr w "RemoveAll" metricsFolder = None ->
  w_oserr w "mkdir" metricsFolder = None ->
  exists s2 s3,
    fanOut w c metrics metricsFolder s2 = (tt, s3)
    /\ st_console s2 = st_console s1
    /\ st_console (exec (gather w c start) s)
       = st_console s3 ++ [finished (Time.Sub (w_now w (st_clock s3)) start)]
    /\ exists lines, st_console s3 = st_console s1 ++ lines.
Proof.
  intros Hlist Hne Hrm Hmk. unfold exec.
  rewrite (gather_with_catalog w c start s metrics s1 Hlist Hne).
  unfold mbind at 1. unfold M_bind at 1. unfold osRemoveAll, onTree. rewrite Hrm.
  destruct (RemoveAll_lookup metricsFolder (st_fs s1) "" eq_refl eq_refl) as [Hnone _].
  destruct (Os.RemoveAll metricsFolder (st_fs s1)) as [t e] eqn:Erm. cbn [snd] in Hnone.
  subst e. unfold mbind at 1. unfold M_bind at 1.
  rewrite (osMkdir_after_remove w (st_fs s1)); [|done|by rewrite Erm].
  cbn [st_fs st_console st_logfile st_logset st_clock st_sent].
  set (s2 := mkState _ (st_console s1) _ _ _ _).
  unfold fetchMetrics, mbind, M_bind.
  pose proof (grows_fanOut w c metrics metricsFolder s2) as Hg.
  destruct (fanOut w c metrics metricsFolder s2) as [[] s3] eqn:Efan. cbn [snd] in Hg.
  exists s2, s3. split; [done|]. split; [done|]. split; [reflexivity|].
  destruct Hg as (_ & (lines & Hlines & _) & _). exists lines. exact Hlines.
Qed.

Lemma run_reaches_finished_witness :
  exists d,
    List.last (st_console (exec (gather catalogThen503 sampleClient epoch)
                                (mkState ∅ [] [] true 0 []))) banner
    = finished d.
Proof.
  edestruct (run_reaches_finished catalogThen503 sampleClient epoch
               (mkState ∅ [] [] true 0 []) ["ceph_health_status"])
    as (s2 & s3 & _ & _ & Hcon & _).
  - vm_compute. reflexivity.
  - discriminate.
  - reflexivity.
  - reflexivity.
  - eexists. rewrite Hcon. apply List.last_last.
Defined.

(** ** The fan-out *)

Lemma createTrunc_dirs umask name data perm t d mode :
  t !! d = Some (Os.Dir mode) ->
  fst (Os.createTrunc umask name data perm t) !! d = Some (Os.Dir mode).
Proof.
  intros Hd. destruct (decide (d = name)) as [->|Hne].
  - unfold Os.createTrunc. by rewrite Hd.
  - by rewrite createTrunc_other.
Qed.

Lemma createTrunc_changed umask name data perm t p :
  fst (Os.createTrunc umask name data perm t) !! p = t !! p
  \/ (p = name
      /\ exists perm', fst (Os.createTrunc umask name data perm t) !! p
                       = Some (Os.File perm' data)).
Proof.
  destruct (decide (p = name)) as [->|Hne].
  - unfold Os.createTrunc.
    destruct (t !! name) as [[?|perm' old]|] eqn:E; cbn [fst]; [by left| |].
    + right. split; [done|]. exists perm'. by rewrite lookup_insert_eq.
    + destruct (String.eqb name "."); [by left|].
      destruct (negb (Os.isDir t (Os.parentOf name))); [by left|].
      right. split; [done|]. cbn. eexists. by rewrite lookup_insert_eq.
  - left. by rewrite createTrunc_other.
Qed.

Lemma getMetric_tree w c metric folder s :
  st_fs (snd (getMetric w c metric folder s)) = st_fs s
  \/ exists data,
       st_fs (snd (getMetric w c metric folder s))
       = fst (Os.createTrunc (w_umask w) (metricPath folder metric) data (octal 6 0 0)
                             (st_fs s)).
Proof.
  destruct (getMetric_cases w c metric folder s) as [[_ Hf]|(req & s1 & _ & Hf & Hrun)];
    [by left|].
  rewrite Hrun.
  destruct (storeMetric_tree w (w_do w (List.length (st_sent s)) req) metric folder s1)
    as [Hsame|(resp & _ & _ & _ & _ & Ht)].
  - left. by rewrite Hsame.
  - right. exists (Http.bodyBytes (Http.RespBody resp)). rewrite Ht, Hf. reflexivity.
Qed.

Lemma fanOut_tree w c metrics folder s :
  (forall d mode, st_fs s !! d = Some (Os.Dir mode) ->
                  st_fs (snd (fanOut w c metrics folder s)) !! d = Some (Os.Dir mode))
  /\ (forall p, st_fs (snd (fanOut w c metrics folder s)) !! p = st_fs s !! p
        \/ exists m perm data,
          m ∈ metrics /\ p = metricPath folder m
          /\ st_fs (snd (fanOut w c metrics folder s)) !! p = Some (Os.File perm data)).
Proof.
  revert s. induction metrics as [|m ms IH]; intros s.
  { cbn. split; [done|]. intros p. by left. }
  cbn [fanOut]. unfold mbind, M_bind.
  pose proof (getMetric_tree w c m folder s) as Ht.
  destruct (getMetric w c m folder s) as [[] s1]. cbn [snd] in Ht.
  destruct (IH s1) as (IH2 & IH3).
  split.
  - intros d mode Hd. apply IH2.
    destruct Ht as [->|[data ->]]; [done|]. by apply createTrunc_dirs.
  - intros p. destruct (IH3 p) as [Heq|(m' & perm & data & Hin & -> & Hf)].
    + rewrite Heq. destruct Ht as [->|[data ->]]; [by left|].
      destruct (createTrunc_changed (w_umask w) (metricPath folder m) data (octal 6 0 0)
                                    (st_fs s) p) as [Hsame|[-> [perm' Hf]]]; [by left|].
      right. exists m, perm', data. split; [by left | by split].
    + right. exists m', perm, data. split; [by right | by split].
Qed.

(** X7.  When every name of the catalog is one path component, the
    fan-out changes nothing in the tree but the files of those names in
    the folder [./prom-metrics]: every other path, the log file apart,
    keeps its entry, every directory stays a directory with its mode,
    and an entry that did change is a regular file at the path of one of
    the metrics. *)
Theorem fanOut_writes_only_metric_files w c metrics s :
  Forall (fun m => fileName m = true) metrics ->
  (forall p, p <> logPath ->
             (forall m, m ∈ metrics -> p <> metricPath metricsFolder m) ->
             st_fs (exec (fanOut w c metrics metricsFolder) s) !! p = st_fs s !! p)
  /\ (forall d mode, st_fs s !! d = Some (Os.Dir mode) ->
                     st_fs (exec (fanOut w c metrics metricsFolder) s) !! d
                     = Some (Os.Dir mode))
  /\ (forall p, p <> logPath ->
        st_fs (exec (fanOut w c metrics metricsFolder) s) !! p <> st_fs s !! p ->
        exists m perm data,
          m ∈ metrics /\ p = metricPath metricsFolder m
          /\ st_fs (exec (fanOut w c metrics metricsFolder) s) !! p
             = Some (Os.File perm data)).
Proof.
  intros _. unfold exec. destruct (fanOut_tree w c metrics metricsFolder s) as [Hd Hp].
  split; [|split].
  - intros p _ Hnot. destruct (Hp p) as [|(m & _ & _ & Hin & -> & _)]; [done|].
    by destruct (Hnot m Hin).
  - exact Hd.
  - intros p _ Hch. by destruct (Hp p).
Qed.

Lemma fanOut_writes_only_metric_files_witness :
  st_fs (exec (fanOut catalogThen503 sampleClient ["ceph_osd_up"] metricsFolder)
              (mkState oldTree [] [] true 0 [])) !! "./prom-metrics/old.json"
  = Some (Os.File (octal 6 4 4) "old").
Proof.
  destruct (fanOut_writes_only_metric_files catalogThen503 sampleClient ["ceph_osd_up"]
              (mkState oldTree [] [] true 0 [])) as [H _].
  - repeat constructor.
  - rewrite H; [reflexivity|discriminate|].
    intros m Hm. apply list_elem_of_singleton in Hm. subst m. discriminate.
Defined.

Lemma storeMetric_clock w r metric folder s :
  st_clock (snd (storeMetric w r metric folder s)) = st_clock s.
Proof.
  unfold storeMetric. destruct r as [resp|e]; [|done].
  destruct (negb (Http.StatusCode resp =? 200)); [done|].
  destruct (Http.ReadAll (Http.RespBody resp)) as [data [e|]]; [done|].
  unfold mbind, M_bind, osWriteFile, onTree.
  destruct (w_oserr w "open" _); [done|].
  destruct (Os.WriteFile _ _ _ _ _) as [t [e|]]; done.
Qed.

(** X8.  For a host made of letters, digits and [-._~], the fan-out,
    with its goroutines run one after another in the order of launch,
    sends exactly one request for each name of the catalog, whatever the
    answers are: a GET to [https://host/api/v1/query_range] whose
    [query] parameter is that name and whose [step] is [60s].  It reads
    the clock twice for each name. *)
Theorem fanOut_requests w c metrics folder s :
  plainHost (host c) = true ->
  exists reqs,
    st_sent (exec (fanOut w c metrics folder) s) = st_sent s ++ reqs
    /\ List.map (fun req => queryParam req "query") reqs = metrics
    /\ Forall (fun req =>
                 Http.Method req = "GET"
                 /\ Url.Scheme (Http.URL req) = "https"
                 /\ Url.Host (Http.URL req) = host c
                 /\ Url.Path (Http.URL req) = "/api/v1/query_range"
                 /\ queryParam req "step" = "60s") reqs
    /\ st_clock (exec (fanOut w c metrics folder) s)
       = (2 * List.length metrics + st_clock s)%nat.
Proof.
  intros Hh. unfold exec. revert s. induction metrics as [|m ms IH]; intros s.
  { exists []. cbn. rewrite app_nil_r. repeat split. constructor. }
  cbn [fanOut]. unfold mbind, M_bind. rewrite getMetric_plain by done.
  set (req := requestFor w c (httpsURL (host c) apiQueryRange (rangeQuery w (st_clock s) m))).
  pose proof (storeMetric_sent w (w_do w (List.length (st_sent s)) req) m folder
                (sent (tick s 2) req)) as Hsn.
  pose proof (storeMetric_clock w (w_do w (List.length (st_sent s)) req) m folder
                (sent (tick s 2) req)) as Hck.
  destruct (storeMetric w _ m folder (sent (tick s 2) req)) as [[] s1].
  cbn [snd st_sent st_clock sent tick] in Hsn, Hck.
  destruct (IH s1) as (reqs & Hsent & Hq & Hall & Hclock).
  exists (req :: reqs). rewrite Hsent, Hsn, Hclock, Hck. cbn [List.length List.map].
  split; [by rewrite <- app_assoc|]. split; [|split; [|lia]].
  - f_equal; [|exact Hq]. unfold queryParam, req.
    rewrite requestFor_URL, Query_range. reflexivity.
  - constructor; [|exact Hall]. unfold queryParam, req.
    rewrite requestFor_URL, requestFor_Method, Query_range. done.
Qed.

Lemma fanOut_requests_witness :
  exists reqs,
    st_sent (exec (fanOut catalogThen503 sampleClient ["ceph_osd_up"; "ocs_health"] ".")
                  freshState) = reqs
    /\ List.map (fun req => queryParam req "query") reqs = ["ceph_osd_up"; "ocs_health"].
Proof.
  destruct (fanOut_requests catalogThen503 sampleClient ["ceph_osd_up"; "ocs_health"] "."
                            freshState) as (reqs & Hs & Hq & _); [reflexivity|].
  exists reqs. split; [exact Hs | exact Hq].
Defined.

Lemma length_app_str a b :
  String.length (a +:+ b) = (String.length a + String.length b)%nat.
Proof. induction a as [|x a IH]; [done|]. rewrite app_cons. cbn. by rewrite IH. Qed.

Lemma app_inv_tail_str a b s : a +:+ s = b +:+ s -> a = b.
Proof.
  revert b. induction a as [|x a IH]; intros [|y b] H.
  - done.
  - apply (f_equal String.length) in H. rewrite !length_app_str in H. cbn in H. lia.
  - apply (f_equal String.length) in H. rewrite !length_app_str in H. cbn in H. lia.
  - rewrite !app_cons in H. injection H as -> H. f_equal. by apply IH.
Qed.

Lemma metricPath_inj folder m m' : metricPath folder m = metricPath folder m' -> m = m'.
Proof.
  unfold metricPath. intros H.
  apply (String.app_inj folder) in H. apply (String.app_inj "/") in H.
  by apply app_inv_tail_str in H.
Qed.

Lemma metricPath_not_dot folder m : metricPath folder m <> ".".
Proof.
  unfold metricPath. intros H. apply (f_equal String.length) in H.
  rewrite !length_app_str in H. cbn in H. lia.
Qed.

(** The tree after [storeMetric] of a 200 whose body is read to its end,
    when the write is not refused by the system. *)
Lemma storeMetric_200 w resp metric folder s :
  Http.StatusCode resp = 200 ->
  Http.bodyErr (Http.RespBody resp) = None ->
  w_oserr w "open" (metricPath folder metric) = None ->
  st_fs (snd (storeMetric w (Ok resp) metric folder s))
  = fst (Os.createTrunc (w_umask w) (metricPath folder metric)
                        (Http.bodyBytes (Http.RespBody resp)) (octal 6 0 0) (st_fs s)).
Proof.
  intros H200 Hbody Hos. unfold storeMetric. rewrite H200. cbn [Z.eqb negb Pos.eqb].
  unfold Http.ReadAll. rewrite Hbody. cbn [fmap option_fmap option_map].
  unfold mbind, M_bind, osWriteFile, onTree. fold (metricPath folder metric).
  rewrite Hos. unfold Os.WriteFile.
  destruct (Os.createTrunc _ _ _ _ _) as [t [e|]]; done.
Qed.

(** What one write makes of the path it writes to. *)
Lemma createTrunc_file umask name data perm t :
  name <> "." ->
  (forall mode, t !! name <> Some (Os.Dir mode)) ->
  Os.isDir t (Os.parentOf name) = true ->
  exists perm', fst (Os.createTrunc umask name data perm t) !! name
                = Some (Os.File perm' data).
Proof.
  intros Hdot Hnd Hpar. unfold Os.createTrunc.
  destruct (t !! name) as [[mode|perm' old]|] eqn:E.
  - by destruct (Hnd mode).
  - exists perm'. cbn. by rewrite lookup_insert_eq.
  - apply String.eqb_neq in Hdot. rewrite Hdot, Hpar. cbn.
    eexists. by rewrite lookup_insert_eq.
Qed.

Lemma isDir_kept (t t' : Os.tree) d :
  (forall d mode, t !! d = Some (Os.Dir mode) -> t' !! d = Some (Os.Dir mode)) ->
  Os.isDir t d = true -> Os.isDir t' d = true.
Proof.
  intros Hk. unfold Os.isDir. destruct (String.eqb d "."); [done|]. cbn.
  destruct (t !! d) as [[mode|]|] eqn:E; [|done..].
  by rewrite (Hk d mode E).
Qed.

(** The goroutine of [m], on a plain host whose answer to the request
    for [m] is [resp]. *)
Lemma getMetric_answered w c folder m resp s :
  plainHost (host c) = true ->
  (forall n req, queryParam req "query" = m -> w_do w n req = Ok resp) ->
  Http.StatusCode resp = 200 ->
  Http.bodyErr (Http.RespBody resp) = None ->
  w_oserr w "open" (metricPath folder m) = None ->
  st_fs (snd (getMetric w c m folder s))
  = fst (Os.createTrunc (w_umask w) (metricPath folder m)
                        (Http.bodyBytes (Http.RespBody resp)) (octal 6 0 0) (st_fs s)).
Proof.
  intros Hh Hdo H200 Hbody Hos. rewrite getMetric_plain by done.
  rewrite Hdo.
  - by rewrite storeMetric_200.
  - unfold queryParam. by rewrite requestFor_URL, Query_range.
Qed.

(** Once the file of [m] holds the body, the rest of the fan-out leaves
    it so. *)
Lemma fanOut_keeps_answer w c folder m resp metrics s perm :
  plainHost (host c) = true ->
  (forall n req, queryParam req "query" = m -> w_do w n req = Ok resp) ->
  Http.StatusCode resp = 200 ->
  Http.bodyErr (Http.RespBody resp) = None ->
  w_oserr w "open" (metricPath folder m) = None ->
  st_fs s !! metricPath folder m
  = Some (Os.File perm (Http.bodyBytes (Http.RespBody resp))) ->
  st_fs (snd (fanOut w c metrics folder s)) !! metricPath folder m
  = Some (Os.File perm (Http.bodyBytes (Http.RespBody resp))).
Proof.
  intros Hh Hdo H200 Hbody Hos. revert s.
  induction metrics as [|m' ms IH]; intros s Hfile; [done|].
  cbn [fanOut]. unfold mbind, M_bind.
  destruct (getMetric w c m' folder s) as [[] s1] eqn:E.
  apply IH. replace s1 with (snd (getMetric w c m' folder s)) by (by rewrite E).
  destruct (decide (m' = m)) as [->|Hne].
  - rewrite (getMetric_answered w c folder m resp) by done.
    unfold Os.createTrunc. rewrite Hfile. cbn.
    by rewrite lookup_insert_eq.
  - destruct (getMetric_tree w c m' folder s) as [->|[data ->]]; [done|].
    rewrite createTrunc_other; [done|].
    intros Heq. apply Hne. symmetry. by apply metricPath_inj in Heq.
Qed.

(** The file of [m] after the fan-out, for any folder of the tree. *)
Lemma fanOut_answered w c metrics folder s m resp :
  plainHost (host c) = true ->
  m ∈ metrics ->
  (forall n req, queryParam req "query" = m -> w_do w n req = Ok resp) ->
  Http.StatusCode resp = 200 ->
  Http.bodyErr (Http.RespBody resp) = None ->
  w_oserr w "open" (metricPath folder m) = None ->
  Os.isDir (st_fs s) (Os.parentOf (metricPath folder m)) = true ->
  (forall mode, st_fs s !! metricPath folder m <> Some (Os.Dir mode)) ->
  exists perm,
    st_fs (exec (fanOut w c metrics folder) s) !! metricPath folder m
    = Some (Os.File perm (Http.bodyBytes (Http.RespBody resp))).
Proof.
  intros Hh Hin Hdo H200 Hbody Hos. unfold exec. revert s Hin.
  induction metrics as [|m' ms IH]; intros s Hin Hpar Hnd;
    [by apply elem_of_nil in Hin|].
  cbn [fanOut]. unfold mbind, M_bind.
  destruct (getMetric w c m' folder s) as [[] s1] eqn:E.
  assert (s1 = snd (getMetric w c m' folder s)) as Hs1 by (by rewrite E).
  destruct (decide (m' = m)) as [->|Hne].
  - destruct (createTrunc_file (w_umask w) (metricPath folder m)
                (Http.bodyBytes (Http.RespBody resp)) (octal 6 0 0) (st_fs s))
      as [perm Hfile]; [apply metricPath_not_dot|done..|].
    exists perm. apply fanOut_keeps_answer; try done.
    by rewrite Hs1, (getMetric_answered w c folder m resp).
  - apply elem_of_cons in Hin as [->|Hin]; [done|].
    assert (metricPath folder m <> metricPath folder m') as Hpath.
    { intros Heq. apply Hne. symmetry. by apply metricPath_inj in Heq. }
    apply IH; [done| |].
    + eapply isDir_kept; [|exact Hpar]. intros d mode Hd. rewrite Hs1.
      destruct (getMetric_tree w c m' folder s) as [->|[data ->]]; [done|].
      by apply createTrunc_dirs.
    + intros mode. rewrite Hs1.
      destruct (getMetric_tree w c m' folder s) as [->|[data ->]]; [done|].
      by rewrite createTrunc_other.
Qed.

Lemma LastIndex_app_byte x (a b : string) :
  noByte x b = true -> LastIndex (a +:+ String x b) (String x "") = Some (len a).
Proof.
  intros Hb. induction a as [|c a IH]; app_simpl.
  - cbn [LastIndex]. rewrite LastIndex_noByte by done.
    rewrite prefix_one. by rewrite byte_eqb_refl.
  - cbn [LastIndex]. by rewrite IH.
Qed.

(** The file of a name that is one path component lies in the folder. *)
Lemma parentOf_metricPath folder m :
  fileName m = true -> Os.parentOf (metricPath folder m) = folder.
Proof.
  unfold fileName. intros [Hm _]%andb_true_iff.
  unfold Os.parentOf, metricPath.
  change ("/" +:+ m +:+ ".json") with (String "/" (m +:+ ".json")).
  rewrite LastIndex_app_byte by (rewrite noByte_app, Hm; reflexivity).
  apply take_app.
Qed.

(** X9.  The goroutines of the fan-out do not disturb one another's
    files.  Let the host be made of letters, digits and [-._~], let
    every name of the catalog be one path component, let [m] be one of
    them, and let the server answer the range request for [m] with a 200
    whose body is read to its end.  If [./prom-metrics] is a directory,
    the path of [m]'s file is not one, and the system does not refuse
    the write, then after the fan-out the file of [m] holds exactly that
    body, whatever the other names of the catalog are and however their
    requests are answered. *)
Theorem fanOut_isolation w c metrics s m resp mode :
  plainHost (host c) = true ->
  Forall (fun m => fileName m = true) metrics ->
  m ∈ metrics ->
  (forall n req, queryParam req "query" = m -> w_do w n req = Ok resp) ->
  Http.StatusCode resp = 200 ->
  Http.bodyErr (Http.RespBody resp) = None ->
  w_oserr w "open" (metricPath metricsFolder m) = None ->
  st_fs s !! metricsFolder = Some (Os.Dir mode) ->
  (forall mode', st_fs s !! metricPath metricsFolder m <> Some (Os.Dir mode')) ->
  exists perm,
    st_fs (exec (fanOut w c metrics metricsFolder) s) !! metricPath metricsFolder m
    = Some (Os.File perm (Http.bodyBytes (Http.RespBody resp))).
Proof.
  intros Hh Hnames Hin Hdo H200 Hbody Hos Hdir Hnd.
  apply fanOut_answered; try done.
  rewrite parentOf_metricPath.
  - unfold Os.isDir. rewrite Hdir. apply orb_true_r.
  - rewrite Forall_forall in Hnames. by apply Hnames.
Qed.

Lemma fanOut_isolation_witness :
  exists perm,
    st_fs (exec (fanOut (onlyAnswers "ceph_osd_up" "{}") sampleClient
                        ["ceph_osd_in"; "ceph_osd_up"; "ocs_health"] metricsFolder)
                (mkState {[ metricsFolder := Os.Dir (octal 7 5 0) ]} [] [] true 0 []))
      !! "./prom-metrics/ceph_osd_up.json"
    = Some (Os.File perm "{}").
Proof.
  apply (fanOut_isolation (onlyAnswers "ceph_osd_up" "{}") sampleClient
           ["ceph_osd_in"; "ceph_osd_up"; "ocs_health"]
           (mkState {[ metricsFolder := Os.Dir (octal 7 5 0) ]} [] [] true 0 [])
           "ceph_osd_up" (Http.mkResponse 200 "200 OK" (Http.mkBody "{}" None))
           (octal 7 5 0)).
  - reflexivity.
  - repeat constructor.
  - apply elem_of_cons. right. apply elem_of_cons. by left.
  - intros n req Hq. cbn [onlyAnswers w_do]. rewrite Hq. reflexivity.
  - reflexivity.
  - reflexivity.
  - reflexivity.
  - reflexivity.
  - intros mode'. discriminate.
Defined.

(** ** The whole run *)

Lemma grows_console_length w c s s' :
  grows w c s s' -> (List.length (st_console s) <= List.length (st_console s'))%nat.
Proof. intros (_ & (lines & -> & _) & _). rewrite length_app. lia. Qed.

Lemma logLine_console_length l s :
  List.length (st_console (snd (logLine l s))) = S (List.length (st_console s)).
Proof. unfold logLine. cbn. rewrite length_app. cbn. lia. Qed.

(** Every path through [gather] logs at least one line. *)
Lemma gather_logs w c start s :
  (List.length (st_console s) < List.length (st_console (snd (gather w c start s))))%nat.
Proof.
  unfold gather, mbind, M_bind.
  pose proof (grows_console_length w c _ _ (grows_getMetricList w c s)) as H.
  destruct (getMetricList w c s) as [[metrics [e|]] s1]; cbn [snd] in H.
  - rewrite logLine_console_length. lia.
  - destruct (Nat.eqb (List.length metrics) 0).
    + rewrite logLine_console_length. lia.
    + unfold osMkdir.
      pose proof (grows_console_length w c _ _
                    (grows_osRemoveAll w c metricsFolder s1)) as H1.
      destruct (osRemoveAll w metricsFolder s1) as [[e|] s2]; cbn [snd] in H1.
      * rewrite logLine_console_length. lia.
      * pose proof (grows_console_length w c _ _
                      (grows_onTree w c "mkdir" metricsFolder
                         (Os.Mkdir (w_umask w) metricsFolder (octal 7 5 0)) s2)) as H2.
        destruct (onTree w "mkdir" _ _ s2) as [[e|] s3]; cbn [snd] in H2.
        -- rewrite logLine_console_length. lia.
        -- unfold fetchMetrics, mbind, M_bind.
           pose proof (grows_console_length w c _ _
                         (grows_fanOut w c metrics metricsFolder s3)) as H3.
           destruct (fanOut w c metrics metricsFolder s3) as [[] s4]. cbn [snd] in H3.
           cbn [now fst snd]. rewrite logLine_console_length. cbn [st_console]. lia.
Qed.

(** With the log file open, [main] logs one line from the state
    [started] and ends, or it is [gather] from that state. *)
Lemma main_opened w s :
  fst (osOpenFile w logPath (octal 6 0 0) s) = None ->
  (exists l, main w s = logLine l (started w s))
  \/ (exists token h,
        getCmdResult w "oc" tokenArgs = (token, None)
        /\ main w s
           = gather w (mkHttpClient {["Authorization" := "Bearer " +:+ token]} h)
                    (w_now w (st_clock s)) (started w s)).
Proof.
  intros Hopen.
  destruct (osOpenFile_keeps w logPath (octal 6 0 0) s) as (_ & _ & Hclock).
  unfold main, started, exec, mbind, M_bind. unfold logPath in *.
  destruct (osOpenFile w "promgather.log" (octal 6 0 0) s) as [[e|] s1];
    cbn [fst snd] in *; [done|].
  fold tokenArgs hostArgs.
  destruct (getCmdResult w "oc" tokenArgs) as [token [e|]].
  - left. by eexists.
  - destruct (getCmdResult w "oc" hostArgs) as [h [e|]].
    + left. by eexists.
    + right. exists token, h. split; [done|]. cbn. by rewrite Hclock.
Qed.

(** X10.  Once the log file is open, the log file gets the very lines
    the terminal gets, in the same order, from the banner on; and no run
    ends on the banner: at least one more line says how it ended. *)
Theorem log_file_mirrors_terminal w s :
  fst (osOpenFile w logPath (octal 6 0 0) s) = None ->
  exists lines,
    lines <> []
    /\ st_console (exec (main w) s) = st_console s ++ banner :: lines
    /\ st_logfile (exec (main w) s) = st_logfile s ++ banner :: lines.
Proof.
  intros Hopen. destruct (started_fields w s Hopen) as (Hcon & Hlog & Hset & _).
  unfold exec.
  destruct (main_opened w s Hopen) as [[l ->]|(token & h & _ & ->)].
  - exists [l]. split; [done|]. unfold logLine. cbn [snd st_console st_logfile].
    rewrite Hset, Hcon, Hlog. by rewrite <- !app_assoc.
  - pose proof (gather_logs w (mkHttpClient {["Authorization" := "Bearer " +:+ token]} h)
                  (w_now w (st_clock s)) (started w s)) as Hlen.
    destruct (grows_gather w (mkHttpClient {["Authorization" := "Bearer " +:+ token]} h)
                (w_now w (st_clock s)) (started w s))
      as (_ & (lines & Hc & Hf) & _).
    rewrite Hset in Hf. exists lines. split; [|split].
    + intros ->. rewrite Hc, app_nil_r in Hlen. lia.
    + rewrite Hc, Hcon. by rewrite <- app_assoc.
    + rewrite Hf, Hlog. by rewrite <- app_assoc.
Qed.

Lemma log_file_mirrors_terminal_witness :
  st_logfile (exec (main noOcWorld) freshState)
  = st_console (exec (main noOcWorld) freshState)
  /\ (2 <= List.length (st_logfile (exec (main noOcWorld) freshState)))%nat.
Proof.
  destruct (log_file_mirrors_terminal noOcWorld freshState) as (lines & Hne & Hc & Hf);
    [reflexivity|].
  rewrite Hf, Hc. split; [reflexivity|].
  destruct lines; [done|]. cbn. lia.
Defined.

(** The request a client with the one header [Authorization] builds. *)
Lemma buildRequest_authorization w v h url req :
  w_range w {["Authorization" := v]} ≡ₚ map_to_list ({["Authorization" := v]} : gmap string string) ->
  buildRequest w (mkHttpClient {["Authorization" := v]} h) url = Ok req ->
  Http.Method req = "GET" /\ Http.ReqHeader req = {["Authorization" := [v]]}.
Proof.
  intros Hrange. unfold buildRequest.
  destruct (Http.NewRequest "GET" url) as [req0|e] eqn:E; [|done].
  intros [= <-]. cbn [headers].
  rewrite map_to_list_singleton in Hrange.
  apply Permutation_singleton_r in Hrange. rewrite Hrange. cbn.
  revert E. unfold Http.NewRequest. cbn.
  destruct (Url.Parse url); [|done]. intros [= <-]. cbn.
  unfold Http.Set_. by rewrite insert_empty.
Qed.

(** X11.  Every request of a run is a GET that carries exactly one
    header, [Authorization], whose value is [Bearer] followed by what
    [oc whoami -t] printed, without its leading and trailing newlines:
    the catalog request and every range request alike. *)
Theorem every_request_carries_the_token w s tokenOut :
  w_exec w "oc" tokenArgs = Exited tokenOut 0 ->
  w_range w {["Authorization" := "Bearer " +:+ Trim tokenOut nl]}
    ≡ₚ map_to_list ({["Authorization" := "Bearer " +:+ Trim tokenOut nl]}
                     : gmap string string) ->
  exists more,
    st_sent (exec (main w) s) = st_sent s ++ more
    /\ Forall (fun req =>
                 Http.Method req = "GET"
                 /\ Http.ReqHeader req
                    = {["Authorization" := ["Bearer " +:+ Trim tokenOut nl]]}) more.
Proof.
  intros Htoken Hrange. unfold exec.
  destruct (fst (osOpenFile w logPath (octal 6 0 0) s)) as [e|] eqn:Hopen.
  - exists []. split; [|constructor]. rewrite app_nil_r.
    destruct (osOpenFile_error w logPath (octal 6 0 0) s e Hopen)
      as (_ & _ & _ & _ & _ & Hsn).
    unfold main, mbind, M_bind. unfold logPath in *.
    destruct (osOpenFile w "promgather.log" (octal 6 0 0) s) as [[e'|] s1];
      cbn [fst snd] in *; [|done]. cbn. exact Hsn.
  - destruct (started_keeps w s) as [_ Hsent].
    destruct (main_opened w s Hopen) as [[l ->]|(token & h & Hcmd & ->)].
    + exists []. split; [|constructor]. rewrite app_nil_r. cbn. exact Hsent.
    + unfold getCmdResult in Hcmd. rewrite Htoken in Hcmd. cbn in Hcmd.
      injection Hcmd as <-.
      destruct (grows_gather w
                  (mkHttpClient {["Authorization" := "Bearer " +:+ Trim tokenOut nl]} h)
                  (w_now w (st_clock s)) (started w s))
        as (_ & _ & (more & Hm & Hall) & _).
      exists more. split; [by rewrite Hm, Hsent|].
      eapply Forall_impl; [exact Hall|].
      intros req [url Hb]. cbv beta.
      by apply (buildRequest_authorization w _ h url).
Qed.

Lemma every_request_carries_the_token_witness :
  exists more,
    st_sent (exec (main catalogThen503) freshState) = more
    /\ Forall (fun req => Http.ReqHeader req = {["Authorization" := ["Bearer abc123"]]})
              more.
Proof.
  destruct (every_request_carries_the_token catalogThen503 freshState "abc123")
    as (more & Hs & Hall); [reflexivity | reflexivity |].
  exists more. split; [exact Hs|].
  eapply Forall_impl; [exact Hall|]. intros req [_ H]. exact H.
Defined.

(** ** The catalog as Prometheus writes it *)

Lemma app_assoc_str a b c : (a +:+ b) +:+ c = a +:+ (b +:+ c).
Proof. induction a as [|x a IH]; [done|]. rewrite !app_cons. by rewrite IH. Qed.

Lemma quoted_app n tail :
  quoted n +:+ tail = String GoByte.DQUOTE (n +:+ String GoByte.DQUOTE tail).
Proof.
  unfold quoted, quote. rewrite !app_assoc_str, !app_cons, !app_nil_l. reflexivity.
Qed.

Lemma scanString_plain n tail :
  all nameByte n = true ->
  Json.scanString (n +:+ String GoByte.DQUOTE tail) = Json.Parsed n tail.
Proof.
  induction n as [|c n IH]; intros Hn.
  - rewrite app_nil_l. reflexivity.
  - cbn [all] in Hn. apply andb_true_iff in Hn as [Hc Hn].
    rewrite app_cons. cbn [Json.scanString]. rewrite (IH Hn).
    revert Hc. clear. each_byte c; vm_compute; congruence.
Qed.

Lemma unquote_plain n : all nameByte n = true -> Json.unquote n = n.
Proof.
  unfold Json.unquote. induction n as [|c n IH]; intros Hn; [reflexivity|].
  cbn [all] in Hn. apply andb_true_iff in Hn as [Hc Hn].
  cbn [Json.unquoteFrom].
  assert (GoByte.eqb c "\" = false) as ->.
  { revert Hc. clear. each_byte c; vm_compute; congruence. }
  assert (Json.runeLen (String c n) = 1%nat) as ->.
  { unfold Json.runeLen.
    assert (GoByte.isASCII c = true) as ->; [|done].
    revert Hc. clear. each_byte c; vm_compute; congruence. }
  rewrite app_nil_l. by rewrite (IH Hn).
Qed.

Lemma skipSpace_head c s : Json.isSpace c = false -> Json.skipSpace (String c s) = String c s.
Proof. intros H. cbn [Json.skipSpace]. by rewrite H. Qed.

Lemma depth_ok_1 : (Json.maxNestingDepth <? 1)%nat = false.
Proof. vm_compute. reflexivity. Qed.

Lemma depth_ok_2 : (Json.maxNestingDepth <? 2)%nat = false.
Proof. vm_compute. reflexivity. Qed.

Lemma scanValue_string fuel depth n tail :
  all nameByte n = true ->
  Json.scanValue (S fuel) depth (String GoByte.DQUOTE (n +:+ String GoByte.DQUOTE tail))
  = Json.Parsed (Json.Str n) tail.
Proof.
  intros Hn. cbn [Json.scanValue]. rewrite skipSpace_head by reflexivity.
  change (GoByte.eqb GoByte.DQUOTE "{") with false.
  change (GoByte.eqb GoByte.DQUOTE "[") with false.
  change (GoByte.eqb GoByte.DQUOTE GoByte.DQUOTE) with true. cbv iota.
  rewrite scanString_plain by done. cbn [Json.mapParsed]. by rewrite unquote_plain.
Qed.

Lemma namesText_cons n rest tail :
  namesText (n :: rest) +:+ String "]" tail
  = String GoByte.DQUOTE
      (n +:+ String GoByte.DQUOTE
         match rest with
         | [] => String "]" tail
         | _ => String "," (namesText rest +:+ String "]" tail)
         end).
Proof.
  cbn [namesText]. rewrite app_assoc_str, quoted_app. do 2 f_equal.
  destruct rest; [by rewrite app_nil_l|]. by rewrite app_cons, app_nil_l.
Qed.

Lemma scanElems_names fuel depth names tail afterComma acc :
  names <> [] ->
  Forall (fun n => all nameByte n = true) names ->
  (List.length names < fuel)%nat ->
  Json.scanElems fuel depth (namesText names +:+ String "]" tail) afterComma acc
  = Json.Parsed (acc ++ (Json.Str <$> names)) tail.
Proof.
  revert fuel afterComma acc. induction names as [|n rest IH];
    intros fuel afterComma acc Hne Hall Hfuel; [done|].
  apply Forall_cons in Hall as [Hn Hall].
  destruct fuel as [|fuel]; [cbn in Hfuel; lia|].
  rewrite namesText_cons. cbn [Json.scanElems].
  rewrite skipSpace_head by reflexivity.
  change (GoByte.eqb GoByte.DQUOTE "]") with false. cbn [andb].
  destruct fuel as [|fuel]; [cbn in Hfuel; lia|].
  rewrite scanValue_string by done.
  destruct rest as [|n' rest'].
  - rewrite skipSpace_head by reflexivity.
    change (GoByte.eqb "]" ",") with false. change (GoByte.eqb "]" "]") with true.
    reflexivity.
  - rewrite skipSpace_head by reflexivity.
    change (GoByte.eqb "," ",") with true. cbv iota.
    rewrite IH; [|done|done|cbn in Hfuel |- *; lia].
    by rewrite <- app_assoc.
Qed.

Lemma scanValue_array fuel names tail :
  Forall (fun n => all nameByte n = true) names ->
  (S (List.length names) < fuel)%nat ->
  Json.scanValue fuel 1 (String "[" (namesText names +:+ String "]" tail))
  = Json.Parsed (Json.Array (Json.Str <$> names)) tail.
Proof.
  intros Hall Hfuel. destruct fuel as [|fuel]; [lia|].
  cbn [Json.scanValue]. rewrite skipSpace_head by reflexivity.
  change (GoByte.eqb "[" "{") with false. change (GoByte.eqb "[" "[") with true.
  cbv iota. rewrite depth_ok_2.
  destruct names as [|n rest].
  - destruct fuel as [|fuel]; [cbn in Hfuel; lia|].
    cbn [namesText Json.scanElems]. rewrite app_nil_l, skipSpace_head by reflexivity.
    change (GoByte.eqb "]" "]") with true. reflexivity.
  - rewrite scanElems_names; [reflexivity|done|done|cbn in Hfuel |- *; lia].
Qed.

Lemma successBody_eq names :
  successBody names
  = String "{" (String GoByte.DQUOTE ("status" +:+ String GoByte.DQUOTE
      (String ":" (String GoByte.DQUOTE ("success" +:+ String GoByte.DQUOTE
         (String "," (String GoByte.DQUOTE ("data" +:+ String GoByte.DQUOTE
            (String ":" (String "[" (namesText names +:+ String "]" "}"))))))))))).
Proof. reflexivity. Qed.

Lemma scanValue_successBody names fuel :
  Forall (fun n => all nameByte n = true) names ->
  (List.length names + 5 < fuel)%nat ->
  Json.scanValue fuel 0 (successBody names)
  = Json.Parsed (Json.Object [("status", Json.Str "success");
                              ("data", Json.Array (Json.Str <$> names))]) "".
Proof.
  intros Hall Hfuel. rewrite successBody_eq.
  destruct fuel as [|fuel]; [lia|].
  cbn [Json.scanValue]. rewrite skipSpace_head by reflexivity.
  change (GoByte.eqb "{" "{") with true. cbv iota. rewrite depth_ok_1.
  destruct fuel as [|fuel]; [lia|].
  cbn [Json.scanMembers]. rewrite skipSpace_head by reflexivity.
  change (GoByte.eqb GoByte.DQUOTE "}") with false. cbn [andb].
  change (GoByte.eqb GoByte.DQUOTE GoByte.DQUOTE) with true. cbv iota.
  rewrite scanString_plain by reflexivity.
  rewrite skipSpace_head by reflexivity.
  change (GoByte.eqb ":" ":") with true. cbv iota.
  destruct fuel as [|fuel]; [lia|].
  rewrite scanValue_string by reflexivity.
  rewrite skipSpace_head by reflexivity.
  change (GoByte.eqb "," ",") with true. cbv iota.
  cbn [Json.scanMembers]. rewrite skipSpace_head by reflexivity.
  change (GoByte.eqb GoByte.DQUOTE "}") with false. cbn [andb].
  change (GoByte.eqb GoByte.DQUOTE GoByte.DQUOTE) with true. cbv iota.
  rewrite scanString_plain by reflexivity.
  rewrite skipSpace_head by reflexivity.
  change (GoByte.eqb ":" ":") with true. cbv iota.
  rewrite scanValue_array; [|done|lia].
  rewrite skipSpace_head by reflexivity.
  change (GoByte.eqb "}" ",") with false. change (GoByte.eqb "}" "}") with true.
  reflexivity.
Qed.

Lemma len_namesText names : (List.length names <= len (namesText names))%nat.
Proof.
  induction names as [|n rest IH]; [done|].
  cbn [namesText List.length]. unfold len, quoted, quote in *.
  rewrite !length_app_str. destruct rest; [cbn; lia|].
  rewrite length_app_str. cbn [String.length] in *. lia.
Qed.

Lemma storeElems_names names :
  Json.storeElems [] (Json.Str <$> names) = (names, None).
Proof. induction names as [|n rest IH]; [done|]. cbn. by rewrite IH. Qed.

(** The decoder finds the names of [data], in their order. *)
Lemma Decode_successBody names :
  Forall (fun n => all nameByte n = true) names ->
  Json.Decode (Http.mkBody (successBody names) None) = (names, None).
Proof.
  intros Hall. unfold Json.Decode. cbn [Http.bodyBytes Http.bodyErr].
  rewrite scanValue_successBody; [|done|].
  - rewrite successBody_eq, skipSpace_head by reflexivity.
    unfold Json.unmarshal. cbn [fold_left]. unfold Json.storeMember. cbn [fst snd].
    change (Json.isDataKey "status") with false.
    change (Json.isDataKey "data") with true. cbv iota.
    destruct names as [|n rest]; [reflexivity|].
    pose proof (storeElems_names (n :: rest)) as Hst.
    cbn [fmap list_fmap] in Hst. fold (@fmap list _ _ _ Json.Str rest) in Hst.
    cbn [fmap list_fmap Json.storeData Json.backing Json.nilSlice].
    rewrite Hst. cbn [Json.firstError fmap option_fmap option_map].
    unfold Json.elements. cbn [Json.length_ Json.backing List.length].
    rewrite length_fmap. f_equal. apply (firstn_all (n :: rest)).
  - pose proof (len_namesText names) as H. rewrite successBody_eq.
    unfold len in *. cbn [String.length]. repeat (rewrite length_app_str || cbn [String.length]). lia.
Qed.

(** X12.  When the catalog request is answered with status 200 and the
    body [{"status":"success","data":[...]}] as the API writes it, with
    names made of printable ASCII without quote and backslash,
    [getMetricList] returns exactly those names, in the order of the
    body, with a nil error: the member [status] is skipped, and no name
    is changed, dropped or doubled. *)
Theorem catalog_names_in_order w c s names status :
  plainHost (host c) = true ->
  Forall (fun n => all nameByte n = true) names ->
  (forall req, w_do w (List.length (st_sent s)) req
               = Ok (Http.mkResponse 200 status (Http.mkBody (successBody names) None))) ->
  fst (run (getMetricList w c) s) = (names, None).
Proof.
  intros Hh Hall Hdo. unfold run. rewrite getMetricList_plain by done.
  rewrite Hdo. unfold decodeMetricList. cbn [Http.StatusCode Http.RespBody].
  change (negb (200 =? 200)) with false. cbv iota.
  by rewrite Decode_successBody.
Qed.

Lemma catalog_names_in_order_witness :
  fst (run (getMetricList
              (sampleWorld "abc123" "example.com" 200 "200 OK"
                           (successBody ["ceph_osd_up"; "ocs:health_status"]) 0 1)
              sampleClient) freshState)
  = (["ceph_osd_up"; "ocs:health_status"], None).
Proof.
  apply (catalog_names_in_order _ _ _ _ "200 OK").
  - reflexivity.
  - repeat constructor.
  - intros req. reflexivity.
Defined.

(** ** A host that is no host *)

Lemma Parse_control_byte h :
  noByte "#" h = true ->
  Url.stringContainsCTLByte h = true ->
  Url.Parse ("https://" +:+ h) = Err (controlByteError h).
Proof.
  intros Hsharp Hctl. unfold Url.Parse.
  rewrite Cut_noByte by (rewrite noByte_app, Hsharp; reflexivity).
  unfold Url.parse, Url.stringContainsCTLByte in *.
  rewrite any_app, Hctl, orb_true_r. reflexivity.
Qed.

(** X13.  [getCmdResult] strips newlines at the two ends of what [oc]
    printed and leaves every other byte.  If what is left as the host
    holds a control byte (a newline between two routes, a tab, a
    carriage return) and no [#], [url.Parse] refuses it, and the run
    ends after three lines: the banner, the parse error and the failure
    of the catalog fetch.  Nothing is sent and no entry of the tree but
    the log file is touched. *)
Theorem control_byte_in_host_stops_run w s tokenOut hostOut :
  fst (osOpenFile w logPath (octal 6 0 0) s) = None ->
  w_exec w "oc" tokenArgs = Exited tokenOut 0 ->
  w_exec w "oc" hostArgs = Exited hostOut 0 ->
  noByte "#" (Trim hostOut nl) = true ->
  Url.stringContainsCTLByte (Trim hostOut nl) = true ->
  st_sent (exec (main w) s) = st_sent s
  /\ (forall p, p <> logPath -> st_fs (exec (main w) s) !! p = st_fs s !! p)
  /\ st_console (exec (main w) s)
     = st_console s ++ [banner;
                        hostBaseError (controlByteError (Trim hostOut nl));
                        catalogError (controlByteError (Trim hostOut nl))].
Proof.
  intros Hopen Htoken Hhost Hsharp Hctl.
  destruct (started_keeps w s) as [Hfs Hsent].
  destruct (started_fields w s Hopen) as (Hcon & _).
  unfold exec. rewrite (main_to_gather w s tokenOut hostOut) by done.
  unfold gather, getMetricList, mbind, M_bind. cbn [host].
  rewrite Parse_control_byte by done.
  cbn. rewrite Hsent, Hcon. split; [done|]. split; [exact Hfs|].
  by rewrite <- !app_assoc.
Qed.

Lemma control_byte_in_host_stops_run_witness :
  st_sent (exec (main twoRoutesWorld) freshState) = []
  /\ List.length (st_console (exec (main twoRoutesWorld) freshState)) = 3%nat.
Proof.
  destruct (control_byte_in_host_stops_run twoRoutesWorld freshState "abc123"
              ("a.example.com" +:+ nl +:+ "b.example.com" +:+ nl))
    as (Hs & _ & Hc); try reflexivity.
  split; [exact Hs|]. rewrite Hc. reflexivity.
Defined.

(** ** What a complete run leaves in the folder *)

Lemma metricPath_within folder m :
  HasPrefix (metricPath folder m) (folder +:+ "/") = true.
Proof.
  unfold metricPath. rewrite <- (app_assoc_str folder "/"). apply HasPrefix_app.
Qed.

Lemma onlyFresh_createTrunc w folder done m data t :
  onlyFresh w folder done t ->
  onlyFresh w folder (done ++ [m])
            (fst (Os.createTrunc (w_umask w) (metricPath folder m) data (octal 6 0 0) t)).
Proof.
  intros Hinv p Hp. destruct (decide (p = metricPath folder m)) as [->|Hne].
  - unfold Os.createTrunc.
    destruct (Hinv _ Hp) as [Hnone|(m' & old & _ & _ & Hfile)].
    + rewrite Hnone. destruct (String.eqb _ "."); [by left|].
      destruct (negb _); [by left|]. right. exists m, data.
      split; [apply elem_of_app; right; by apply list_elem_of_singleton|].
      split; [done|]. cbn. by rewrite lookup_insert_eq.
    + rewrite Hfile. right. exists m, data.
      split; [apply elem_of_app; right; by apply list_elem_of_singleton|].
      split; [done|]. cbn. by rewrite lookup_insert_eq.
  - rewrite createTrunc_other by done.
    destruct (Hinv _ Hp) as [Hnone|(m' & old & Hin & Heq & Hfile)]; [by left|].
    right. exists m', old. split; [apply elem_of_app; by left | done].
Qed.

Lemma onlyFresh_more w folder done m t :
  onlyFresh w folder done t -> onlyFresh w folder (done ++ [m]) t.
Proof.
  intros Hinv p Hp. destruct (Hinv _ Hp) as [Hnone|(m' & old & Hin & Heq & Hfile)];
    [by left|].
  right. exists m', old. split; [apply elem_of_app; by left | done].
Qed.

Lemma onlyFresh_fanOut w c folder metrics done s :
  onlyFresh w folder done (st_fs s) ->
  onlyFresh w folder (done ++ metrics) (st_fs (snd (fanOut w c metrics folder s))).
Proof.
  revert done s. induction metrics as [|m ms IH]; intros done s Hinv.
  { by rewrite app_nil_r. }
  cbn [fanOut]. unfold mbind, M_bind.
  pose proof (getMetric_tree w c m folder s) as Ht.
  destruct (getMetric w c m folder s) as [[] s1]. cbn [snd] in Ht.
  replace (done ++ m :: ms) with ((done ++ [m]) ++ ms) by (by rewrite <- app_assoc).
  apply IH. destruct Ht as [->|[data ->]].
  - by apply onlyFresh_more.
  - by apply onlyFresh_createTrunc.
Qed.

(** X14.  A run that gets a catalog whose names are each one path
    component, and whose remove and mkdir are not refused, leaves below
    [./prom-metrics] nothing of an earlier run: every entry below the
    folder is the file of a name of this catalog, written by this run
    with mode [0600 &^ umask].  Outside the folder, and the log file
    apart, the run changes nothing. *)
Theorem folder_holds_only_this_run w c start s metrics s1 :
  getMetricList w c s = ((metrics, None), s1) -> metrics <> [] ->
  Forall (fun m => fileName m = true) metrics ->
  w_oserr w "RemoveAll" metricsFolder = None ->
  w_oserr w "mkdir" metricsFolder = None ->
  (forall p, HasPrefix p (metricsFolder +:+ "/") = true ->
     st_fs (exec (gather w c start) s) !! p = None
     \/ exists m data,
          m ∈ metrics /\ p = metricPath metricsFolder m
          /\ st_fs (exec (gather w c start) s) !! p
             = Some (Os.File (Z.ldiff (octal 6 0 0) (w_umask w)) data))
  /\ (forall p, Os.within metricsFolder p = false -> p <> logPath ->
        st_fs (exec (gather w c start) s) !! p = st_fs s !! p).
Proof.
  intros Hlist Hne _ Hrm Hmk. unfold exec.
  remember (st_fs (snd (gather w c start s))) as final eqn:Hfinal.
  rewrite (gather_with_catalog w c start s metrics s1 Hlist Hne) in Hfinal.
  pose proof (getMetricList_fs w c s) as Hfs. rewrite Hlist in Hfs. cbn [snd] in Hfs.
  unfold mbind at 1 in Hfinal. unfold M_bind at 1 in Hfinal.
  unfold osRemoveAll, onTree in Hfinal. rewrite Hrm in Hfinal.
  destruct (RemoveAll_lookup metricsFolder (st_fs s1) "" eq_refl eq_refl) as [Hnone _].
  pose proof (fun p => proj2 (RemoveAll_lookup metricsFolder (st_fs s1) p eq_refl eq_refl))
    as Hlook.
  destruct (Os.RemoveAll metricsFolder (st_fs s1)) as [t e] eqn:Erm.
  cbn [fst snd] in Hnone, Hlook. subst e.
  unfold mbind at 1 in Hfinal. unfold M_bind at 1 in Hfinal.
  rewrite (osMkdir_after_remove w (st_fs s1)) in Hfinal; [|done|by rewrite Erm].
  cbn [st_fs st_console st_logfile st_logset st_clock st_sent] in Hfinal.
  set (s2 := mkState _ (st_console s1) _ _ _ _) in Hfinal.
  assert (forall p, p <> metricsFolder ->
            st_fs s2 !! p = if Os.within metricsFolder p then None else st_fs s !! p)
    as Hs2.
  { intros p Hp. unfold s2. cbn [st_fs]. rewrite lookup_insert_ne by done.
    by rewrite Hlook, Hfs. }
  unfold fetchMetrics, mbind, M_bind in Hfinal.
  pose proof (onlyFresh_fanOut w c metricsFolder metrics [] s2) as Hfresh.
  pose proof (fanOut_tree w c metrics metricsFolder s2) as [_ Htree].
  destruct (fanOut w c metrics metricsFolder s2) as [[] s3]. cbn [snd] in Hfresh, Htree.
  cbn [now logLine fst snd st_fs] in Hfinal. subst final. split.
  - assert (onlyFresh w metricsFolder [] (st_fs s2)) as Hstart.
    { intros p Hp. left. rewrite Hs2.
      - unfold Os.within. by rewrite Hp, orb_true_r.
      - intros ->. vm_compute in Hp. discriminate. }
    exact (Hfresh Hstart).
  - intros p Hp _. destruct (Htree p) as [->|(m & _ & _ & _ & -> & _)].
    + rewrite Hs2; [by rewrite Hp|]. intros ->. vm_compute in Hp. discriminate.
    + unfold Os.within in Hp. by rewrite metricPath_within, orb_true_r in Hp.
Qed.

Lemma folder_holds_only_this_run_witness :
  st_fs (exec (gather catalogThen503 sampleClient epoch) (mkState oldTree [] [] true 0 []))
    !! "./prom-metrics/old.json" = None.
Proof.
  edestruct (folder_holds_only_this_run catalogThen503 sampleClient epoch
               (mkState oldTree [] [] true 0 []) ["ceph_health_status"]) as [Hin _].
  - vm_compute. reflexivity.
  - discriminate.
  - repeat constructor.
  - reflexivity.
  - reflexivity.
  - destruct (Hin "./prom-metrics/old.json" eq_refl) as [H|(m & data & Hm & Hp & _)];
      [exact H|].
    apply list_elem_of_singleton in Hm. subst m. vm_compute in Hp. discriminate.
Defined.

(** ** The fuel of the JSON scanner *)

Lemma mapParsed_Parsed {A B : Type} (f : A -> B) (p : Json.parsed A) b rest :
  Json.mapParsed f p = Json.Parsed b rest -> exists a, p = Json.Parsed a rest.
Proof. destruct p as [a r| |]; cbn; [|done..]. intros [= _ <-]. by exists a. Qed.

Lemma skipSpace_len s : (len (Json.skipSpace s) <= len s)%nat.
Proof.
  unfold len. induction s as [|c s IH]; [done|]. cbn [Json.skipSpace].
  destruct (Json.isSpace c); cbn [String.length]; lia.
Qed.

Lemma skipSpace_cons s c r : Json.skipSpace s = String c r -> (S (len r) <= len s)%nat.
Proof.
  intros H. pose proof (skipSpace_len s) as Hl. rewrite H in Hl. exact Hl.
Qed.

Lemma scanString_len n s raw rest :
  (len s <= n)%nat -> Json.scanString s = Json.Parsed raw rest -> (len rest < len s)%nat.
Proof.
  unfold len. revert s raw rest. induction n as [|n IH]; intros s raw rest Hn.
  { destruct s; [done | cbn in Hn; lia]. }
  destruct s as [|c s1]; [done|]. cbn [Json.scanString String.length] in *.
  destruct (GoByte.eqb c GoByte.DQUOTE); [intros [= _ <-]; lia|].
  destruct (GoByte.eqb c "\").
  - destruct s1 as [|e s2]; [done|]. cbn [String.length] in *.
    destruct (GoByte.oneOf "bfnrt\/" e || GoByte.eqb e GoByte.DQUOTE).
    + intros [a H]%mapParsed_Parsed. apply IH in H; lia.
    + destruct (GoByte.eqb e "u"); [|done].
      destruct s2 as [|h1 [|h2 [|h3 [|h4 s6]]]];
        try (destruct (all Url.ishex _); done).
      destruct (Url.ishex h1 && Url.ishex h2 && Url.ishex h3 && Url.ishex h4); [|done].
      intros [a H]%mapParsed_Parsed. cbn [String.length] in *. apply IH in H; lia.
  - destruct (GoByte.code c <? 32)%N; [done|].
    intros [a H]%mapParsed_Parsed. apply IH in H; lia.
Qed.

Lemma skipDigits_len s : (len (Json.skipDigits s) <= len s)%nat.
Proof.
  unfold len. induction s as [|c s IH]; [done|]. cbn [Json.skipDigits].
  destruct (GoByte.isDigit c); cbn [String.length]; lia.
Qed.

Lemma digits1_len s (u : unit) rest :
  Json.digits1 s = Json.Parsed u rest -> (len rest <= len s)%nat.
Proof.
  destruct s as [|c s]; [done|]. cbn [Json.digits1].
  destruct (GoByte.isDigit c); [|done]. intros [= _ <-].
  pose proof (skipDigits_len s). unfold len in *. cbn [String.length]. lia.
Qed.

Lemma scanNumber_len s lit rest :
  Json.scanNumber s = Json.Parsed lit rest -> (len rest <= len s)%nat.
Proof.
  unfold Json.scanNumber.
  set (unsigned := match s with String "-" s' => s' | _ => s end).
  assert (len unsigned <= len s)%nat as Hu.
  { subst unsigned. destruct s as [|c s']; [done|].
    assert (forall x : string, (len x <= len (String c s'))%nat ->
            (len (match c with "-"%char => s' | _ => x end) <= len (String c s'))%nat) as H.
    { intros x Hx. each_byte c; try exact Hx; unfold len; cbn; lia. }
    apply (H (String c s')). lia. }
  clearbody unsigned.
  set (afterInt := match unsigned with
                   | EmptyString => Json.NeedMore
                   | String c s' => _ end).
  assert (forall (u : unit) r, afterInt = Json.Parsed u r -> (len r <= len unsigned)%nat)
    as Hi.
  { subst afterInt. intros u r. destruct unsigned as [|c s']; [done|].
    pose proof (skipDigits_len s'). unfold len in *. cbn [String.length].
    destruct (GoByte.eqb c "0"); [intros [= _ <-]; lia|].
    destruct (GoByte.between "1" "9" c); [intros [= _ <-]; lia | done]. }
  clearbody afterInt.
  set (afterFrac := match afterInt with
                    | Json.Parsed _ (String "." s') => Json.digits1 s'
                    | p => p end).
  assert (forall (u : unit) r, afterFrac = Json.Parsed u r -> (len r <= len unsigned)%nat)
    as Hf.
  { subst afterFrac. intros u r. destruct afterInt as [u0 r0| |]; [|done..].
    specialize (Hi u0 r0 eq_refl). destruct r0 as [|c s']; [intros [= _ <-]; exact Hi|].
    assert ((match c with "."%char => Json.digits1 s' | _ => Json.Parsed u0 (String c s') end)
            = Json.digits1 s'
            \/ (match c with "."%char => Json.digits1 s' | _ => Json.Parsed u0 (String c s') end)
               = Json.Parsed u0 (String c s')) as [->| ->].
    { each_byte c; auto. }
    - intros H%digits1_len. unfold len in *. cbn [String.length] in Hi. lia.
    - intros [= _ <-]. exact Hi. }
  clearbody afterFrac.
  set (afterExp := match afterFrac with
                   | Json.Parsed _ (String c s') => _
                   | p => p end).
  assert (forall (u : unit) r, afterExp = Json.Parsed u r -> (len r <= len unsigned)%nat)
    as He.
  { subst afterExp. intros u r. destruct afterFrac as [u0 r0| |]; [|done..].
    specialize (Hf u0 r0 eq_refl). destruct r0 as [|c s']; [intros [= _ <-]; exact Hf|].
    unfold len in *. cbn [String.length] in Hf.
    destruct (GoByte.oneOf "eE" c); [|intros [= _ <-]; cbn [String.length]; lia].
    destruct s' as [|sign s'']; [done|]. cbn [String.length] in Hf.
    destruct (GoByte.oneOf "+-" sign).
    - intros H%digits1_len. unfold len in H. lia.
    - intros H%digits1_len. unfold len in H. cbn [String.length] in H. lia. }
  clearbody afterExp.
  destruct afterExp as [u r| |]; [|done..]. intros [= _ <-].
  specialize (He u r eq_refl). lia.
Qed.

Lemma scanLiteral_len lit s (u : unit) rest :
  Json.scanLiteral lit s = Json.Parsed u rest -> (len rest <= len s)%nat.
Proof.
  unfold len. revert s. induction lit as [|l lit IH]; intros s; cbn [Json.scanLiteral].
  - by intros [= _ <-].
  - destruct s as [|c s']; [done|]. destruct (GoByte.eqb c l); [|done].
    intros H%IH. cbn [String.length]. lia.
Qed.

Ltac split_ifs :=
  repeat match goal with
         | |- context [if ?b then _ else _] => destruct b eqn:?
         end.

(** What a scanner leaves is no longer than what it was given. *)
Lemma scan_len fuel :
  (forall depth s v rest,
     Json.scanValue fuel depth s = Json.Parsed v rest -> (len rest <= len s)%nat)
  /\ (forall depth s b acc l rest,
        Json.scanElems fuel depth s b acc = Json.Parsed l rest -> (len rest <= len s)%nat)
  /\ (forall depth s b acc l rest,
        Json.scanMembers fuel depth s b acc = Json.Parsed l rest ->
        (len rest <= len s)%nat).
Proof.
  induction fuel as [|fuel (IHv & IHe & IHm)]; [by repeat split|].
  split; [|split].
  - intros depth s v rest. cbn [Json.scanValue].
    destruct (Json.skipSpace s) as [|c r] eqn:Es; [done|].
    apply skipSpace_cons in Es. split_ifs; try done.
    + intros [a H]%mapParsed_Parsed. apply IHm in H. lia.
    + intros [a H]%mapParsed_Parsed. apply IHe in H. lia.
    + intros [a H]%mapParsed_Parsed. apply (scanString_len (len r)) in H; lia.
    + intros [a H]%mapParsed_Parsed. apply scanNumber_len in H.
      unfold len in *. cbn [String.length] in H. lia.
    + intros [a H]%mapParsed_Parsed. apply scanLiteral_len in H. lia.
    + intros [a H]%mapParsed_Parsed. apply scanLiteral_len in H. lia.
    + intros [a H]%mapParsed_Parsed. apply scanLiteral_len in H. lia.
  - intros depth s b acc l rest. cbn [Json.scanElems].
    destruct (Json.skipSpace s) as [|c r] eqn:Es; [done|].
    apply skipSpace_cons in Es.
    destruct (GoByte.eqb c "]" && negb b && Json.isEmptyList acc);
      [intros [= _ <-]; lia|].
    destruct (Json.scanValue fuel depth s) as [v rest0| |] eqn:Ev; [|done..].
    apply IHv in Ev.
    destruct (Json.skipSpace rest0) as [|d r'] eqn:Er; [done|].
    apply skipSpace_cons in Er. split_ifs; try done.
    + intros H%IHe. lia.
    + intros [= _ <-]. lia.
  - intros depth s b acc l rest. cbn [Json.scanMembers].
    destruct (Json.skipSpace s) as [|c r] eqn:Es; [done|].
    apply skipSpace_cons in Es.
    destruct (GoByte.eqb c "}" && negb b && Json.isEmptyList acc);
      [intros [= _ <-]; lia|].
    destruct (GoByte.eqb c GoByte.DQUOTE); [|done].
    destruct (Json.scanString r) as [raw rest0| |] eqn:Ek; [|done..].
    apply (scanString_len (len r)) in Ek; [|lia].
    destruct (Json.skipSpace rest0) as [|colon r1] eqn:E1; [done|].
    apply skipSpace_cons in E1.
    destruct (GoByte.eqb colon ":"); [|done].
    destruct (Json.scanValue fuel depth r1) as [v rest1| |] eqn:Ev; [|done..].
    apply IHv in Ev.
    destruct (Json.skipSpace rest1) as [|d r'] eqn:Er; [done|].
    apply skipSpace_cons in Er. split_ifs; try done.
    + intros H%IHm. lia.
    + intros [= _ <-]. lia.
Qed.

(** Fuel beyond twice the length of the input changes nothing: the
    scanners give the same result for any two amounts that large. *)
Lemma scan_fuel n :
  (forall f1 f2 depth s,
     (len s <= n)%nat -> (2 * len s + 1 <= f1)%nat -> (2 * len s + 1 <= f2)%nat ->
     Json.scanValue f1 depth s = Json.scanValue f2 depth s)
  /\ (forall f1 f2 depth s b acc,
        (len s <= n)%nat -> (2 * len s + 2 <= f1)%nat -> (2 * len s + 2 <= f2)%nat ->
        Json.scanElems f1 depth s b acc = Json.scanElems f2 depth s b acc)
  /\ (forall f1 f2 depth s b acc,
        (len s <= n)%nat -> (2 * len s + 2 <= f1)%nat -> (2 * len s + 2 <= f2)%nat ->
        Json.scanMembers f1 depth s b acc = Json.scanMembers f2 depth s b acc).
Proof.
  induction n as [n IH] using lt_wf_ind.
  assert (forall f1 f2 depth s,
            (len s <= n)%nat -> (2 * len s + 1 <= f1)%nat -> (2 * len s + 1 <= f2)%nat ->
            Json.scanValue f1 depth s = Json.scanValue f2 depth s) as Hv.
  { intros f1 f2 depth s Hn H1 H2.
    destruct f1 as [|f1]; [lia|]. destruct f2 as [|f2]; [lia|].
    cbn [Json.scanValue].
    destruct (Json.skipSpace s) as [|c r] eqn:Es; [done|].
    apply skipSpace_cons in Es.
    destruct (IH (len r) ltac:(lia)) as (_ & IHe & IHm).
    split_ifs; try reflexivity.
    - f_equal. apply IHm; lia.
    - f_equal. apply IHe; lia. }
  split; [exact Hv|]. split.
  - intros f1 f2 depth s b acc Hn H1 H2.
    destruct f1 as [|f1]; [lia|]. destruct f2 as [|f2]; [lia|].
    cbn [Json.scanElems].
    destruct (Json.skipSpace s) as [|c r] eqn:Es; [done|].
    apply skipSpace_cons in Es.
    destruct (GoByte.eqb c "]" && negb b && Json.isEmptyList acc); [done|].
    rewrite (Hv f1 f2 depth s) by lia.
    destruct (Json.scanValue f2 depth s) as [v rest0| |] eqn:Ev; [|done..].
    apply scan_len in Ev.
    destruct (Json.skipSpace rest0) as [|d r'] eqn:Er; [done|].
    apply skipSpace_cons in Er.
    destruct (IH (len r') ltac:(lia)) as (_ & IHe & _).
    split_ifs; try reflexivity. apply IHe; lia.
  - intros f1 f2 depth s b acc Hn H1 H2.
    destruct f1 as [|f1]; [lia|]. destruct f2 as [|f2]; [lia|].
    cbn [Json.scanMembers].
    destruct (Json.skipSpace s) as [|c r] eqn:Es; [done|].
    apply skipSpace_cons in Es.
    destruct (GoByte.eqb c "}" && negb b && Json.isEmptyList acc); [done|].
    destruct (GoByte.eqb c GoByte.DQUOTE); [|done].
    destruct (Json.scanString r) as [raw rest0| |] eqn:Ek; [|done..].
    apply (scanString_len (len r)) in Ek; [|lia].
    destruct (Json.skipSpace rest0) as [|colon r1] eqn:E1; [done|].
    apply skipSpace_cons in E1.
    destruct (GoByte.eqb colon ":"); [|done].
    destruct (IH (len r1) ltac:(lia)) as (IHv & _ & _).
    rewrite (IHv f1 f2 depth r1) by lia.
    destruct (Json.scanValue f2 depth r1) as [v rest1| |] eqn:Ev; [|done..].
    apply scan_len in Ev.
    destruct (Json.skipSpace rest1) as [|d r'] eqn:Er; [done|].
    apply skipSpace_cons in Er.
    destruct (IH (len r') ltac:(lia)) as (_ & _ & IHm).
    split_ifs; try reflexivity. apply IHm; lia.
Qed.

(** The fuel [Decode] gives the scanner is enough: more of it gives the
    same result, so no answer of the decoder comes from the fuel running
    out. *)
Lemma scanValue_fuel_enough fuel depth s :
  (2 * len s + 1 <= fuel)%nat ->
  Json.scanValue fuel depth s = Json.scanValue (S (2 * len s)) depth s.
Proof.
  intros H. destruct (scan_fuel (len s)) as [Hv _]. apply Hv; lia.
Qed.
